(** * MOBILIO recommendation engine: a shallow embedding and its properties

    Sources embedded here:
    - [recomendation/services/database_manager.py]  (module [DatabaseManager])
    - [recomendation/services/ml_recommendation_service.py]
      (module [MLRecommendationService])
    - [recomendation/main.py]                        (module [main])

    Modelling conventions.
    - Python [float] and SQL [DECIMAL] values are exact rationals [Q].
    - A Python [dict] whose iteration order is observed (the rows of the two
      graphs) is an insertion-ordered association list; a [dict] that is only
      looked up by key is a [gmap].
    - Every call that leaves the process (a database round trip, a file
      write) goes through [external_call]: it is appended to the [trace],
      advances the [clock], and raises when its ordinal is listed in
      [faults].  This is how unreachable stores and failing reads are
      represented.
    - A database connection carries its own uncommitted view of the tables;
      [commit] publishes it, closing the connection discards it
      ([autocommit] is [False] for MySQL and the sqlite3 driver opens a
      transaction at the first DML statement).
    - numpy and scikit-learn are not part of the repository: the numeric
      kernels are a parameter ([MLKernels]); [None] stands for the
      [ImportError] branch.
    - SQL is given its MySQL reading, with the server's defaults where
      [src/] sets nothing: NULL compares equal to nothing and sorts first,
      a negative LIMIT is rejected, strings compare under a
      case-insensitive collation, a value stored in a DECIMAL(m,2) column
      is rounded to two decimals, and the driver (pymysql) hands the values
      of DECIMAL columns over as [decimal.Decimal].  The statements carry
      [%s] parameters, which the sqlite3 driver refuses.
    - A statement that the server rejects for a reason the tables of this
      model do not decide (a value outside the range of its column) is one
      of the [faults].
    - Wall-clock values (timestamps, training duration) are left out. *)

From Stdlib Require Import ZArith QArith Qabs Qminmax Qround String Ascii List Bool Lia Lqa.
From stdpp Require Import base option list gmap strings pretty sorting.

Local Open Scope Z_scope.

(* ===================================================================== *)
(** * Python idioms *)
(* ===================================================================== *)

Module Py.

(** Truthiness of the values the service tests with [if x] / [all(...)]. *)
Definition truthy_str (s : string) : bool :=
  match s with EmptyString => false | _ => true end.

Definition truthy_opt_str (s : option string) : bool :=
  match s with Some s => truthy_str s | None => false end.

Definition truthy_num (x : Q) : bool := negb (Qeq_bool x 0).

Definition truthy_opt_num (x : option Q) : bool :=
  match x with Some x => truthy_num x | None => false end.

Definition all (l : list bool) : bool := forallb id l.

(** [a > b] on numbers. *)
Definition gtb (a b : Q) : bool := negb (Qle_bool a b).

(** [l[:n]]: a negative bound counts from the end. *)
Definition slice_to {A} (n : Z) (l : list A) : list A :=
  if 0 <=? n then take (Z.to_nat n) l
  else take (length l - Z.to_nat (- n))%nat l.

(** [sorted] is stable.  [before y x] says that [y] sorts strictly before
    [x]; an element is inserted in front of the first element that does
    not sort strictly before it, so equal elements keep the order they had
    in the input. *)
Section Sorted.
Context {A : Type} (before : A -> A -> bool).

Fixpoint insert_stable (x : A) (s : list A) : list A :=
  match s with
  | [] => [x]
  | y :: s' => if before y x then y :: insert_stable x s' else x :: s
  end.

Definition sorted (l : list A) : list A := foldr insert_stable [] l.
End Sorted.

(** [sorted(items, key=lambda x: x[1], reverse=True)]: descending by the
    second component; [reverse=True] keeps the stability of the sort. *)
Definition sorted_by_value_desc {K} (items : list (K * Q)) : list (K * Q) :=
  sorted (fun y x => gtb (snd y) (snd x)) items.

(** An insertion-ordered [dict]: [d[k] = v] overwrites in place when the
    key is present and appends otherwise. *)
Fixpoint dict_set {V} (k : Z) (v : V) (d : list (Z * V)) : list (Z * V) :=
  match d with
  | [] => [(k, v)]
  | (k', v') :: d' =>
      if Z.eqb k k' then (k, v) :: d' else (k', v') :: dict_set k v d'
  end.

Fixpoint dict_get {V} (k : Z) (d : list (Z * V)) : option V :=
  match d with
  | [] => None
  | (k', v') :: d' => if Z.eqb k k' then Some v' else dict_get k d'
  end.

End Py.

(* ===================================================================== *)
(** * Data model *)
(* ===================================================================== *)

(** Rows of the four tables, with the columns the service reads or writes
    ([synced_at] is a wall-clock default and is left out). *)
Record UserRow := mkUser {
  u_id : Z; u_name : string; u_email : string;
  u_password : string; u_role : string; u_sort_option : option string }.

Record ProductRow := mkProduct {
  p_id : Z; p_name : string; p_price : option Q;
  p_brand : option string; p_category : option string;
  p_rating : option Q; p_picture : option string; p_stock : option Z }.

Record OrderRow := mkOrder {
  o_id : Z; o_customer_id : Z; o_total_amount : Q; o_created_at : Z;
  o_stripe_session_id : option string }.

Record OrderItemRow := mkOrderItem {
  oi_id : Z; oi_order_id : Z; oi_product_id : Z; oi_quantity : Z;
  oi_total_amount : Q }.

Record Tables := mkTables {
  t_users : list UserRow;
  t_products : list ProductRow;
  t_orders : list OrderRow;
  t_orderitem : list OrderItemRow }.

Inductive table := Users | Products | Orders | OrderItem.

Definition clear_table (t : table) (db : Tables) : Tables :=
  match t with
  | Users => mkTables [] (t_products db) (t_orders db) (t_orderitem db)
  | Products => mkTables (t_users db) [] (t_orders db) (t_orderitem db)
  | Orders => mkTables (t_users db) (t_products db) [] (t_orderitem db)
  | OrderItem => mkTables (t_users db) (t_products db) (t_orders db) []
  end.

(** A graph is a dict of dicts: product id to an ordered row of
    (neighbour id, weight). *)
Abbreviation graph := (gmap Z (list (Z * Q))).
Abbreviation features := (gmap Z ProductRow).

Definition edge (g : graph) (a b : Z) : option Q :=
  g !! a ≫= Py.dict_get b.

(** [g[a][b] = v] on a [defaultdict(dict)]. *)
Definition graph_set (a b : Z) (v : Q) (g : graph) : graph :=
  <[a := Py.dict_set b v (default [] (g !! a))]> g.

(** [sum(len(v) for v in g.values())] *)
Definition edge_count (g : graph) : nat :=
  map_fold (fun _ row n => (length row + n)%nat) 0%nat g.

(** What a file that exists holds: the pickle of an object, or what
    [open(path, 'wb')] leaves when the dump after it does not complete. *)
Inductive pickle (A : Type) :=
| Truncated
| Pickled (obj : A).
Arguments Truncated {A}.
Arguments Pickled {A} obj.

(** The three pickle files under [model_path].  The outer [option] is the
    existence of the file, the pickled object is the attribute (which may
    be Python's [None]). *)
Record ModelFiles := mkFiles {
  similarity_matrix_pkl : option (pickle (option graph));
  copurchase_matrix_pkl : option (pickle (option graph));
  product_features_pkl : option (pickle features) }.

(** What the endpoints return on success. *)
Inductive reason :=
| MLSimilarity (score : Q)            (* "Similar to your selected product (ML similarity: ..)" *)
| FrequentlyBought (frequency : Q)    (* "Frequently bought together (.. times with others)" *)
| SameCategoryAs (name : string)      (* "Same category as .." *)
| OftenBought (purchase_count : Z).   (* "Often bought together (.. times)" *)

Record ProductRecommendation := mkRecommendation {
  r_product_id : Z; r_name : string; r_price : Q;
  r_brand : option string; r_category : option string;
  r_rating : option Q; r_picture : option string;
  r_score : Q; r_reason : reason }.

(* ===================================================================== *)
(** * Exceptions, state and the effect monad *)
(* ===================================================================== *)

Inductive exn :=
| OperationalError          (* raised by the database driver *)
| IntegrityError            (* duplicate primary key on INSERT *)
| OSError                   (* a file or directory operation failed *)
| EOFError                  (* pickle.load ran out of input *)
| ImportError               (* numpy / scikit-learn missing *)
| IndexError
| TypeError
| ValueError                (* raised inside the numeric kernels *)
| ZeroDivisionError
| ValidationError           (* pydantic rejects a ProductRecommendation *)
| HTTPException (status_code : Z) (detail : string).

(** [str(e)]; for [HTTPException] this is "<status>: <detail>", for the
    other exceptions the name of the class stands for the message. *)
Definition str (e : exn) : string :=
  match e with
  | OperationalError => "OperationalError"
  | IntegrityError => "IntegrityError"
  | OSError => "OSError"
  | EOFError => "EOFError"
  | ImportError => "ImportError"
  | IndexError => "IndexError"
  | TypeError => "TypeError"
  | ValueError => "ValueError"
  | ZeroDivisionError => "ZeroDivisionError"
  | ValidationError => "ValidationError"
  | HTTPException c d => pretty c +:+ ": " +:+ d
  end.

Inductive store := Production | Analytics.

(** The SQL statements the service issues, with their bound parameters. *)
Inductive sql :=
| DeleteFrom (t : table)
| SelectUsers                       (* SELECT id, name, email FROM users *)
| SelectProducts                    (* SELECT * FROM products *)
| SelectOrders                      (* SELECT * FROM orders *)
| SelectOrderItems                  (* SELECT * FROM orderitem *)
| InsertUser (id : Z)
| InsertProduct (id : Z)
| InsertOrder (id : Z)
| InsertOrderItem (id : Z)
| SelectInteractions                (* customer x product, SUM(quantity) *)
| SelectDistinctProductIds          (* SELECT DISTINCT product_id .. ORDER BY product_id *)
| SelectCoOccurrences               (* self join of orderitem, HAVING frequency >= 2 *)
| SelectProductFeatures             (* SELECT id, name, price, brand, category, rating *)
| SelectOne                         (* SELECT 1 *)
| SelectProductById (product_id : Z)
| SelectSameCategory (category : option string) (product_id : Z) (limit : Z)
| SelectBoughtWith (product_id : Z) (limit : Z).

Inductive event :=
| Connect (s : store)
| Script (s : store)                (* the CREATE TABLE IF NOT EXISTS script *)
| Execute (s : store) (q : sql)
| Commit (s : store)
| MakeDirs                          (* os.makedirs(model_path, exist_ok=True) *)
| FileRead (name : string)          (* open(path, 'rb') and pickle.load *)
| FileOpen (name : string)          (* open(path, 'wb') *)
| FileWrite (name : string)         (* pickle.dump into the open file *)
| Factorize.                        (* _matrix_factorization was run *)

Definition is_store_access (ev : event) : bool :=
  match ev with
  | Connect _ | Script _ | Execute _ _ | Commit _ => true
  | MakeDirs | FileRead _ | FileOpen _ | FileWrite _ | Factorize => false
  end.

(** The attributes of an [MLRecommendationService] instance. *)
Record Service := mkService {
  similarity_matrix : option graph;
  copurchase_matrix : option graph;
  product_features : features;
  models_trained : bool }.

(** Everything outside the instance. *)
Record World := mkWorld {
  production : Tables;              (* committed rows of the live source *)
  analytics : Tables;               (* committed rows of the mirror *)
  files : ModelFiles;
  faults : list nat;                (* ordinals of the external calls that raise *)
  clock : nat;                      (* external calls made so far *)
  trace : list event }.             (* external calls, most recent first *)

Record State := mkState { self : Service; world : World }.

Definition committed (s : store) (w : World) : Tables :=
  match s with Production => production w | Analytics => analytics w end.

Definition set_committed (s : store) (db : Tables) (w : World) : World :=
  match s with
  | Production => mkWorld db (analytics w) (files w) (faults w) (clock w) (trace w)
  | Analytics => mkWorld (production w) db (files w) (faults w) (clock w) (trace w)
  end.

Definition set_files (f : ModelFiles) (w : World) : World :=
  mkWorld (production w) (analytics w) f (faults w) (clock w) (trace w).

Definition M (A : Type) : Type := State -> (exn + A) * State.

#[global] Instance M_ret : MRet M := fun A a s => (inr a, s).

#[global] Instance M_bind : MBind M := fun A B k m s =>
  match m s with
  | (inl e, s') => (inl e, s')
  | (inr a, s') => k a s'
  end.

Definition raise {A} (e : exn) : M A := fun s => (inl e, s).

(** [try: m  except Exception as e: h e] *)
Definition try_except {A} (m : M A) (h : exn -> M A) : M A := fun s =>
  match m s with
  | (inl e, s') => h e s'
  | (inr a, s') => (inr a, s')
  end.

(** [try: m  except ImportError: h] *)
Definition try_except_ImportError {A} (m : M A) (h : M A) : M A := fun s =>
  match m s with
  | (inl ImportError, s') => h s'
  | r => r
  end.

(** [try: m  finally: f] *)
Definition try_finally {A} (m : M A) (f : M unit) : M A := fun s =>
  match m s with
  | (r, s') =>
      match f s' with
      | (inl e, s'') => (inl e, s'')
      | (inr _, s'') => (r, s'')
      end
  end.

(** The outcome of a computation that touches no state. *)
Definition lift {A} (r : exn + A) : M A := fun s => (r, s).

Definition get_state : M State := fun s => (inr s, s).
Definition modify_self (f : Service -> Service) : M unit :=
  fun s => (inr tt, mkState (f (self s)) (world s)).
Definition modify_world (f : World -> World) : M unit :=
  fun s => (inr tt, mkState (self s) (f (world s))).

(** [for x in l: acc = body acc x] *)
Fixpoint for_each {A S} (l : list A) (body : S -> A -> M S) (acc : S) : M S :=
  match l with
  | [] => mret acc
  | x :: l' => acc' ← body acc x; for_each l' body acc'
  end.

(** A step of the instance itself that is worth seeing in the trace. *)
Definition record_event (ev : event) : M unit :=
  modify_world (fun w =>
    mkWorld (production w) (analytics w) (files w) (faults w)
            (clock w) (ev :: trace w)).

(** One call that leaves the process. *)
Definition external_call (ev : event) (e : exn) : M unit := fun s =>
  let w := world s in
  let w' := mkWorld (production w) (analytics w) (files w) (faults w)
                    (S (clock w)) (ev :: trace w) in
  if bool_decide (clock w ∈ faults w)
  then (inl e, mkState (self s) w')
  else (inr tt, mkState (self s) w').

(* ===================================================================== *)
(** * Meaning of the SQL statements *)
(* ===================================================================== *)

Module SQL.

(** NULL sorts below every value in ORDER BY. *)
Definition opt_ltb (a b : option Q) : bool :=
  match a, b with
  | None, Some _ => true
  | Some x, Some y => Py.gtb y x
  | _, _ => false
  end.

Definition opt_eqb (a b : option Q) : bool :=
  match a, b with
  | None, None => true
  | Some x, Some y => Qeq_bool x y
  | _, _ => false
  end.

(** Strings compare under the collation of their column.  [src/] sets
    none, and the defaults of the server (utf8mb4_0900_ai_ci,
    utf8mb4_general_ci, latin1_swedish_ci) all compare without regard to
    the case of the letters. *)
Definition lower (c : ascii) : ascii :=
  if (65 <=? nat_of_ascii c)%nat && (nat_of_ascii c <=? 90)%nat
  then ascii_of_nat (nat_of_ascii c + 32) else c.

Fixpoint fold_case (s : string) : string :=
  match s with
  | EmptyString => EmptyString
  | String c s' => String (lower c) (fold_case s')
  end.

Definition collate (a b : string) : bool := String.eqb (fold_case a) (fold_case b).

(** [col = %s]: a comparison with NULL never holds. *)
Definition eq_param (col param : option string) : bool :=
  match col, param with
  | Some c, Some p => collate c p
  | _, _ => false
  end.

(** What a DECIMAL(m,2) column keeps of a value: an insert rounds to two
    decimals, half away from zero, whether the value came as an exact or as
    an approximate number. *)
Definition round_half_away (x : Q) : Z :=
  Z.sgn (Qnum x) * Qfloor (Qabs x + (1 # 2)).

Definition decimal_2 (x : Q) : Q := (inject_Z (round_half_away (x * 100)) / 100)%Q.

(** [stock > 0] *)
Definition in_stock (p : ProductRow) : bool :=
  match p_stock p with Some n => 0 <? n | None => false end.

(** [LIMIT n]: MySQL rejects a negative row count. *)
Definition limit {A} (n : Z) (rows : list A) : option (list A) :=
  if n <? 0 then None else Some (take (Z.to_nat n) rows).

Definition primary_key_free {A} (id : A -> Z) (k : Z) (rows : list A) : bool :=
  negb (existsb (fun r => Z.eqb (id r) k) rows).

(** [SELECT id, name, email FROM users] *)
Definition select_users (db : Tables) : list (Z * string * string) :=
  map (fun u => (u_id u, u_name u, u_email u)) (t_users db).

(** [FROM orders JOIN orderitem ON orders.id = orderitem.order_id] *)
Definition orders_join_items (db : Tables) : list (OrderRow * OrderItemRow) :=
  filter (fun r => o_id (fst r) = oi_order_id (snd r))
         (list_prod (t_orders db) (t_orderitem db)).

(** [SELECT DISTINCT orders.customer_id, orderitem.product_id,
            SUM(orderitem.quantity) AS interaction_strength
     FROM orders JOIN orderitem ON orders.id = orderitem.order_id
     GROUP BY orders.customer_id, orderitem.product_id] *)
Definition select_interactions (db : Tables) : list (Z * Z * Z) :=
  let joined := orders_join_items db in
  let group r := (o_customer_id (fst r), oi_product_id (snd r)) in
  map (fun g =>
         (g, foldr Z.add 0
               (map (fun r => oi_quantity (snd r))
                    (filter (fun r => group r = g) joined))))
      (remove_dups (map group joined)).

(** [SELECT DISTINCT product_id FROM orderitem ORDER BY product_id] *)
Definition select_distinct_product_ids (db : Tables) : list Z :=
  merge_sort Z.le (remove_dups (map oi_product_id (t_orderitem db))).

(** [FROM orderitem o1 JOIN orderitem o2
     ON o1.order_id = o2.order_id AND o1.product_id < o2.product_id] *)
Definition items_join_items (db : Tables) : list (OrderItemRow * OrderItemRow) :=
  filter (fun r => oi_order_id (fst r) = oi_order_id (snd r)
                   /\ oi_product_id (fst r) < oi_product_id (snd r))
         (list_prod (t_orderitem db) (t_orderitem db)).

(** The grouping key [o1.product_id, o2.product_id]. *)
Definition product_pair (r : OrderItemRow * OrderItemRow) : Z * Z :=
  (oi_product_id (fst r), oi_product_id (snd r)).

(** [COUNT( * ) AS frequency] of one group *)
Definition frequency (db : Tables) (pair : Z * Z) : Z :=
  Z.of_nat (length (filter (fun r => product_pair r = pair) (items_join_items db))).

(** [SELECT o1.product_id AS product1, o2.product_id AS product2,
            COUNT( * ) AS frequency
     FROM orderitem o1 JOIN orderitem o2 ON ...
     GROUP BY o1.product_id, o2.product_id
     HAVING frequency >= 2 ORDER BY frequency DESC] *)
Definition select_cooccurrences (db : Tables) : list (Z * Z * Z) :=
  Py.sorted (fun y x => snd x <? snd y)
    (filter (fun row => 2 <= snd row)
       (map (fun pair => (pair, frequency db pair))
            (remove_dups (map product_pair (items_join_items db))))).

(** [SELECT * FROM products WHERE id = %s], [fetchone()] *)
Definition select_product_by_id (pid : Z) (db : Tables) : option ProductRow :=
  head (filter (fun p => p_id p = pid) (t_products db)).

(** [SELECT * FROM products
     WHERE category = %s AND id != %s AND stock > 0
     ORDER BY rating DESC, price ASC LIMIT %s] *)
Definition select_same_category
    (category : option string) (pid n : Z) (db : Tables)
  : option (list ProductRow) :=
  limit n
    (Py.sorted
       (fun y x => opt_ltb (p_rating x) (p_rating y)
                   || (opt_eqb (p_rating x) (p_rating y)
                       && opt_ltb (p_price y) (p_price x)))
       (filter
          (fun p => eq_param (p_category p) category /\ p_id p <> pid /\ in_stock p)
          (t_products db))).

(** [COUNT( * ) AS purchase_count] of the group of product [p]: the rows of
    [orderitem oi1 JOIN orderitem oi2 ON oi1.order_id = oi2.order_id]
    with [oi1.product_id = p.id] and [oi2.product_id = %s]. *)
Definition purchase_count (pid : Z) (db : Tables) (p : ProductRow) : Z :=
  Z.of_nat (length (filter
    (fun r => oi_product_id (fst r) = p_id p
              /\ oi_order_id (fst r) = oi_order_id (snd r)
              /\ oi_product_id (snd r) = pid)
    (list_prod (t_orderitem db) (t_orderitem db)))).

(** [SELECT p.*, COUNT( * ) AS purchase_count
     FROM products p JOIN orderitem oi1 ON p.id = oi1.product_id
                     JOIN orderitem oi2 ON oi1.order_id = oi2.order_id
     WHERE oi2.product_id = %s AND p.id != %s AND p.stock > 0
     GROUP BY p.id ORDER BY purchase_count DESC LIMIT %s] *)
Definition select_bought_with (pid n : Z) (db : Tables)
  : option (list (ProductRow * Z)) :=
  limit n
    (Py.sorted (fun y x => snd x <? snd y)
       (filter (fun row => 0 < snd row)
          (map (fun p => (p, purchase_count pid db p))
               (filter (fun p => p_id p <> pid /\ in_stock p)
                       (t_products db))))).

End SQL.

(* ===================================================================== *)
(** * database_manager.py *)
(* ===================================================================== *)

(** A live connection: the store it talks to and the rows as this
    connection sees them, including its own uncommitted changes. *)
Record Connection := mkConnection { c_store : store; c_view : Tables }.

Module DatabaseManager.

(** [get_connection]: connecting is one external call. *)
Definition get_connection (s : store) : M Connection :=
  external_call (Connect s) OperationalError;;
  st ← get_state;
  mret (mkConnection s (committed s (world st))).

(** [cursor.execute(q)] for a statement that only reads. *)
Definition execute_read {A} (conn : Connection) (q : sql)
    (rows : Tables -> A) : M A :=
  external_call (Execute (c_store conn) q) OperationalError;;
  mret (rows (c_view conn)).

(** [cursor.execute(q)] for a statement that may be rejected by the
    server (a negative LIMIT). *)
Definition execute_checked {A} (conn : Connection) (q : sql)
    (rows : Tables -> option A) : M A :=
  external_call (Execute (c_store conn) q) OperationalError;;
  match rows (c_view conn) with
  | Some r => mret r
  | None => raise OperationalError
  end.

(** [cursor.execute(q)] for DELETE / INSERT: the change stays in the
    connection until [commit]. *)
Definition execute_write (conn : Connection) (q : sql)
    (change : Tables -> option Tables) : M Connection :=
  external_call (Execute (c_store conn) q) OperationalError;;
  match change (c_view conn) with
  | Some db => mret (mkConnection (c_store conn) db)
  | None => raise IntegrityError
  end.

(** [conn.commit()] *)
Definition commit (conn : Connection) : M unit :=
  external_call (Commit (c_store conn)) OperationalError;;
  modify_world (set_committed (c_store conn) (c_view conn)).

(** [conn.close()]: uncommitted changes are dropped with the connection. *)
Definition close (conn : Connection) : M unit := mret tt.

(** [execute_script] with the CREATE TABLE IF NOT EXISTS script: the four
    tables exist in [Tables], so no row changes. *)
Definition execute_script (s : store) : M unit :=
  conn ← get_connection s;
  try_finally
    (external_call (Script s) OperationalError;;
     commit conn)
    (close conn).

End DatabaseManager.

(* ===================================================================== *)
(** * ml_recommendation_service.py *)
(* ===================================================================== *)

(** The numeric kernels taken from numpy and scikit-learn.
    - [factorize m]: the item embeddings computed by the gradient-descent
      loops of [_matrix_factorization] from the user x item matrix;
    - [cosine_similarity]: sklearn's pairwise cosine similarity;
    - [scale_and_reduce]: [StandardScaler().fit_transform] followed by
      [PCA(n_components=min(10, n_features)).fit_transform], which raises
      [ValueError] when there are fewer samples than components. *)
Record MLKernels := mkKernels {
  factorize : list (list Z) -> list (list Q);
  cosine_similarity : list (list Q) -> list (list Q);
  scale_and_reduce : list (list Q) -> option (list (list Q)) }.

Inductive sync_result :=
| SyncSuccess (users_synced products_synced orders_synced order_items_synced : nat)
| SyncError (error : string).

Inductive train_result :=
| TrainSuccess (products_count copurchase_pairs similarity_pairs : nat)
| TrainError (error : string).

Inductive health :=
| HealthReport (status : string) (trained : bool)
               (model_files : bool * bool * bool)
               (database_status : string * string)
               (model_statistics : option (nat * nat * nat))
| HealthError (error : string).

Definition sync_status (r : sync_result) : string :=
  match r with SyncSuccess _ _ _ _ => "success" | SyncError _ => "error" end.

Definition train_status (r : train_result) : string :=
  match r with TrainSuccess _ _ _ => "success" | TrainError _ => "error" end.

Definition health_status (h : health) : string :=
  match h with HealthReport st _ _ _ _ => st | HealthError _ => "error" end.

Module MLRecommendationService.
Section WithKernels.

(** [None]: importing numpy / sklearn raises [ImportError]. *)
Variable ml : option MLKernels.

Definition set_similarity_matrix (g : option graph) : M unit :=
modify_self (fun sv => mkService g (copurchase_matrix sv)
                                 (product_features sv) (models_trained sv)).
Definition set_copurchase_matrix (g : option graph) : M unit :=
modify_self (fun sv => mkService (similarity_matrix sv) g
                                 (product_features sv) (models_trained sv)).
Definition set_product_features (f : features) : M unit :=
modify_self (fun sv => mkService (similarity_matrix sv) (copurchase_matrix sv)
                                 f (models_trained sv)).
Definition set_models_trained (b : bool) : M unit :=
modify_self (fun sv => mkService (similarity_matrix sv) (copurchase_matrix sv)
                                 (product_features sv) b).

(** [with open(path, 'rb') as f: pickle.load(f)]: an external read.  A
  truncated file has no pickle to load. *)
Definition read_file {A} (name : string)
  (content : ModelFiles -> option (pickle A)) : M A :=
external_call (FileRead name) OSError;;
st ← get_state;
match content (files (world st)) with
| Some (Pickled v) => mret v
| Some Truncated => raise EOFError
| None => raise OSError
end.

Definition _load_models : M unit :=
try_except
  (st ← get_state;
   let f := files (world st) in
   if Py.all [bool_decide (is_Some (similarity_matrix_pkl f));
              bool_decide (is_Some (copurchase_matrix_pkl f));
              bool_decide (is_Some (product_features_pkl f))]
   then
     sm ← read_file "similarity_matrix.pkl" similarity_matrix_pkl;
     set_similarity_matrix sm;;
     cm ← read_file "copurchase_matrix.pkl" copurchase_matrix_pkl;
     set_copurchase_matrix cm;;
     pf ← read_file "product_features.pkl" product_features_pkl;
     set_product_features pf;;
     set_models_trained true
   else mret tt)
  (fun _ => set_models_trained false).

(** [os.makedirs] runs outside any [try]: when it raises, so does the
  constructor.  The directory itself is not part of the state: every
  instance creates it before it touches a file. *)
Definition __init__ : M unit :=
modify_self (fun _ => mkService None None ∅ false);;
external_call MakeDirs OSError;;
_load_models.

(** [with open(path, 'wb') as f: pickle.dump(obj, f)]: opening truncates
  the file, or creates it empty, before anything is dumped; [put] stores
  the new state of the file. *)
Definition write_file {A} (name : string)
  (put : pickle A -> ModelFiles -> ModelFiles) (obj : A) : M unit :=
external_call (FileOpen name) OSError;;
modify_world (fun w => set_files (put Truncated (files w)) w);;
external_call (FileWrite name) OSError;;
modify_world (fun w => set_files (put (Pickled obj) (files w)) w).

Definition put_similarity_matrix (c : pickle (option graph)) (f : ModelFiles) :=
mkFiles (Some c) (copurchase_matrix_pkl f) (product_features_pkl f).
Definition put_copurchase_matrix (c : pickle (option graph)) (f : ModelFiles) :=
mkFiles (similarity_matrix_pkl f) (Some c) (product_features_pkl f).
Definition put_product_features (c : pickle features) (f : ModelFiles) :=
mkFiles (similarity_matrix_pkl f) (copurchase_matrix_pkl f) (Some c).

Definition _save_models : M unit :=
try_except
  (st ← get_state;
   write_file "similarity_matrix.pkl" put_similarity_matrix
     (similarity_matrix (self st));;
   write_file "copurchase_matrix.pkl" put_copurchase_matrix
     (copurchase_matrix (self st));;
   write_file "product_features.pkl" put_product_features
     (product_features (self st)))
  (fun _ => mret tt).

(** ** sync_production_data *)

Definition insert_user (c : Connection) (user : Z * string * string) : M Connection :=
let '(id, name, email) := user in
DatabaseManager.execute_write c (InsertUser id) (fun db =>
  if SQL.primary_key_free u_id id (t_users db)
  then Some (mkTables (t_users db ++ [mkUser id name email "synced" "customer" None])
                      (t_products db) (t_orders db) (t_orderitem db))
  else None).

(** The mirror declares [price DECIMAL(10,2)] and [rating DECIMAL(3,2)]. *)
Definition insert_product (c : Connection) (product : ProductRow) : M Connection :=
DatabaseManager.execute_write c (InsertProduct (p_id product)) (fun db =>
  if SQL.primary_key_free p_id (p_id product) (t_products db)
  then Some (mkTables (t_users db)
               (t_products db ++ [mkProduct (p_id product) (p_name product)
                                    (SQL.decimal_2 <$> p_price product)
                                    (p_brand product) (p_category product)
                                    (SQL.decimal_2 <$> p_rating product)
                                    (p_picture product) (p_stock product)])
               (t_orders db) (t_orderitem db))
  else None).

(** [total_amount DECIMAL(10,2)]; the payment session is not copied. *)
Definition insert_order (c : Connection) (order : OrderRow) : M Connection :=
DatabaseManager.execute_write c (InsertOrder (o_id order)) (fun db =>
  if SQL.primary_key_free o_id (o_id order) (t_orders db)
  then Some (mkTables (t_users db) (t_products db)
               (t_orders db ++ [mkOrder (o_id order) (o_customer_id order)
                                  (SQL.decimal_2 (o_total_amount order))
                                  (o_created_at order) None])
               (t_orderitem db))
  else None).

(** [total_amount DECIMAL(10,2)] *)
Definition insert_order_item (c : Connection) (item : OrderItemRow) : M Connection :=
DatabaseManager.execute_write c (InsertOrderItem (oi_id item)) (fun db =>
  if SQL.primary_key_free oi_id (oi_id item) (t_orderitem db)
  then Some (mkTables (t_users db) (t_products db) (t_orders db)
               (t_orderitem db ++ [mkOrderItem (oi_id item) (oi_order_id item)
                                     (oi_product_id item) (oi_quantity item)
                                     (SQL.decimal_2 (oi_total_amount item))]))
  else None).

Definition sync_production_data : M sync_result :=
try_except
  (DatabaseManager.execute_script Analytics;;
   prod_conn ← DatabaseManager.get_connection Production;
   analytics_conn ← DatabaseManager.get_connection Analytics;
   try_finally
     ((* Clear analytics data *)
      c ← for_each [Users; Products; Orders; OrderItem]
            (fun c t => DatabaseManager.execute_write c (DeleteFrom t)
                          (fun db => Some (clear_table t db)))
            analytics_conn;
      users ← DatabaseManager.execute_read prod_conn SelectUsers SQL.select_users;
      c ← for_each users insert_user c;
      products ← DatabaseManager.execute_read prod_conn SelectProducts t_products;
      c ← for_each products insert_product c;
      orders ← DatabaseManager.execute_read prod_conn SelectOrders t_orders;
      c ← for_each orders insert_order c;
      order_items ← DatabaseManager.execute_read prod_conn SelectOrderItems t_orderitem;
      c ← for_each order_items insert_order_item c;
      DatabaseManager.commit c;;
      mret (SyncSuccess (length users) (length products)
                        (length orders) (length order_items)))
     (DatabaseManager.close prod_conn;;
      DatabaseManager.close analytics_conn))
  (fun e => mret (SyncError (str e))).

(** ** Co-purchase trainer *)

(** [_build_user_item_matrix]: [None] when there are no interactions or
  when anything raises (numpy missing, the query failing). *)
Definition _build_user_item_matrix (conn : Connection)
: M (option (list (list Z))) :=
try_except
  (match ml with None => raise ImportError | Some _ => mret tt end;;
   interactions ← DatabaseManager.execute_read conn SelectInteractions
                    SQL.select_interactions;
   match interactions with
   | [] => mret None
   | _ =>
       let user_ids := merge_sort Z.le (remove_dups (map (fun r => fst (fst r)) interactions)) in
       let item_ids := merge_sort Z.le (remove_dups (map (fun r => snd (fst r)) interactions)) in
       mret (Some
         (map (fun u =>
            map (fun i =>
              default 0
                (last (map snd
                         (filter (fun r => fst r = (u, i)) interactions))))
              item_ids)
            user_ids))
   end)
  (fun _ => mret None).

(** [_matrix_factorization]: the loops are the kernel [factorize]. *)
Definition _matrix_factorization (k : MLKernels)
  (user_item_matrix : list (list Z)) : M (list (list Q)) :=
record_event Factorize;;
mret (factorize k user_item_matrix).

(** [_build_simple_copurchase_matrix]: both directions of every row. *)
Definition _build_simple_copurchase_matrix (conn : Connection) : M graph :=
results ← DatabaseManager.execute_read conn SelectCoOccurrences
            SQL.select_cooccurrences;
mret (foldl (fun copurchase '(product1, product2, frequency) =>
               graph_set product2 product1 (inject_Z frequency)
                 (graph_set product1 product2 (inject_Z frequency) copurchase))
            ∅ results).

(** [m[i][j]], raising [IndexError] out of range. *)
Definition index2 (m : list (list Q)) (i j : nat) : M Q :=
match m !! i ≫= (fun row => row !! j) with
| Some x => mret x
| None => raise IndexError
end.

(** The double loop over [enumerate(product_ids)] that keeps the pairs
  whose similarity exceeds [threshold], storing [scale * similarity]. *)
Definition threshold_graph (threshold scale : Q)
  (product_ids : list Z) (similarities : list (list Q)) : M graph :=
for_each (imap pair product_ids)
  (fun g '(i, prod_id1) =>
     for_each (imap pair product_ids)
       (fun g '(j, prod_id2) =>
          if Nat.eqb i j then mret g
          else
            sim ← index2 similarities i j;
            if Py.gtb sim threshold
            then mret (graph_set prod_id1 prod_id2 (sim * scale)%Q g)
            else mret g)
       g)
  ∅.

Definition _build_copurchase_matrix (conn : Connection) : M graph :=
try_except_ImportError
  (match ml with
   | None => raise ImportError
   | Some k =>
       user_item_matrix ← _build_user_item_matrix conn;
       match user_item_matrix with
       | None => _build_simple_copurchase_matrix conn
       | Some m =>
           item_embeddings ← _matrix_factorization k m;
           product_ids ← DatabaseManager.execute_read conn
                           SelectDistinctProductIds
                           SQL.select_distinct_product_ids;
           if (1 <? length item_embeddings)%nat
           then threshold_graph (2 # 10) 10 product_ids
                  (cosine_similarity k item_embeddings)
           else mret ∅
       end
   end)
  (_build_simple_copurchase_matrix conn).

(** ** Content similarity trainer *)

(** [price_sim * 0.2], the product of a [Decimal] and a [float]: Python
  refuses to mix the two in arithmetic. *)
Definition decimal_times_float (d f : Q) : exn + Q := inl TypeError.

(** The two rows are rows of the mirror ([_build_simple_similarity_matrix]
  is the only caller), so a price is a [Decimal]: the difference, [max] and
  the quotient stay in [Decimal], the product with the float 0.2 raises.
  The running [score] is a float sum of 0.4 and 0.3, which the comparisons
  below read as the exact sum does. *)
Definition _calculate_product_similarity (prod1 prod2 : ProductRow) : exn + Q :=
let score := 0%Q in
let score :=
  if bool_decide (p_category prod1 = p_category prod2)
  then (score + (4 # 10))%Q else score in
let score :=
  if bool_decide (p_brand prod1 = p_brand prod2)
  then (score + (3 # 10))%Q else score in
match p_price prod1, p_price prod2 with
| Some price1, Some price2 =>
    if Py.truthy_num price1 && Py.truthy_num price2 then
      let price_diff := Qabs (price1 - price2) in
      let max_price := Qmax price1 price2 in
      if Py.gtb max_price 0
      then
        let price_sim := (1 - price_diff / max_price)%Q in
        match decimal_times_float price_sim (2 # 10) with
        | inr term => inr (Qmin (score + term) 1)
        | inl e => inl e
        end
      else inr (Qmin score 1)
    else inr (Qmin score 1)
| _, _ => inr (Qmin score 1)
end.

(** The inner loop [for j, prod2 in enumerate(products[i+1:], i+1)]. *)
Definition similarity_row (prod1 : ProductRow) (later : list ProductRow)
  (similarity : graph) : M graph :=
for_each later
  (fun similarity prod2 =>
     sim_score ← lift (_calculate_product_similarity prod1 prod2);
     if Py.gtb sim_score (3 # 10)
     then mret (graph_set (p_id prod2) (p_id prod1) sim_score
                  (graph_set (p_id prod1) (p_id prod2) sim_score similarity))
     else mret similarity)
  similarity.

(** The outer loop [for i, prod1 in enumerate(products)]. *)
Fixpoint similarity_rows (products : list ProductRow) (similarity : graph)
  : M graph :=
match products with
| [] => mret similarity
| prod1 :: later =>
    similarity ← similarity_row prod1 later similarity;
    similarity_rows later similarity
end.

Definition _build_simple_similarity_matrix (conn : Connection) : M graph :=
products ← DatabaseManager.execute_read conn SelectProductFeatures t_products;
similarity_rows products ∅.

(** One-hot category and brand indicators, then price and rating. *)
Definition feature_vector (categories brands : list string) (product : ProductRow)
: list Q :=
let cat_vector :=
  map (fun cat => if bool_decide (p_category product = Some cat) then 1%Q else 0%Q)
      categories in
let brand_vector :=
  map (fun brand => if bool_decide (p_brand product = Some brand) then 1%Q else 0%Q)
      brands in
let price :=
  match p_price product with
  | Some x => if Py.truthy_num x then x else 0%Q
  | None => 0%Q
  end in
let rating :=
  match p_rating product with
  | Some x => if Py.truthy_num x then x else 3%Q
  | None => 3%Q
  end in
cat_vector ++ brand_vector ++ [price; rating].

Definition _build_similarity_matrix (conn : Connection) : M graph :=
try_except_ImportError
  (match ml with
   | None => raise ImportError
   | Some k =>
       products ← DatabaseManager.execute_read conn SelectProductFeatures t_products;
       if (length products <? 2)%nat then mret ∅
       else
         let categories :=
           remove_dups (omap (fun p => if Py.truthy_opt_str (p_category p)
                                       then p_category p else None) products) in
         let brands :=
           remove_dups (omap (fun p => if Py.truthy_opt_str (p_brand p)
                                       then p_brand p else None) products) in
         let X := map (feature_vector categories brands) products in
         match scale_and_reduce k X with
         | None => raise ValueError
         | Some X_reduced =>
             threshold_graph (3 # 10) 1 (map p_id products)
               (cosine_similarity k X_reduced)
         end
   end)
  (_build_simple_similarity_matrix conn).

Definition _load_product_features (conn : Connection) : M features :=
products ← DatabaseManager.execute_read conn SelectProducts t_products;
mret (foldl (fun features product => <[p_id product := product]> features)
            ∅ products).

(** ** train_models *)

Definition train_models : M train_result :=
try_except
  (conn ← DatabaseManager.get_connection Analytics;
   cm ← _build_copurchase_matrix conn;
   set_copurchase_matrix (Some cm);;
   sm ← _build_similarity_matrix conn;
   set_similarity_matrix (Some sm);;
   pf ← _load_product_features conn;
   set_product_features pf;;
   DatabaseManager.close conn;;
   _save_models;;
   set_models_trained true;;
   st ← get_state;
   mret (TrainSuccess (size (product_features (self st)))
                      (size cm) (size sm)))
  (fun e => mret (TrainError (str e))).

(** ** Serving *)

(** The pydantic constructor: [price: float] is required, so a NULL price
  is rejected. *)
Definition make_recommendation (product_id : Z) (product : ProductRow)
  (score : Q) (why : reason) : M ProductRecommendation :=
match p_price product with
| Some price =>
    mret (mkRecommendation product_id (p_name product) price
            (p_brand product) (p_category product) (p_rating product)
            (p_picture product) score why)
| None => raise ValidationError
end.

Definition _get_fallback_similar_products (product_id limit : Z)
: M (list ProductRecommendation) :=
try_except
  (conn ← DatabaseManager.get_connection Production;
   original ← DatabaseManager.execute_read conn (SelectProductById product_id)
                (SQL.select_product_by_id product_id);
   match original with
   | None => mret []
   | Some original =>
       results ← DatabaseManager.execute_checked conn
                   (SelectSameCategory (p_category original) product_id limit)
                   (SQL.select_same_category (p_category original) product_id limit);
       DatabaseManager.close conn;;
       for_each results
         (fun recommendations product =>
            r ← make_recommendation (p_id product) product (6 # 10)
                   (SameCategoryAs (p_name original));
            mret (recommendations ++ [r]))
         []
   end)
  (fun _ => mret []).

Definition _get_fallback_copurchase_recommendations (product_id limit : Z)
: M (list ProductRecommendation) :=
try_except
  (conn ← DatabaseManager.get_connection Production;
   results ← DatabaseManager.execute_checked conn
               (SelectBoughtWith product_id limit)
               (SQL.select_bought_with product_id limit);
   DatabaseManager.close conn;;
   for_each results
     (fun recommendations '(product, purchase_count) =>
        r ← make_recommendation (p_id product) product (7 # 10)
               (OftenBought purchase_count);
        mret (recommendations ++ [r]))
     [])
  (fun _ => mret []).

Definition get_similar_products (product_id limit : Z)
: M (list ProductRecommendation) :=
st ← get_state;
if negb (models_trained (self st))
then _get_fallback_similar_products product_id limit
else
  try_except
    (match similarity_matrix (self st) with
     | None => raise TypeError
     | Some matrix =>
         match matrix !! product_id with
         | None => _get_fallback_similar_products product_id limit
         | Some similar =>
             let sorted_similar :=
               Py.slice_to limit (Py.sorted_by_value_desc similar) in
             for_each sorted_similar
               (fun recommendations '(similar_id, score) =>
                  match product_features (self st) !! similar_id with
                  | Some product =>
                      r ← make_recommendation similar_id product score
                             (MLSimilarity score);
                      mret (recommendations ++ [r])
                  | None => mret recommendations
                  end)
               []
         end
     end)
    (fun _ => _get_fallback_similar_products product_id limit).

Definition get_copurchase_recommendations (product_id limit : Z)
: M (list ProductRecommendation) :=
st ← get_state;
if negb (models_trained (self st))
then _get_fallback_copurchase_recommendations product_id limit
else
  try_except
    (match copurchase_matrix (self st) with
     | None => raise TypeError
     | Some matrix =>
         match matrix !! product_id with
         | None => _get_fallback_copurchase_recommendations product_id limit
         | Some copurchased =>
             let sorted_copurchased :=
               Py.slice_to limit (Py.sorted_by_value_desc copurchased) in
             for_each sorted_copurchased
               (fun recommendations '(copurch_id, frequency) =>
                  match product_features (self st) !! copurch_id with
                  | Some product =>
                      let max_freq :=
                        match map snd copurchased with
                        | [] => 1%Q
                        | v :: vs => foldl Qmax v vs
                        end in
                      if Qeq_bool max_freq 0 then raise ZeroDivisionError
                      else
                        r ← make_recommendation copurch_id product
                              (frequency / max_freq)%Q
                              (FrequentlyBought frequency);
                        mret (recommendations ++ [r])
                  | None => mret recommendations
                  end)
               []
         end
     end)
    (fun _ => _get_fallback_copurchase_recommendations product_id limit).

(** ** Health *)

(** The round trip [SELECT 1] against one store, as a status string. *)
Definition probe (s : store) : M string :=
try_except
  (conn ← DatabaseManager.get_connection s;
   DatabaseManager.execute_read conn SelectOne (fun _ => tt);;
   DatabaseManager.close conn;;
   mret "healthy")
  (fun e => mret ("error: " +:+ str e)).

Definition get_health_status : M health :=
try_except
  (st ← get_state;
   let f := files (world st) in
   let model_files :=
     (bool_decide (is_Some (similarity_matrix_pkl f)),
      bool_decide (is_Some (copurchase_matrix_pkl f)),
      bool_decide (is_Some (product_features_pkl f))) in
   production_status ← probe Production;
   analytics_status ← probe Analytics;
   let sv := self st in
   let model_stats :=
     if models_trained sv
     then Some (size (product_features sv),
                from_option edge_count 0%nat (similarity_matrix sv),
                from_option edge_count 0%nat (copurchase_matrix sv))
     else None in
   mret (HealthReport
           (if models_trained sv
               && Py.all [Py.truthy_str production_status;
                          Py.truthy_str analytics_status]
            then "healthy" else "degraded")
           (models_trained sv) model_files
           (production_status, analytics_status) model_stats))
  (fun e => mret (HealthError (str e))).

End WithKernels.
End MLRecommendationService.

(* ===================================================================== *)
(** * main.py *)
(* ===================================================================== *)

Module main.
Section WithKernels.

Variable ml : option MLKernels.

(** [get_ml_service]: the dependency builds a new instance, which loads
  the model files, for every request. *)
Definition get_ml_service : M unit := MLRecommendationService.__init__.

(** GET /similar/{product_id} *)
Definition get_similar_products (product_id limit : Z)
: M (list ProductRecommendation) :=
if 50 <? limit
then raise (HTTPException 400 "Limit cannot exceed 50")
else
  try_except
    (recommendations ← MLRecommendationService.get_similar_products product_id limit;
     match recommendations with
     | [] => raise (HTTPException 404
                      ("No similar products found for product " +:+ pretty product_id))
     | _ => mret recommendations
     end)
    (fun e => raise (HTTPException 500
                       ("Error getting similar products: " +:+ str e))).

(** GET /copurchase/{product_id} *)
Definition get_copurchase_recommendations (product_id limit : Z)
: M (list ProductRecommendation) :=
if 50 <? limit
then raise (HTTPException 400 "Limit cannot exceed 50")
else
  try_except
    (recommendations ←
       MLRecommendationService.get_copurchase_recommendations product_id limit;
     match recommendations with
     | [] => raise (HTTPException 404
                      ("No co-purchase recommendations found for product "
                         +:+ pretty product_id))
     | _ => mret recommendations
     end)
    (fun e => raise (HTTPException 500
                       ("Error getting co-purchase recommendations: " +:+ str e))).

(** POST /train *)
Definition train_models : M train_result :=
try_except
  (result ← MLRecommendationService.train_models ml;
   match result with
   | TrainError error => raise (HTTPException 500 error)
   | _ => mret result
   end)
  (fun e => raise (HTTPException 500 ("Training failed: " +:+ str e))).

(** POST /sync-data *)
Definition sync_production_data : M sync_result :=
try_except
  (result ← MLRecommendationService.sync_production_data;
   match result with
   | SyncError error => raise (HTTPException 500 error)
   | _ => mret result
   end)
  (fun e => raise (HTTPException 500 ("Data sync failed: " +:+ str e))).

(** POST /full-retrain *)
Definition full_retrain : M (sync_result * train_result) :=
try_except
  (sync_result ← MLRecommendationService.sync_production_data;
   match sync_result with
   | SyncError error =>
       raise (HTTPException 500 ("Data sync failed: " +:+ error))
   | _ =>
       train_result ← MLRecommendationService.train_models ml;
       match train_result with
       | TrainError error =>
           raise (HTTPException 500 ("Training failed: " +:+ error))
       | _ => mret (sync_result, train_result)
       end
   end)
  (fun e => raise (HTTPException 500 ("Full retrain failed: " +:+ str e))).

(** GET /health *)
Definition health_check : M health :=
try_except
  MLRecommendationService.get_health_status
  (fun e => raise (HTTPException 500 ("Health check failed: " +:+ str e))).

End WithKernels.

(** The status code FastAPI answers with. *)
Definition status_code {A} (r : exn + A) : Z :=
  match r with
  | inr _ => 200
  | inl (HTTPException c _) => c
  | inl _ => 500
  end.

End main.

(* ===================================================================== *)
(** * Vocabulary of the statements *)
(* ===================================================================== *)

(** A triple with a normal and an exceptional postcondition. *)
Definition hoare {A} (P : State -> Prop) (m : M A)
    (Q : A -> State -> Prop) (E : exn -> State -> Prop) : Prop :=
  forall s, P s ->
    match m s with
    | (inr a, s') => Q a s'
    | (inl e, s') => E e s'
    end.

(** [m] leaves the observation [f] of the state as it found it, however it
    ends. *)
Definition keeps {X A} (f : State -> X) (m : M A) : Prop :=
  forall s, f (snd (m s)) = f s.

(** The state after one more external call. *)
Definition called (ev : event) (s : State) : State :=
  let w := world s in
  mkState (self s)
    (mkWorld (production w) (analytics w) (files w) (faults w)
             (S (clock w)) (ev :: trace w)).

(** An observation that does not look at the clock or the trace. *)
Definition timeless {X} (f : State -> X) : Prop :=
  forall sv w n tr,
    f (mkState sv (mkWorld (production w) (analytics w) (files w) (faults w) n tr))
    = f (mkState sv w).

(** Since state [s], only calls that touch no data store were made. *)
Definition no_store_access_since (s s' : State) : Prop :=
  exists new, trace (world s') = new ++ trace (world s)
              /\ Forall (fun ev => is_store_access ev = false) new.

(** The committed rows of the mirror. *)
Definition mirror (s : State) : Tables := analytics (world s).

(** What a failed training run must not touch: the three files, the
    trained flag and the feature table of the instance. *)
Definition artifact (s : State) : ModelFiles * bool * features :=
  (files (world s), models_trained (self s), product_features (self s)).

(** ** Graphs built by symmetric assignments *)

(** One row [(a, b, v)] of a result set, stored in both directions. *)
Definition sym_set (g : graph) (r : Z * Z * Q) : graph :=
  graph_set (snd (fst r)) (fst (fst r)) (snd r)
    (graph_set (fst (fst r)) (snd (fst r)) (snd r) g).

(** Row [r] writes the edge between [x] and [y]. *)
Definition touches (r : Z * Z * Q) (x y : Z) : Prop :=
  fst r = (x, y) \/ fst r = (y, x).

#[global] Instance touches_dec r x y : Decision (touches r x y).
Proof. unfold touches. apply _. Defined.

(** ** Co-occurrence in the words of the specification *)

(** The (order, product) pairs of the order lines. *)
Definition order_lines (db : Tables) : list (Z * Z) :=
  map (fun i => (oi_order_id i, oi_product_id i)) (t_orderitem db).

(** The number of orders in which [a] and [b] appear together. *)
Definition orders_together (db : Tables) (a b : Z) : nat :=
  length (filter (fun o => (o, a) ∈ order_lines db /\ (o, b) ∈ order_lines db)
                 (remove_dups (map oi_order_id (t_orderitem db)))).

(** The number of pairs of order lines, one of [a] and one of [b], that
    belong to the same order. *)
Definition line_pairs (db : Tables) (a b : Z) : nat :=
  length (filter (fun r => oi_order_id (fst r) = oi_order_id (snd r)
                           /\ oi_product_id (fst r) = a /\ oi_product_id (snd r) = b)
                 (list_prod (t_orderitem db) (t_orderitem db))).

(** ** The fallback similarity score in the words of the specification *)



(** What the double loop of [_build_simple_similarity_matrix] writes for one
    pair, and all the rows it writes, in the order it writes them. *)
Definition scored_entry (prod1 prod2 : ProductRow) : option (Z * Z * Q) :=
  match MLRecommendationService._calculate_product_similarity prod1 prod2 with
  | inr sim_score =>
      if Py.gtb sim_score (3 # 10) then Some (p_id prod1, p_id prod2, sim_score)
      else None
  | inl _ => None
  end.

Fixpoint scored_pairs (products : list ProductRow) : list (Z * Z * Q) :=
  match products with
  | [] => []
  | prod1 :: later => omap (scored_entry prod1) later ++ scored_pairs later
  end.

(** The pairs the double loop visits, [products[i]] with every later row. *)
Fixpoint row_pairs (products : list ProductRow) : list (ProductRow * ProductRow) :=
  match products with
  | [] => []
  | prod1 :: later => map (pair prod1) later ++ row_pairs later
  end.

(** Both prices are known and not zero and the larger one is positive:
    the guards in front of the price term let the pair through. *)
Definition price_term_reached (a b : ProductRow) : bool :=
  match p_price a, p_price b with
  | Some x, Some y => Py.truthy_num x && Py.truthy_num y && Py.gtb (Qmax x y) 0
  | _, _ => false
  end.

(** No pair that the double loop visits reaches the price term. *)
Definition price_term_unreached (products : list ProductRow) : bool :=
  forallb (fun pq => negb (price_term_reached (fst pq) (snd pq))) (row_pairs products).

(** The score before the price term: 0.4 for the same category plus 0.3
    for the same brand. *)
Definition category_brand_score (a b : ProductRow) : Q :=
  ((if bool_decide (p_category a = p_category b) then 4 # 10 else 0)
   + (if bool_decide (p_brand a = p_brand b) then 3 # 10 else 0))%Q.

(** ** Ranked recommendations *)

#[global] Instance Qeq_decision (x y : Q) : Decision (x == y)%Q := Qeq_dec x y.

(** Every feature row has a price, as the catalog guarantees. *)
Definition priced (f : features) : Prop :=
  forall id p, f !! id = Some p -> is_Some (p_price p).

(** What a recommendation shows of the graph row it came from. *)
Definition ranked (r : ProductRecommendation) : Z * Q := (r_product_id r, r_score r).

(** The recommendation built from one entry of a similarity row. *)
Definition similar_entry (f : features) (e : Z * Q) : option ProductRecommendation :=
  product ← f !! fst e;
  price ← p_price product;
  Some (mkRecommendation (fst e) (p_name product) price (p_brand product)
          (p_category product) (p_rating product) (p_picture product)
          (snd e) (MLSimilarity (snd e))).

(** The order of the specification: non-increasing score, ties by
    ascending product id. *)
Definition claimed_order (r1 r2 : ProductRecommendation) : Prop :=
  (r_score r2 < r_score r1)%Q
  \/ ((r_score r1 == r_score r2)%Q /\ r_product_id r1 < r_product_id r2).

(** ** The co-purchase trainer *)

(** The graph of the co-occurrence fallback. *)
Definition fallback_copurchase_graph (db : Tables) : graph :=
  foldl sym_set ∅
    (map (fun r => (fst r, inject_Z (snd r))) (SQL.select_cooccurrences db)).

(** Rows (customers) and columns (products) of the interaction table. *)
Definition interaction_table_rows (db : Tables) : nat :=
  length (remove_dups (map (fun r => fst (fst r)) (SQL.select_interactions db))).

Definition interaction_table_columns (db : Tables) : nat :=
  length (remove_dups (map (fun r => snd (fst r)) (SQL.select_interactions db))).

(** ** Sync, model files, answers and trained graphs *)

(** What sync writes for one row of the live source. *)
Definition mirrored_user (u : Z * string * string) : UserRow :=
  mkUser (fst (fst u)) (snd (fst u)) (snd u) "synced" "customer" None.

Definition mirrored_product (p : ProductRow) : ProductRow :=
  mkProduct (p_id p) (p_name p) (SQL.decimal_2 <$> p_price p) (p_brand p)
            (p_category p) (SQL.decimal_2 <$> p_rating p) (p_picture p) (p_stock p).

Definition mirrored_order (o : OrderRow) : OrderRow :=
  mkOrder (o_id o) (o_customer_id o) (SQL.decimal_2 (o_total_amount o))
          (o_created_at o) None.

Definition mirrored_order_item (i : OrderItemRow) : OrderItemRow :=
  mkOrderItem (oi_id i) (oi_order_id i) (oi_product_id i) (oi_quantity i)
              (SQL.decimal_2 (oi_total_amount i)).

(** The mirror of a live source: its rows, with every amount as the
    DECIMAL columns of the mirror keep it. *)
Definition mirrored (live : Tables) : Tables :=
  mkTables (map mirrored_user (SQL.select_users live))
           (map mirrored_product (t_products live))
           (map mirrored_order (t_orders live))
           (map mirrored_order_item (t_orderitem live)).

(** The value a run returned, [d] when it raised. *)
Definition returned {A} (d : A) (r : exn + A) : A :=
  match r with inr a => a | inl _ => d end.

(** What a request can leave behind: the instance, the two stores and the
    model files. *)
Definition contents (s : State) : Service * Tables * Tables * ModelFiles :=
  (self s, production (world s), analytics (world s), files (world s)).

(** No external call fails, and the live source holds [live]. *)
Definition reachable (live : Tables) (s : State) : Prop :=
  faults (world s) = [] /\ production (world s) = live.

(** The primary keys of the four tables. *)
Definition primary_keys_unique (db : Tables) : Prop :=
  NoDup (map u_id (t_users db)) /\ NoDup (map p_id (t_products db))
  /\ NoDup (map o_id (t_orders db)) /\ NoDup (map oi_id (t_orderitem db)).

(** The next [n] external calls succeed. *)
Definition next_calls_succeed (n : nat) (s : State) : Prop :=
  forall i, (i < n)%nat -> (i + clock (world s))%nat ∉ faults (world s).

(** The model files that hold the three structures of an instance. *)
Definition saved (sv : Service) : ModelFiles :=
  mkFiles (Some (Pickled (similarity_matrix sv)))
          (Some (Pickled (copurchase_matrix sv)))
          (Some (Pickled (product_features sv))).

(** A file after the first [n] of the two calls that write it (opening it,
    dumping [obj] into it) have succeeded. *)
Definition written {A} (n : nat) (obj : A) (old : option (pickle A))
  : option (pickle A) :=
  match n with
  | 0%nat => old
  | 1%nat => Some Truncated
  | _ => Some (Pickled obj)
  end.

(** The model files after the first [n] of the six calls of a save have
    succeeded. *)
Definition partly_saved (n : nat) (sv : Service) (old : ModelFiles) : ModelFiles :=
  mkFiles (written n (similarity_matrix sv) (similarity_matrix_pkl old))
          (written (n - 2) (copurchase_matrix sv) (copurchase_matrix_pkl old))
          (written (n - 4) (product_features sv) (product_features_pkl old)).

(** Recommendation [r] shows product row [p] with the given score and reason. *)
Definition shows (score : Q) (why : reason) (p : ProductRow)
    (r : ProductRecommendation) : Prop :=
  p_price p = Some (r_price r)
  /\ r = mkRecommendation (p_id p) (p_name p) (r_price r) (p_brand p)
           (p_category p) (p_rating p) (p_picture p) score why.

(** The purchase count a recommendation of the co-occurrence fallback
    reports. *)
Definition reported_count (r : ProductRecommendation) : Z :=
  match r_reason r with OftenBought n => n | _ => 0 end.

(** [max(copurchased.values()) if copurchased else 1] *)
Definition max_weight (row : list (Z * Q)) : Q :=
  match map snd row with
  | [] => 1%Q
  | v :: vs => foldl Qmax v vs
  end.

(** The recommendation built from one entry of a co-purchase row. *)
Definition copurchase_entry (f : features) (row : list (Z * Q)) (e : Z * Q)
  : option ProductRecommendation :=
  product ← f !! fst e;
  price ← p_price product;
  Some (mkRecommendation (fst e) (p_name product) price (p_brand product)
          (p_category product) (p_rating product) (p_picture product)
          (snd e / max_weight row)%Q (FrequentlyBought (snd e))).

(** [similarities[i][j]] when both indices are in range. *)
Definition entry (similarities : list (list Q)) (i j : nat) : option Q :=
  similarities !! i ≫= (fun row => row !! j).

(** The edge the thresholding loops write for the positions [i] and [j]. *)
Definition kept_edge (threshold scale : Q) (product_ids : list Z)
    (similarities : list (list Q)) (a b : Z) (w : Q) : Prop :=
  exists i j v,
    product_ids !! i = Some a /\ product_ids !! j = Some b /\ i <> j
    /\ entry similarities i j = Some v /\ (threshold < v)%Q /\ w = (v * scale)%Q.

(** The feature table [{row['id']: dict(row) for row in products}]. *)
Definition feature_table (products : list ProductRow) : features :=
  foldl (fun features product => <[p_id product := product]> features) ∅ products.

(** The committed rows of both stores. *)
Definition stores (s : State) : Tables * Tables :=
  (production (world s), analytics (world s)).

(** The instance and the model files. *)
Definition instance_and_files (s : State) : Service * ModelFiles :=
  (self s, files (world s)).

(** The committed rows of the live source. *)
Definition live_source (s : State) : Tables := production (world s).

(** The customers and the products of the interaction table, in the order
    of the rows and columns of the matrix. *)
Definition interaction_customers (db : Tables) : list Z :=
  merge_sort Z.le (remove_dups (map (fun r => fst (fst r)) (SQL.select_interactions db))).

Definition interaction_products (db : Tables) : list Z :=
  merge_sort Z.le (remove_dups (map (fun r => snd (fst r)) (SQL.select_interactions db))).

(** The total quantity of product [i] on the order lines of customer [u]. *)
Definition quantity_bought (db : Tables) (u i : Z) : Z :=
  foldr Z.add 0
    (map (fun r => oi_quantity (snd r))
         (filter (fun r => (o_customer_id (fst r), oi_product_id (snd r)) = (u, i))
                 (SQL.orders_join_items db))).

(** Where a recommendation came from, as its reason and score tell. *)
Definition from_similarity_graph (r : ProductRecommendation) : Prop :=
  r_reason r = MLSimilarity (r_score r).

Definition from_category_fallback (r : ProductRecommendation) : Prop :=
  r_score r = (6 # 10)%Q /\ exists name, r_reason r = SameCategoryAs name.

Definition from_copurchase_graph (r : ProductRecommendation) : Prop :=
  exists frequency, r_reason r = FrequentlyBought frequency.

Definition from_cooccurrence_fallback (r : ProductRecommendation) : Prop :=
  r_score r = (7 # 10)%Q /\ exists n, r_reason r = OftenBought n.

(* ===================================================================== *)
(** * Sample data *)
(* ===================================================================== *)

Module Sample.

Definition product (id : Z) (category brand : string) (price : Q) : ProductRow :=
  mkProduct id ("product " +:+ pretty id) (Some price) (Some brand)
            (Some category) (Some 4%Q) None (Some 5).

Definition line (id order product quantity : Z) : OrderItemRow :=
  mkOrderItem id order product quantity 1%Q.

(** Three products and the orders {1,2}, {1,2}, {1,3} of one customer. *)
Definition shop : Tables :=
  mkTables
    [mkUser 1 "ann" "ann@example.org" "hash" "customer" None]
    [product 1 "phone" "X" 100; product 2 "phone" "X" 120; product 3 "case" "Y" 10]
    [mkOrder 10 1 220 0 None; mkOrder 11 1 220 0 None; mkOrder 12 1 110 0 None]
    [line 1 10 1 1; line 2 10 2 1; line 3 11 1 1; line 4 11 2 2;
     line 5 12 1 1; line 6 12 3 1].

(** What an earlier sync left in the mirror. *)
Definition old_mirror : Tables :=
  mkTables
    [mkUser 7 "bob" "bob@example.org" "synced" "customer" None]
    [product 9 "case" "Y" 15]
    [mkOrder 3 7 15 0 None]
    [line 4 3 9 1].

(** The shop when all but one of its products are given away: two prices
    that are not zero never meet. *)
Definition clearance : Tables :=
  mkTables
    (t_users shop)
    [product 1 "phone" "X" 100; product 2 "phone" "X" 0; product 3 "case" "Y" 0]
    (t_orders shop)
    (t_orderitem shop).

(** The shop with a fourth product whose category is spelled "Phone". *)
Definition mixed_case : Tables :=
  mkTables
    (t_users shop)
    (t_products shop ++ [product 4 "Phone" "Z" 90])
    (t_orders shop)
    (t_orderitem shop).

(** A live source whose amounts have more than two decimals. *)
Definition fractions : Tables :=
  mkTables
    (t_users shop)
    [mkProduct 1 "product 1" (Some (9999 # 1000)%Q) (Some "X") (Some "phone")
               (Some (33 # 8)%Q) None (Some 5)]
    [mkOrder 10 1 (19 # 8) 0 (Some "session")]
    [mkOrderItem 1 10 1 1 (19 # 8)].

(** One order that lists product 2 on two lines. *)
Definition repeated_line : Tables :=
  mkTables
    (t_users shop)
    (t_products shop)
    [mkOrder 10 1 340 0 None]
    [line 1 10 1 1; line 2 10 2 1; line 3 10 2 1].

Definition old_similarity : graph := {[ 1 := [(2, 9 # 10)]; 2 := [(1, 9 # 10)] ]}.
Definition old_copurchase : graph := {[ 1 := [(3, 7%Q)]; 3 := [(1, 7%Q)] ]}.
Definition old_features : features :=
  {[ 1 := product 1 "phone" "X" 100; 2 := product 2 "phone" "X" 120;
     3 := product 3 "case" "Y" 10 ]}.

Definition old_files : ModelFiles :=
  mkFiles (Some (Pickled (Some old_similarity))) (Some (Pickled (Some old_copurchase)))
          (Some (Pickled old_features)).

Definition no_files : ModelFiles := mkFiles None None None.

(** An instance that has loaded the old artifact. *)
Definition trained : Service :=
  mkService (Some old_similarity) (Some old_copurchase) old_features true.

(** A similarity row whose two entries tie, stored with product 3 first. *)
Definition tied_similarity : graph := {[ 1 := [(3, 1 # 2); (2, 1 # 2)] ]}.

Definition tied : Service :=
  mkService (Some tied_similarity) (Some old_copurchase) old_features true.

(** A co-purchase row with two neighbours, the lighter one stored first. *)
Definition busy_copurchase : graph :=
  {[ 1 := [(2, 4%Q); (3, 10%Q)]; 2 := [(1, 4%Q)]; 3 := [(1, 10%Q)] ]}.

Definition busy : Service :=
  mkService (Some old_similarity) (Some busy_copurchase) old_features true.

(** Stand-ins for the numeric kernels: one unit embedding per product
    column, and every pair of rows fully similar. *)
Definition kernels : MLKernels :=
  mkKernels
    (fun m => map (fun _ => [1%Q]) (default [] (head m)))
    (fun rows => map (fun _ => map (fun _ => 1%Q) rows) rows)
    Some.

(** An instance that found no artifact. *)
Definition untrained : Service := mkService None None ∅ false.

(** A state whose external calls with the given ordinals fail. *)
Definition state (sv : Service) (live mirror : Tables) (fl : ModelFiles)
    (failing : list nat) : State :=
  mkState sv (mkWorld live mirror fl failing 0 []).

End Sample.

(* ===================================================================== *)
(** * Rules of the effect monad *)
(* ===================================================================== *)

Section Rules.
Context {A B : Type}.

Lemma run_bind (m : M A) (k : A -> M B) s :
  (m ≫= k) s =
  match m s with (inl e, s') => (inl e, s') | (inr a, s') => k a s' end.
Proof. reflexivity. Qed.

Lemma hoare_ret (a : A) P (Q : A -> State -> Prop) E :
  (forall s, P s -> Q a s) -> hoare P (mret a) Q E.
Proof. intros H s Hs. cbn. auto. Qed.

Lemma hoare_raise e P (Q : A -> State -> Prop) (E : exn -> State -> Prop) :
  (forall s, P s -> E e s) -> hoare P (raise e) Q E.
Proof. intros H s Hs. cbn. auto. Qed.

Lemma hoare_bind (m : M A) (k : A -> M B) P R Q E :
  hoare P m R E -> (forall a, hoare (R a) (k a) Q E) -> hoare P (m ≫= k) Q E.
Proof.
  intros Hm Hk s Hs. rewrite run_bind. specialize (Hm s Hs).
  destruct (m s) as [[e|a] s']; [exact Hm|]. apply Hk, Hm.
Qed.

Lemma hoare_conseq (m : M A) (P P' : State -> Prop) (Q Q' : A -> State -> Prop)
    (E E' : exn -> State -> Prop) :
  hoare P' m Q' E' ->
  (forall s, P s -> P' s) ->
  (forall a s, Q' a s -> Q a s) ->
  (forall e s, E' e s -> E e s) ->
  hoare P m Q E.
Proof.
  intros Hm HP HQ HE s Hs. specialize (Hm s (HP s Hs)).
  destruct (m s) as [[e|a] s']; auto.
Qed.

Lemma hoare_try_except (m : M A) h P Q (E' E : exn -> State -> Prop) :
  hoare P m Q E' -> (forall e, hoare (E' e) (h e) Q E) ->
  hoare P (try_except m h) Q E.
Proof.
  intros Hm Hh s Hs. unfold try_except. specialize (Hm s Hs).
  destruct (m s) as [[e|a] s']; [apply Hh, Hm | exact Hm].
Qed.

Lemma hoare_try_finally (m : M A) (f : M unit) P Q E :
  hoare P m Q E -> (forall s, f s = (inr tt, s)) ->
  hoare P (try_finally m f) Q E.
Proof.
  intros Hm Hf s Hs. unfold try_finally. specialize (Hm s Hs).
  destruct (m s) as [r s']. rewrite Hf. exact Hm.
Qed.

Lemma hoare_keeps {X} (f : State -> X) (m : M A) (x : X) :
  keeps f m ->
  hoare (fun s => f s = x) m (fun _ s => f s = x) (fun _ s => f s = x).
Proof.
  intros Hk s Hs. specialize (Hk s).
  destruct (m s) as [[e|a] s']; cbn in Hk; congruence.
Qed.

Lemma keeps_ret {X} (f : State -> X) (a : A) : keeps f (mret a : M A).
Proof. intros s. reflexivity. Qed.

Lemma keeps_raise {X} (f : State -> X) e : keeps f (raise e : M A).
Proof. intros s. reflexivity. Qed.

Lemma keeps_bind {X} (f : State -> X) (m : M A) (k : A -> M B) :
  keeps f m -> (forall a, keeps f (k a)) -> keeps f (m ≫= k).
Proof.
  intros Hm Hk s. rewrite run_bind. specialize (Hm s).
  destruct (m s) as [[e|a] s']; [exact Hm|].
  rewrite Hk. exact Hm.
Qed.

Lemma keeps_try_except {X} (f : State -> X) (m : M A) h :
  keeps f m -> (forall e, keeps f (h e)) -> keeps f (try_except m h).
Proof.
  intros Hm Hh s. unfold try_except. specialize (Hm s).
  destruct (m s) as [[e|a] s']; [|exact Hm].
  rewrite Hh. exact Hm.
Qed.

Lemma keeps_try_except_ImportError {X} (f : State -> X) (m h : M A) :
  keeps f m -> keeps f h -> keeps f (try_except_ImportError m h).
Proof.
  intros Hm Hh s. unfold try_except_ImportError. specialize (Hm s).
  destruct (m s) as [[e|a] s']; [|exact Hm].
  destruct e; try exact Hm. rewrite Hh. exact Hm.
Qed.

Lemma keeps_try_finally {X} (f : State -> X) (m : M A) (fin : M unit) :
  keeps f m -> keeps f fin -> keeps f (try_finally m fin).
Proof.
  intros Hm Hf s. unfold try_finally. specialize (Hm s). specialize (Hf (snd (m s))).
  destruct (m s) as [r s']. cbn in *.
  destruct (fin s') as [[e|[]] s'']; cbn in *; congruence.
Qed.

Lemma keeps_for_each {X} (f : State -> X) (l : list B) (body : A -> B -> M A) acc :
  (forall a b, keeps f (body a b)) -> keeps f (for_each l body acc).
Proof.
  intros Hb. revert acc. induction l as [|x l IH]; intros acc.
  - intros s. reflexivity.
  - change (for_each (x :: l) body acc)
      with (body acc x ≫= fun acc' => for_each l body acc').
    intros s. unfold mbind, M_bind. specialize (Hb acc x s).
    destruct (body acc x s) as [[e|a] s']; [exact Hb|].
    rewrite IH. exact Hb.
Qed.

End Rules.

Lemma keeps_get_state {X} (f : State -> X) : keeps f get_state.
Proof. intros s. reflexivity. Qed.

Lemma keeps_lift {X A} (f : State -> X) (r : exn + A) : keeps f (lift r).
Proof. intros s. reflexivity. Qed.

Lemma keeps_external_call {X} (f : State -> X) ev e :
  timeless f -> keeps f (external_call ev e).
Proof.
  intros Hf [sv w]. unfold external_call. cbn.
  destruct (bool_decide _); cbn; apply Hf.
Qed.

Lemma keeps_record_event {X} (f : State -> X) ev :
  timeless f -> keeps f (record_event ev).
Proof. intros Hf [sv w]. cbn. apply Hf. Qed.

Lemma run_external_call ev e s :
  external_call ev e s =
  (if bool_decide (clock (world s) ∈ faults (world s)) then inl e else inr tt,
   called ev s).
Proof. unfold external_call, called. destruct (bool_decide _); reflexivity. Qed.


(* ===================================================================== *)
(** * What the building blocks leave alone *)
(* ===================================================================== *)

Ltac keeps_step :=
  lazymatch goal with
  | |- keeps _ (mret _) => apply keeps_ret
  | |- keeps _ (raise _) => apply keeps_raise
  | |- keeps _ get_state => apply keeps_get_state
  | |- keeps _ (lift _) => apply keeps_lift
  | |- keeps _ (external_call _ _) => apply keeps_external_call; assumption
  | |- keeps _ (record_event _) => apply keeps_record_event; assumption
  | |- keeps _ (_ ≫= _) => apply keeps_bind; [|intros ?]
  | |- keeps _ (try_except _ _) => apply keeps_try_except; [|intros ?]
  | |- keeps _ (try_except_ImportError _ _) => apply keeps_try_except_ImportError
  | |- keeps _ (try_finally _ _) => apply keeps_try_finally
  | |- keeps _ (for_each _ _ _) => apply keeps_for_each; intros ? ?
  | |- keeps _ (match ?x with _ => _ end) => destruct x
  end.

Section Timeless.
Context {X : Type} (f : State -> X) (Hf : timeless f).

Lemma keeps_get_connection st : keeps f (DatabaseManager.get_connection st).
Proof. unfold DatabaseManager.get_connection. repeat keeps_step. Qed.

Lemma keeps_execute_read {A} conn q (rows : Tables -> A) :
  keeps f (DatabaseManager.execute_read conn q rows).
Proof. unfold DatabaseManager.execute_read. repeat keeps_step. Qed.

Lemma keeps_execute_checked {A} conn q (rows : Tables -> option A) :
  keeps f (DatabaseManager.execute_checked conn q rows).
Proof. unfold DatabaseManager.execute_checked. repeat keeps_step. Qed.

Lemma keeps_execute_write conn q change :
  keeps f (DatabaseManager.execute_write conn q change).
Proof. unfold DatabaseManager.execute_write. repeat keeps_step. Qed.

Lemma keeps_close conn : keeps f (DatabaseManager.close conn).
Proof. unfold DatabaseManager.close. repeat keeps_step. Qed.

Ltac db_keeps :=
  repeat first [ apply keeps_execute_read
               | apply keeps_execute_write
               | apply keeps_execute_checked
               | apply keeps_get_connection
               | apply keeps_close
               | keeps_step ].

Lemma keeps_build_user_item_matrix ml conn :
  keeps f (MLRecommendationService._build_user_item_matrix ml conn).
Proof. unfold MLRecommendationService._build_user_item_matrix. db_keeps. Qed.

Lemma keeps_build_simple_copurchase_matrix conn :
  keeps f (MLRecommendationService._build_simple_copurchase_matrix conn).
Proof. unfold MLRecommendationService._build_simple_copurchase_matrix. db_keeps. Qed.

Lemma keeps_threshold_graph t sc ids sims :
  keeps f (MLRecommendationService.threshold_graph t sc ids sims).
Proof.
  unfold MLRecommendationService.threshold_graph, MLRecommendationService.index2.
  db_keeps.
Qed.

Lemma keeps_build_copurchase_matrix ml conn :
  keeps f (MLRecommendationService._build_copurchase_matrix ml conn).
Proof.
  unfold MLRecommendationService._build_copurchase_matrix,
    MLRecommendationService._matrix_factorization.
  repeat first [ apply keeps_build_user_item_matrix
               | apply keeps_build_simple_copurchase_matrix
               | apply keeps_threshold_graph
               | apply keeps_execute_read
               | keeps_step ].
Qed.

Lemma keeps_similarity_rows products similarity :
  keeps f (MLRecommendationService.similarity_rows products similarity).
Proof.
  revert similarity. induction products as [|prod1 later IH]; intros similarity; cbn.
  - keeps_step.
  - apply keeps_bind; [|intros ?; apply IH].
    unfold MLRecommendationService.similarity_row. repeat keeps_step.
Qed.

Lemma keeps_build_simple_similarity_matrix conn :
  keeps f (MLRecommendationService._build_simple_similarity_matrix conn).
Proof.
  unfold MLRecommendationService._build_simple_similarity_matrix.
  apply keeps_bind; [apply keeps_execute_read|intros ?; apply keeps_similarity_rows].
Qed.

Lemma keeps_build_similarity_matrix ml conn :
  keeps f (MLRecommendationService._build_similarity_matrix ml conn).
Proof.
  unfold MLRecommendationService._build_similarity_matrix.
  repeat first [ apply keeps_build_simple_similarity_matrix
               | apply keeps_threshold_graph
               | apply keeps_execute_read
               | keeps_step ].
Qed.

Lemma keeps_load_product_features conn :
  keeps f (MLRecommendationService._load_product_features conn).
Proof. unfold MLRecommendationService._load_product_features. db_keeps. Qed.

End Timeless.

Lemma hoare_top {A} (m : M A) P : hoare P m (fun _ _ => True) (fun _ _ => True).
Proof. intros s _. destruct (m s) as [[e|a] s']; exact I. Qed.

(** [commit] either raises before anything is published, or publishes the
    whole view of the connection. *)
Lemma hoare_commit conn (P : State -> Prop) (Q : unit -> State -> Prop) E :
  (forall s, P s -> E OperationalError (called (Commit (c_store conn)) s)) ->
  (forall s, P s ->
     Q tt (mkState (self s)
             (set_committed (c_store conn) (c_view conn)
                (world (called (Commit (c_store conn)) s))))) ->
  hoare P (DatabaseManager.commit conn) Q E.
Proof.
  intros HE HQ s Hs. unfold DatabaseManager.commit.
  unfold mbind, M_bind. rewrite run_external_call.
  destruct (bool_decide _); [apply HE, Hs|]. cbn. apply HQ, Hs.
Qed.

(* ===================================================================== *)
(** * Sync: the mirror is replaced in one transaction *)
(* ===================================================================== *)

Lemma timeless_mirror : timeless mirror.
Proof. intros sv w n tr. reflexivity. Qed.

(** The table-creation script commits the rows it found. *)
Lemma keeps_mirror_execute_script :
  keeps mirror (DatabaseManager.execute_script Analytics).
Proof.
  intros [sv [p a fl ft c tr]].
  unfold DatabaseManager.execute_script, DatabaseManager.get_connection,
    DatabaseManager.commit, DatabaseManager.close, try_finally, mirror.
  unfold mbind, M_bind, external_call, get_state, modify_world, mret, M_ret. cbn.
  repeat (destruct (bool_decide _); cbn); reflexivity.
Qed.

Ltac sync_step :=
  eapply hoare_bind;
  [ apply (hoare_keeps mirror);
    pose proof timeless_mirror;
    unfold MLRecommendationService.insert_user, MLRecommendationService.insert_product,
      MLRecommendationService.insert_order, MLRecommendationService.insert_order_item;
    repeat first [ apply keeps_execute_read; assumption
                 | apply keeps_execute_write; assumption
                 | apply keeps_get_connection; assumption
                 | apply keeps_mirror_execute_script
                 | keeps_step ]
  | intros ? ].

Lemma sync_production_data_spec A0 :
  hoare (fun s => mirror s = A0)
    MLRecommendationService.sync_production_data
    (fun r s => sync_status r = "error" -> mirror s = A0)
    (fun _ _ => False).
Proof.
  unfold MLRecommendationService.sync_production_data.
  eapply hoare_try_except with (E' := fun _ s => mirror s = A0).
  2:{ intros e. apply hoare_ret. auto. }
  do 3 sync_step.
  apply hoare_try_finally; [|reflexivity].
  do 9 sync_step.
  eapply hoare_bind.
  { apply hoare_commit with (Q := fun _ _ => True); [|auto].
    intros s Hs. exact Hs. }
  intros ?. apply hoare_ret. intros s _ H. discriminate H.
Qed.

(* ===================================================================== *)
(** * Training: what a failed run has already overwritten *)
(* ===================================================================== *)

Lemma timeless_artifact : timeless artifact.
Proof. intros sv w n tr. reflexivity. Qed.

Lemma train_models_spec ml x :
  hoare (fun s => artifact s = x)
    (MLRecommendationService.train_models ml)
    (fun r s => train_status r = "error" -> artifact s = x)
    (fun _ _ => False).
Proof.
  unfold MLRecommendationService.train_models.
  eapply hoare_try_except with (E' := fun _ s => artifact s = x).
  2:{ intros e. apply hoare_ret. auto. }
  pose proof timeless_artifact as Ht.
  eapply hoare_bind.
  { apply (hoare_keeps artifact). apply keeps_get_connection, Ht. }
  intros conn. eapply hoare_bind.
  { apply (hoare_keeps artifact). apply keeps_build_copurchase_matrix, Ht. }
  intros cm. eapply hoare_bind.
  { apply (hoare_keeps artifact). intros [sv w]. reflexivity. }
  intros ?. eapply hoare_bind.
  { apply (hoare_keeps artifact). apply keeps_build_similarity_matrix, Ht. }
  intros sm. eapply hoare_bind.
  { apply (hoare_keeps artifact). intros [sv w]. reflexivity. }
  intros ?. eapply hoare_bind.
  { apply (hoare_keeps artifact). apply keeps_load_product_features, Ht. }
  intros pf.
  (* once the feature table is assigned nothing can raise any more *)
  eapply hoare_conseq with (P' := fun _ => True)
    (Q' := fun r _ => train_status r = "success") (E' := fun _ _ => False);
    [ | auto | intros r s Hr Hr'; rewrite Hr in Hr'; discriminate | tauto ].
  eapply hoare_bind with (R := fun _ _ => True).
  { intros s _. exact I. }
  intros ?. eapply hoare_bind with (R := fun _ _ => True).
  { intros s _. exact I. }
  intros ?. eapply hoare_bind with (R := fun _ _ => True).
  { unfold MLRecommendationService._save_models.
    eapply hoare_try_except; [apply hoare_top|].
    intros e. apply hoare_ret. auto. }
  intros ?. eapply hoare_bind with (R := fun _ _ => True).
  { intros s _. exact I. }
  intros ?. eapply hoare_bind with (R := fun _ _ => True).
  { intros s _. exact I. }
  intros st. apply hoare_ret. reflexivity.
Qed.

(* ===================================================================== *)
(** * Lists, sorting and graphs *)
(* ===================================================================== *)

Lemma insert_stable_perm {A} (before : A -> A -> bool) x s :
  Py.insert_stable before x s ≡ₚ x :: s.
Proof.
  induction s as [|y s IH]; cbn; [reflexivity|].
  destruct (before y x); [|reflexivity].
  rewrite IH. apply perm_swap.
Qed.

Lemma sorted_perm {A} (before : A -> A -> bool) l : Py.sorted before l ≡ₚ l.
Proof.
  induction l as [|x l IH]; cbn; [reflexivity|].
  rewrite insert_stable_perm, IH. reflexivity.
Qed.

Lemma elem_of_sorted {A} (before : A -> A -> bool) l x :
  x ∈ Py.sorted before l <-> x ∈ l.
Proof. rewrite (sorted_perm before l). reflexivity. Qed.

Lemma elem_of_list_prod {A B} (l : list A) (k : list B) p :
  p ∈ list_prod l k <-> fst p ∈ l /\ snd p ∈ k.
Proof. rewrite <- list_cprod_list_prod. apply list_elem_of_cprod. Qed.

Lemma NoDup_list_prod {A B} (l : list A) (k : list B) :
  NoDup l -> NoDup k -> NoDup (list_prod l k).
Proof.
  intros Hl Hk. induction Hl as [|x l Hx Hl IH]; cbn; [constructor|].
  apply NoDup_app. split; [|split; [|exact IH]].
  - apply (NoDup_fmap_2 (pair x)), Hk.
  - intros p Hp Hp'. apply list_elem_of_fmap in Hp as (b & -> & _).
    apply elem_of_list_prod in Hp' as [Hp' _]. cbn in Hp'. contradiction.
Qed.

Lemma NoDup_fmap_eq {A B} `{EqDecision B} (f : A -> B) (l : list A) x y :
  NoDup (f <$> l) -> x ∈ l -> y ∈ l -> f x = f y -> x = y.
Proof.
  induction l as [|z l IH]; cbn; [intros _ H; inversion H|].
  rewrite NoDup_cons. intros [Hz Hl] Hx Hy Hxy.
  apply elem_of_cons in Hx as [->|Hx]; apply elem_of_cons in Hy as [->|Hy]; auto.
  - exfalso. apply Hz. rewrite Hxy. apply list_elem_of_fmap_2, Hy.
  - exfalso. apply Hz. rewrite <- Hxy. apply list_elem_of_fmap_2, Hx.
Qed.

Lemma dict_get_set {V} (k k' : Z) (v : V) d :
  Py.dict_get k' (Py.dict_set k v d) = if decide (k' = k) then Some v else Py.dict_get k' d.
Proof.
  induction d as [|[k0 v0] d IH]; cbn.
  - destruct (Z.eqb_spec k' k); destruct (decide (k' = k)); congruence.
  - destruct (Z.eqb_spec k k0) as [->|Hne]; cbn.
    + destruct (Z.eqb_spec k' k0); destruct (decide (k' = k0)); congruence.
    + destruct (Z.eqb_spec k' k0) as [->|Hne'].
      * destruct (decide (k0 = k)); congruence.
      * exact IH.
Qed.

Lemma edge_empty x y : edge ∅ x y = None.
Proof. unfold edge. rewrite lookup_empty. reflexivity. Qed.

Lemma edge_graph_set a b v (g : graph) x y :
  edge (graph_set a b v g) x y
  = if decide (x = a /\ y = b) then Some v else edge g x y.
Proof.
  unfold edge, graph_set.
  destruct (decide (x = a)) as [->|Hne].
  - rewrite lookup_insert_eq. cbn. rewrite dict_get_set.
    destruct (decide (y = b)) as [->|Hyb].
    + rewrite decide_True by auto. reflexivity.
    + rewrite decide_False by tauto.
      destruct (g !! a); reflexivity.
  - rewrite lookup_insert_ne by congruence.
    rewrite decide_False by tauto. reflexivity.
Qed.

Lemma edge_sym_set g r x y :
  edge (sym_set g r) x y = if decide (touches r x y) then Some (snd r) else edge g x y.
Proof.
  destruct r as [[a b] v]. unfold sym_set, touches. cbn [fst snd].
  rewrite !edge_graph_set.
  repeat case_decide; try reflexivity; exfalso; naive_solver.
Qed.

Lemma edge_fold_Some rows g0 x y w :
  edge (foldl sym_set g0 rows) x y = Some w ->
  (exists r, r ∈ rows /\ touches r x y /\ snd r = w) \/ edge g0 x y = Some w.
Proof.
  induction rows as [|r rows IH] using rev_ind; cbn; [auto|].
  rewrite foldl_snoc, edge_sym_set. case_decide as Ht.
  - intros [= <-]. left. exists r. rewrite elem_of_app, list_elem_of_singleton. auto.
  - intros H. destruct (IH H) as [(r' & ? & ? & ?)|?]; [|auto].
    left. exists r'. rewrite elem_of_app. auto.
Qed.

Lemma edge_fold_is_Some rows g0 x y r :
  r ∈ rows -> touches r x y -> is_Some (edge (foldl sym_set g0 rows) x y).
Proof.
  induction rows as [|r' rows IH] using rev_ind; [intros H; inversion H|].
  rewrite foldl_snoc, edge_sym_set. intros Hin Ht.
  case_decide as Hd; [eauto|].
  apply IH; [|exact Ht].
  apply elem_of_app in Hin as [Hin|Hin]; [exact Hin|].
  apply list_elem_of_singleton in Hin. subst. contradiction.
Qed.

Lemma edge_fold_sym rows g0 x y :
  (forall x y, edge g0 x y = edge g0 y x) ->
  edge (foldl sym_set g0 rows) x y = edge (foldl sym_set g0 rows) y x.
Proof.
  intros H0. induction rows as [|r rows IH] using rev_ind; [apply H0|].
  rewrite foldl_snoc, !edge_sym_set.
  unfold touches. repeat case_decide; first [reflexivity | tauto | exact IH].
Qed.

(* ===================================================================== *)
(** * The co-occurrence query *)
(* ===================================================================== *)

Lemma frequency_orders_together db a b :
  NoDup (order_lines db) -> a < b ->
  SQL.frequency db (a, b) = Z.of_nat (orders_together db a b).
Proof.
  intros Hnd Hab. unfold SQL.frequency, orders_together. f_equal.
  set (M := filter (fun r => SQL.product_pair r = (a, b)) (SQL.items_join_items db)).
  assert (HM : forall r, r ∈ M <->
            fst r ∈ t_orderitem db /\ snd r ∈ t_orderitem db
            /\ oi_order_id (fst r) = oi_order_id (snd r)
            /\ oi_product_id (fst r) = a /\ oi_product_id (snd r) = b).
  { intros [i j]. unfold M, SQL.items_join_items, SQL.product_pair.
    rewrite !list_elem_of_filter, elem_of_list_prod. cbn.
    split.
    - intros ([= <- <-] & [? ?] & ? & ?). auto.
    - intros (? & ? & ? & <- & <-). auto. }
  assert (Hitems : NoDup (t_orderitem db)).
  { apply (NoDup_fmap_1 (fun i => (oi_order_id i, oi_product_id i))), Hnd. }
  assert (Hinj : forall i j, i ∈ t_orderitem db -> j ∈ t_orderitem db ->
            oi_order_id i = oi_order_id j -> oi_product_id i = oi_product_id j -> i = j).
  { intros i j Hi Hj Ho Hp.
    apply (NoDup_fmap_eq (fun i => (oi_order_id i, oi_product_id i)) (t_orderitem db));
      auto. cbn. congruence. }
  rewrite <- (length_fmap (fun r => oi_order_id (fst r)) M).
  apply Permutation_length, NoDup_Permutation.
  - apply NoDup_fmap_2_strong.
    + intros [i j] [i' j'] Hr Hr' Heq. cbn in Heq.
      apply HM in Hr as (? & ? & ? & ? & ?). apply HM in Hr' as (? & ? & ? & ? & ?).
      cbn in *. f_equal; apply Hinj; auto; congruence.
    + unfold M, SQL.items_join_items.
      apply NoDup_filter, NoDup_filter, NoDup_list_prod; exact Hitems.
  - apply NoDup_filter, NoDup_remove_dups.
  - intros o. rewrite list_elem_of_fmap, list_elem_of_filter, elem_of_remove_dups.
    unfold order_lines. rewrite !list_elem_of_fmap. split.
    + intros ([i j] & -> & Hr). apply HM in Hr as (Hi & Hj & Ho & Ha & Hb). cbn in *.
      split; [split|].
      * exists i. split; [congruence | exact Hi].
      * exists j. split; [congruence | exact Hj].
      * exists i. auto.
    + intros (((i & [= Hio Hia] & Hi) & (j & [= Hjo Hjb] & Hj)) & _).
      exists (i, j). split; [cbn; congruence|].
      apply HM. cbn. repeat split; auto; congruence.
Qed.

(** COUNT( * ) of a group counts pairs of order lines. *)
Lemma frequency_line_pairs db a b :
  a < b -> SQL.frequency db (a, b) = Z.of_nat (line_pairs db a b).
Proof.
  intros Hab. unfold SQL.frequency, line_pairs, SQL.items_join_items. f_equal.
  rewrite list_filter_filter. f_equal. apply list_filter_iff.
  intros [i j]. unfold SQL.product_pair. cbn. split.
  - intros ([= <- <-] & ? & ?). auto.
  - intros (? & <- & <-). auto.
Qed.

Lemma list_prod_nil_r {A B} (l : list A) : list_prod l ([] : list B) = [].
Proof. induction l as [|x l IH]; [reflexivity | exact IH]. Qed.

Lemma list_prod_cons_r {A B} (l : list A) (y : B) (k : list B) :
  list_prod l (y :: k) ≡ₚ map (fun x => (x, y)) l ++ list_prod l k.
Proof.
  induction l as [|x l IH]; [reflexivity|].
  cbn. constructor. rewrite IH. apply Permutation_app_swap_app.
Qed.

Lemma list_prod_swap {A B} (l : list A) (k : list B) :
  list_prod l k ≡ₚ map (fun p => (snd p, fst p)) (list_prod k l).
Proof.
  induction l as [|x l IH]; [rewrite list_prod_nil_r; reflexivity|].
  rewrite list_prod_cons_r, map_app, map_map. cbn.
  apply Permutation_app; [reflexivity | exact IH].
Qed.

Lemma length_filter_map {A B} (f : A -> B) (P : B -> Prop)
    `{!forall y, Decision (P y)} (l : list A) :
  length (filter P (map f l)) = length (filter (fun x => P (f x)) l).
Proof.
  induction l as [|x l IH]; [reflexivity|].
  cbn [map]. rewrite !filter_cons. destruct (decide (P (f x))); cbn; rewrite IH; reflexivity.
Qed.

Lemma line_pairs_comm db a b : line_pairs db a b = line_pairs db b a.
Proof.
  unfold line_pairs.
  rewrite (list_prod_swap (t_orderitem db) (t_orderitem db)) at 1.
  rewrite length_filter_map. f_equal.
  apply list_filter_iff. intros [i j]. cbn. split; intros (? & ? & ?); auto.
Qed.

Lemma line_pairs_orders_together db a b :
  NoDup (order_lines db) -> a <> b -> line_pairs db a b = orders_together db a b.
Proof.
  intros Hnd Hab. destruct (Z.lt_total a b) as [Hlt|[?|Hlt]]; [|contradiction|].
  - apply Nat2Z.inj. rewrite <- frequency_line_pairs by exact Hlt.
    apply frequency_orders_together; assumption.
  - rewrite line_pairs_comm. apply Nat2Z.inj.
    rewrite <- frequency_line_pairs by exact Hlt.
    rewrite frequency_orders_together by assumption.
    f_equal. unfold orders_together. f_equal. apply list_filter_iff. intros o. tauto.
Qed.

Lemma simple_copurchase_fold (rows : list (Z * Z * Z)) (g : graph) :
  foldl (fun copurchase '(product1, product2, frequency) =>
           graph_set product2 product1 (inject_Z frequency)
             (graph_set product1 product2 (inject_Z frequency) copurchase))
        g rows
  = foldl sym_set g (map (fun r => (fst r, inject_Z (snd r))) rows).
Proof.
  revert g. induction rows as [|[[a b] f] rows IH]; intros g; [reflexivity|].
  cbn. apply IH.
Qed.

Lemma frequency_positive db a b :
  0 < SQL.frequency db (a, b) ->
  (a, b) ∈ map SQL.product_pair (SQL.items_join_items db) /\ a < b.
Proof.
  unfold SQL.frequency. intros H.
  destruct (filter _ _) as [|r l] eqn:E; [cbn in H; lia|].
  assert (Hr : r ∈ filter (fun r => SQL.product_pair r = (a, b)) (SQL.items_join_items db)).
  { rewrite E. left. }
  apply list_elem_of_filter in Hr as [Hp Hr]. split.
  - rewrite <- Hp. apply list_elem_of_fmap_2, Hr.
  - unfold SQL.items_join_items in Hr. apply list_elem_of_filter in Hr as [[_ Hlt] _].
    unfold SQL.product_pair in Hp. injection Hp as <- <-. exact Hlt.
Qed.

Lemma elem_of_select_cooccurrences db a b f :
  (a, b, f) ∈ SQL.select_cooccurrences db
  <-> f = SQL.frequency db (a, b) /\ 2 <= f.
Proof.
  unfold SQL.select_cooccurrences.
  rewrite elem_of_sorted, list_elem_of_filter, list_elem_of_fmap. cbn. split.
  - intros (Hf & pair & [= <- <-] & _). auto.
  - intros [-> Hf]. split; [exact Hf|]. exists (a, b). split; [reflexivity|].
    apply elem_of_remove_dups, frequency_positive. lia.
Qed.

Lemma run_build_simple_copurchase_matrix conn s g s' :
  MLRecommendationService._build_simple_copurchase_matrix conn s = (inr g, s') ->
  g = foldl sym_set ∅
        (map (fun r => (fst r, inject_Z (snd r)))
             (SQL.select_cooccurrences (c_view conn))).
Proof.
  unfold MLRecommendationService._build_simple_copurchase_matrix,
    DatabaseManager.execute_read, mbind, M_bind.
  rewrite run_external_call.
  destruct (bool_decide (_ ∈ _)); [discriminate|]. cbn.
  intros [= <- _]. apply simple_copurchase_fold.
Qed.


(* ===================================================================== *)
(** * The rule-based similarity score *)
(* ===================================================================== *)

Lemma gtb_lt a b : Py.gtb a b = true <-> (b < a)%Q.
Proof.
  unfold Py.gtb. rewrite negb_true_iff. split.
  - intros H. apply Qnot_le_lt. intros Hle. apply Qle_bool_iff in Hle. congruence.
  - intros H. destruct (Qle_bool a b) eqn:E; [|reflexivity].
    apply Qle_bool_iff in E. exfalso. exact (Qlt_not_le _ _ H E).
Qed.



Lemma category_brand_score_range a b :
  (0 <= category_brand_score a b <= 7 # 10)%Q.
Proof.
  unfold category_brand_score.
  destruct (bool_decide (p_category a = p_category b)),
    (bool_decide (p_brand a = p_brand b)); split; unfold Qle; cbn; lia.
Qed.

Lemma category_brand_score_comm a b :
  category_brand_score a b = category_brand_score b a.
Proof.
  unfold category_brand_score.
  rewrite (bool_decide_ext (p_category a = p_category b) (p_category b = p_category a))
    by (split; congruence).
  rewrite (bool_decide_ext (p_brand a = p_brand b) (p_brand b = p_brand a))
    by (split; congruence).
  reflexivity.
Qed.

Lemma price_term_reached_comm a b : price_term_reached a b = price_term_reached b a.
Proof.
  unfold price_term_reached.
  destruct (p_price a) as [x|], (p_price b) as [y|]; try reflexivity.
  rewrite (andb_comm (Py.truthy_num x)). f_equal.
  unfold Py.gtb. f_equal.
  destruct (Qle_bool (Qmax x y) 0) eqn:E1, (Qle_bool (Qmax y x) 0) eqn:E2;
    try reflexivity.
  - apply Qle_bool_iff in E1. rewrite Q.max_comm in E1.
    apply Qle_bool_iff in E1. congruence.
  - apply Qle_bool_iff in E2. rewrite Q.max_comm in E2.
    apply Qle_bool_iff in E2. congruence.
Qed.

(** The function returns exactly when the guards keep the pair away from
    the price term, and then the score is the one of category and brand. *)
Lemma calculate_product_similarity_outcome a b :
  if price_term_reached a b
  then MLRecommendationService._calculate_product_similarity a b = inl TypeError
  else exists v, MLRecommendationService._calculate_product_similarity a b = inr v
                 /\ (v == category_brand_score a b)%Q.
Proof.
  assert (Hmin : forall v, (v == category_brand_score a b)%Q ->
            exists v', inr (Qmin v 1) = (inr v' : exn + Q)
                       /\ (v' == category_brand_score a b)%Q).
  { intros v Hv. eexists. split; [reflexivity|].
    rewrite Hv. apply Q.min_l.
    destruct (category_brand_score_range a b) as [_ H].
    apply Qle_trans with (7 # 10)%Q; [exact H | unfold Qle; cbn; lia]. }
  assert (Hscore :
    ((if bool_decide (p_brand a = p_brand b)
      then (if bool_decide (p_category a = p_category b) then 0 + (4 # 10) else 0)
           + (3 # 10)
      else (if bool_decide (p_category a = p_category b) then 0 + (4 # 10) else 0))
     == category_brand_score a b)%Q).
  { unfold category_brand_score.
    destruct (bool_decide (p_category a = p_category b)),
      (bool_decide (p_brand a = p_brand b)); ring. }
  unfold MLRecommendationService._calculate_product_similarity, price_term_reached.
  destruct (p_price a) as [x|], (p_price b) as [y|]; try (apply Hmin, Hscore).
  destruct (Py.truthy_num x && Py.truthy_num y); cbn [andb]; [|apply Hmin, Hscore].
  destruct (Py.gtb (Qmax x y) 0); [reflexivity | apply Hmin, Hscore].
Qed.

Lemma calculate_product_similarity_inr a b v :
  MLRecommendationService._calculate_product_similarity a b = inr v ->
  price_term_reached a b = false /\ (v == category_brand_score a b)%Q.
Proof.
  intros H. pose proof (calculate_product_similarity_outcome a b) as Ho.
  destruct (price_term_reached a b); [congruence|].
  destruct Ho as (v' & Hv' & Hq). split; [reflexivity|]. congruence.
Qed.



(** The inner loop raises at the first pair that reaches the price term;
    otherwise it writes the scored entries of the row. *)
Lemma similarity_row_fold prod1 later g s :
  MLRecommendationService.similarity_row prod1 later g s
  = (if forallb (fun prod2 => negb (price_term_reached prod1 prod2)) later
     then inr (foldl sym_set g (omap (scored_entry prod1) later))
     else inl TypeError, s).
Proof.
  unfold MLRecommendationService.similarity_row.
  revert g. induction later as [|prod2 later IH]; intros g; [reflexivity|].
  cbn [for_each forallb foldl omap list_omap].
  unfold mbind at 1, M_bind at 1, mbind at 1, M_bind at 1, lift.
  unfold scored_entry at 1.
  pose proof (calculate_product_similarity_outcome prod1 prod2) as Ho.
  destruct (price_term_reached prod1 prod2); cbn [negb andb].
  - rewrite Ho. reflexivity.
  - destruct Ho as (v & -> & _).
    destruct (Py.gtb v (3 # 10)); cbn [mret M_ret]; rewrite IH; reflexivity.
Qed.

Lemma forallb_map {A B} (f : B -> bool) (h : A -> B) l :
  forallb f (map h l) = forallb (fun x => f (h x)) l.
Proof. induction l as [|x l IH]; cbn; [reflexivity|]. rewrite IH. reflexivity. Qed.

Lemma similarity_rows_fold products g s :
  MLRecommendationService.similarity_rows products g s
  = (if price_term_unreached products
     then inr (foldl sym_set g (scored_pairs products))
     else inl TypeError, s).
Proof.
  unfold price_term_unreached.
  revert g. induction products as [|prod1 later IH]; intros g; [reflexivity|].
  cbn [MLRecommendationService.similarity_rows row_pairs scored_pairs].
  unfold mbind, M_bind. rewrite similarity_row_fold.
  rewrite forallb_app, forallb_map. cbn [fst snd].
  destruct (forallb _ later); cbn [andb]; [|reflexivity].
  rewrite IH, foldl_app. reflexivity.
Qed.

Lemma elem_of_scored_pairs products r :
  r ∈ scored_pairs products ->
  exists p q, p ∈ products /\ q ∈ products /\ scored_entry p q = Some r.
Proof.
  induction products as [|prod1 later IH]; cbn; [intros H; inversion H|].
  rewrite elem_of_app, list_elem_of_omap. intros [(q & Hq & Hr)|H].
  - exists prod1, q. split; [left|]. split; [right; exact Hq | exact Hr].
  - destruct (IH H) as (p & q & Hp & Hq & Hr).
    exists p, q. split; [right; exact Hp|]. split; [right; exact Hq | exact Hr].
Qed.


Lemma scored_entry_Some p q r :
  scored_entry p q = Some r ->
  exists v, MLRecommendationService._calculate_product_similarity p q = inr v
            /\ r = (p_id p, p_id q, v) /\ (3 # 10 < v)%Q.
Proof.
  unfold scored_entry.
  destruct (MLRecommendationService._calculate_product_similarity p q) as [e|v];
    [discriminate|].
  destruct (Py.gtb _ _) eqn:E; [|discriminate].
  intros [= <-]. exists v. split; [reflexivity|]. split; [reflexivity|].
  apply gtb_lt, E.
Qed.


Lemma run_build_simple_similarity_matrix_full conn s :
  MLRecommendationService._build_simple_similarity_matrix conn s
  = (if bool_decide (clock (world s) ∈ faults (world s))
     then inl OperationalError
     else if price_term_unreached (t_products (c_view conn))
          then inr (foldl sym_set ∅ (scored_pairs (t_products (c_view conn))))
          else inl TypeError,
     called (Execute (c_store conn) SelectProductFeatures) s).
Proof.
  unfold MLRecommendationService._build_simple_similarity_matrix,
    DatabaseManager.execute_read, mbind, M_bind.
  rewrite run_external_call.
  destruct (bool_decide (_ ∈ _)); [reflexivity|]. cbn [mret M_ret].
  apply similarity_rows_fold.
Qed.

Lemma run_build_simple_similarity_matrix conn s g s' :
  MLRecommendationService._build_simple_similarity_matrix conn s = (inr g, s') ->
  price_term_unreached (t_products (c_view conn)) = true
  /\ g = foldl sym_set ∅ (scored_pairs (t_products (c_view conn))).
Proof.
  rewrite run_build_simple_similarity_matrix_full.
  destruct (bool_decide (_ ∈ _)); [discriminate|].
  destruct (price_term_unreached _); [|discriminate].
  intros [= <- _]. auto.
Qed.


(* ===================================================================== *)
(** * Serving from the trained graphs *)
(* ===================================================================== *)

Lemma sublist_StronglySorted {A} (R : relation A) l1 l2 :
  l1 `sublist_of` l2 -> StronglySorted R l2 -> StronglySorted R l1.
Proof.
  induction 1 as [|x l1 l2 Hs IH|x l1 l2 Hs IH]; intros H2.
  - constructor.
  - apply StronglySorted_inv in H2 as [H2 Hall]. constructor; [auto|].
    rewrite Forall_forall in Hall |- *. intros y Hy. apply Hall.
    apply (sublist_subseteq _ _ Hs), Hy.
  - apply StronglySorted_inv in H2 as [H2 _]. auto.
Qed.

Lemma filter_sublist_mono {A} (P : A -> Prop) `{!forall x, Decision (P x)} l1 l2 :
  l1 `sublist_of` l2 -> filter P l1 `sublist_of` filter P l2.
Proof.
  induction 1 as [|x l1 l2 Hs IH|x l1 l2 Hs IH].
  - constructor.
  - rewrite !filter_cons. destruct (decide (P x)); [constructor|]; exact IH.
  - rewrite filter_cons. destruct (decide (P x)); [constructor|]; exact IH.
Qed.

Lemma insert_stable_Forall {A} (before : A -> A -> bool) (P : A -> Prop) x s :
  P x -> Forall P s -> Forall P (Py.insert_stable before x s).
Proof.
  intros Hx Hs. apply (Forall_forall P). intros y Hy.
  rewrite (insert_stable_perm before x s) in Hy.
  apply elem_of_cons in Hy as [->|Hy]; [exact Hx|].
  rewrite Forall_forall in Hs. apply Hs, Hy.
Qed.

Lemma sorted_by_value_desc_sorted {K} (l : list (K * Q)) :
  StronglySorted (fun a b => (snd b <= snd a)%Q) (Py.sorted_by_value_desc l).
Proof.
  unfold Py.sorted_by_value_desc, Py.sorted.
  induction l as [|x l IH]; cbn; [constructor|].
  generalize dependent (foldr (Py.insert_stable (fun y x => Py.gtb (snd y) (snd x))) [] l).
  intros s Hs. induction Hs as [|y s Hs IHs Hall]; cbn.
  - constructor; constructor.
  - destruct (Py.gtb (snd y) (snd x)) eqn:E.
    + constructor; [exact IHs|].
      apply insert_stable_Forall; [|exact Hall].
      apply Qlt_le_weak, gtb_lt, E.
    + assert (Hyx : (snd y <= snd x)%Q).
      { apply Qle_bool_iff. unfold Py.gtb in E. apply negb_false_iff in E. exact E. }
      constructor; [constructor; assumption|].
      constructor; [exact Hyx|].
      rewrite Forall_forall in Hall |- *. intros z Hz.
      apply Qle_trans with (snd y); [apply Hall, Hz | exact Hyx].
Qed.

Lemma sorted_by_value_desc_stable {K} (q : Q) (l : list (K * Q)) :
  filter (fun e => (snd e == q)%Q) (Py.sorted_by_value_desc l)
  = filter (fun e => (snd e == q)%Q) l.
Proof.
  unfold Py.sorted_by_value_desc, Py.sorted.
  induction l as [|x l IH]; [reflexivity|]. cbn [foldr].
  rewrite (filter_cons _ x l), <- IH.
  generalize (foldr (Py.insert_stable (fun y x => Py.gtb (snd y) (snd x))) [] l).
  clear IH. intros s. induction s as [|y s IHs]; [reflexivity|].
  cbn [Py.insert_stable].
  destruct (Py.gtb (snd y) (snd x)) eqn:E; [|reflexivity].
  apply gtb_lt in E.
  rewrite (filter_cons _ y), IHs, (filter_cons _ y s).
  destruct (decide (snd y == q)%Q) as [Hy|Hy], (decide (snd x == q)%Q) as [Hx|Hx];
    try reflexivity.
  exfalso. rewrite Hy, Hx in E. exact (Qlt_irrefl _ E).
Qed.

Lemma slice_to_sublist {A} n (l : list A) : Py.slice_to n l `sublist_of` l.
Proof. unfold Py.slice_to. destruct (0 <=? n); apply sublist_take. Qed.

Lemma slice_to_length {A} n (l : list A) :
  0 <= n -> Z.of_nat (length (Py.slice_to n l)) <= n.
Proof.
  intros Hn. unfold Py.slice_to. destruct (Z.leb_spec 0 n); [|lia].
  rewrite length_take. lia.
Qed.

Lemma omap_ranked_sublist f l :
  map ranked (omap (similar_entry f) l) `sublist_of` l.
Proof.
  induction l as [|[id score] l IH]; cbn; [constructor|].
  unfold similar_entry at 1. cbn.
  destruct (f !! id) as [product|]; cbn; [|constructor; exact IH].
  destruct (p_price product); cbn; constructor; exact IH.
Qed.

Lemma omap_length_le {A B} (f : A -> option B) l : (length (omap f l) <= length l)%nat.
Proof. induction l as [|x l IH]; cbn; [lia|]. destruct (f x); cbn; lia. Qed.

Lemma for_each_collect {A B} (l : list A) (body : list B -> A -> M (list B))
    (f : A -> option B) acc s :
  (forall acc x s, body acc x s = (inr (acc ++ option_list (f x)), s)) ->
  for_each l body acc s = (inr (acc ++ omap f l), s).
Proof.
  intros Hbody. revert acc. induction l as [|x l IH]; intros acc; cbn.
  - rewrite app_nil_r. reflexivity.
  - unfold mbind, M_bind. rewrite Hbody, IH.
    destruct (f x); cbn; rewrite <- ?app_assoc, ?app_nil_r; reflexivity.
Qed.

Lemma dict_get_None {V} k (d : list (Z * V)) :
  Py.dict_get k d = None <-> k ∉ map fst d.
Proof.
  induction d as [|[k' v] d IH]; cbn.
  - split; [intros _ H; inversion H | reflexivity].
  - rewrite not_elem_of_cons. destruct (Z.eqb_spec k k'); split; try discriminate; tauto.
Qed.

Lemma run_get_similar_products s product_id limit matrix similar :
  models_trained (self s) = true ->
  similarity_matrix (self s) = Some matrix ->
  matrix !! product_id = Some similar ->
  priced (product_features (self s)) ->
  MLRecommendationService.get_similar_products product_id limit s
  = (inr (omap (similar_entry (product_features (self s)))
               (Py.slice_to limit (Py.sorted_by_value_desc similar))), s).
Proof.
  intros Ht Hm Hrow Hpriced.
  unfold MLRecommendationService.get_similar_products, mbind, M_bind, get_state.
  rewrite Ht. cbn [negb]. unfold try_except. rewrite Hm, Hrow.
  rewrite (for_each_collect _ _ (similar_entry (product_features (self s)))).
  - reflexivity.
  - intros acc [similar_id score] s0. unfold similar_entry. cbn.
    destruct (product_features (self s) !! similar_id) as [product|] eqn:E; cbn.
    + destruct (Hpriced _ _ E) as [price Hprice].
      unfold MLRecommendationService.make_recommendation, mbind, M_bind.
      rewrite Hprice. reflexivity.
    + rewrite app_nil_r. reflexivity.
Qed.

Lemma StronglySorted_map {A B} (f : A -> B) (R : relation B) (l : list A) :
  StronglySorted R (map f l) -> StronglySorted (fun a b => R (f a) (f b)) l.
Proof.
  induction l as [|x l IH]; cbn; intros H; [constructor|].
  apply StronglySorted_inv in H as [H Hall]. constructor; [auto|].
  apply Forall_forall. intros y Hy.
  apply (proj1 (Forall_forall _ _) Hall). apply list_elem_of_fmap_2, Hy.
Qed.

(* ===================================================================== *)
(** * Serving from the co-purchase graph *)
(* ===================================================================== *)

Lemma foldl_Qmax_ge v vs :
  (v <= foldl Qmax v vs)%Q /\ Forall (fun x => (x <= foldl Qmax v vs)%Q) vs.
Proof.
  revert v. induction vs as [|x vs IH]; intros v; cbn.
  - split; [apply Qle_refl | constructor].
  - destruct (IH (Qmax v x)) as [Hm Hall]. split; [|constructor; [|exact Hall]].
    + apply Qle_trans with (Qmax v x); [apply Q.le_max_l | exact Hm].
    + apply Qle_trans with (Qmax v x); [apply Q.le_max_r | exact Hm].
Qed.

Lemma max_weight_ge row e : e ∈ row -> (snd e <= max_weight row)%Q.
Proof.
  unfold max_weight. intros He.
  apply list_elem_of_In, (in_map snd) in He.
  destruct (map snd row) as [|v vs]; [destruct He|].
  destruct (foldl_Qmax_ge v vs) as [Hv Hvs].
  destruct He as [<-|He]; [exact Hv|].
  apply (proj1 (Forall_forall _ _) Hvs), list_elem_of_In, He.
Qed.

Lemma max_weight_pos row :
  (forall e, e ∈ row -> (0 < snd e)%Q) -> (0 < max_weight row)%Q.
Proof.
  intros Hpos. destruct row as [|e row]; [reflexivity|].
  apply Qlt_le_trans with (snd e); [apply Hpos; left | apply max_weight_ge; left].
Qed.

Lemma run_get_copurchase_recommendations s product_id limit matrix copurchased :
  models_trained (self s) = true ->
  copurchase_matrix (self s) = Some matrix ->
  matrix !! product_id = Some copurchased ->
  priced (product_features (self s)) ->
  (forall e, e ∈ copurchased -> (0 < snd e)%Q) ->
  MLRecommendationService.get_copurchase_recommendations product_id limit s
  = (inr (omap (copurchase_entry (product_features (self s)) copurchased)
               (Py.slice_to limit (Py.sorted_by_value_desc copurchased))), s).
Proof.
  intros Ht Hm Hrow Hpriced Hpos.
  unfold MLRecommendationService.get_copurchase_recommendations,
    mbind, M_bind, get_state.
  rewrite Ht. cbn [negb]. unfold try_except. rewrite Hm, Hrow.
  rewrite (for_each_collect _ _
             (copurchase_entry (product_features (self s)) copurchased)).
  - reflexivity.
  - intros acc [copurch_id frequency] s0. unfold copurchase_entry. cbn.
    destruct (product_features (self s) !! copurch_id) as [product|] eqn:E; cbn.
    + destruct (Hpriced _ _ E) as [price Hprice].
      fold (max_weight copurchased).
      assert (Hz : Qeq_bool (max_weight copurchased) 0 = false).
      { apply not_true_iff_false. intros Hz. apply Qeq_bool_iff in Hz.
        pose proof (max_weight_pos _ Hpos) as Hlt. rewrite Hz in Hlt.
        exact (Qlt_irrefl _ Hlt). }
      rewrite Hz.
      unfold MLRecommendationService.make_recommendation, mbind, M_bind.
      rewrite Hprice. reflexivity.
    + rewrite app_nil_r. reflexivity.
Qed.

Lemma run_get_copurchase_recommendations_zero s product_id matrix copurchased :
  models_trained (self s) = true ->
  copurchase_matrix (self s) = Some matrix ->
  matrix !! product_id = Some copurchased ->
  MLRecommendationService.get_copurchase_recommendations product_id 0 s = (inr [], s).
Proof.
  intros Ht Hm Hrow.
  unfold MLRecommendationService.get_copurchase_recommendations, mbind, M_bind, get_state.
  rewrite Ht. cbn [negb]. unfold try_except. rewrite Hm, Hrow. reflexivity.
Qed.

(* ===================================================================== *)
(** * Which path the co-purchase trainer takes *)
(* ===================================================================== *)

Lemma run_execute_read {A} conn q (rows : Tables -> A) s :
  DatabaseManager.execute_read conn q rows s
  = (if bool_decide (clock (world s) ∈ faults (world s))
     then inl OperationalError else inr (rows (c_view conn)),
     called (Execute (c_store conn) q) s).
Proof.
  unfold DatabaseManager.execute_read, mbind, M_bind.
  rewrite run_external_call. destruct (bool_decide _); reflexivity.
Qed.

Lemma run_build_user_item_matrix k conn s :
  clock (world s) ∉ faults (world s) ->
  exists m,
    MLRecommendationService._build_user_item_matrix (Some k) conn s
    = (inr m, called (Execute (c_store conn) SelectInteractions) s)
    /\ (m = None <-> SQL.select_interactions (c_view conn) = []).
Proof.
  intros Hok.
  unfold MLRecommendationService._build_user_item_matrix, try_except, mbind, M_bind.
  cbn [mret M_ret].
  rewrite run_execute_read, bool_decide_eq_false_2 by exact Hok.
  destruct (SQL.select_interactions (c_view conn)) as [|row rows].
  - eexists. split; [reflexivity|]. tauto.
  - eexists. split; [reflexivity|]. split; discriminate.
Qed.

Lemma hoare_for_each {A S} (l : list A) (body : S -> A -> M S)
    (I : State -> Prop) (E : exn -> State -> Prop) acc :
  (forall a x, hoare I (body a x) (fun _ => I) E) ->
  hoare I (for_each l body acc) (fun _ => I) E.
Proof.
  intros Hb. revert acc. induction l as [|x l IH]; intros acc.
  - apply hoare_ret. auto.
  - change (for_each (x :: l) body acc)
      with (body acc x ≫= fun acc' => for_each l body acc').
    eapply hoare_bind; [apply Hb|]. intros a. apply IH.
Qed.

(** The thresholding loops touch nothing and can only fail on an index. *)
Lemma threshold_graph_spec t sc ids sims s :
  hoare (fun s0 => s0 = s)
    (MLRecommendationService.threshold_graph t sc ids sims)
    (fun _ s' => s' = s) (fun e s' => e = IndexError /\ s' = s).
Proof.
  unfold MLRecommendationService.threshold_graph.
  apply hoare_conseq with (P' := fun s0 => s0 = s) (Q' := fun _ s' => s' = s)
    (E' := fun e s' => e = IndexError /\ s' = s); auto.
  apply hoare_for_each. intros g [i prod_id1].
  apply hoare_for_each. intros g' [j prod_id2].
  destruct (Nat.eqb i j); [apply hoare_ret; auto|].
  eapply hoare_bind with (R := fun _ s' => s' = s).
  - unfold MLRecommendationService.index2.
    destruct (_ ≫= _); [apply hoare_ret | apply hoare_raise]; auto.
  - intros sim. destruct (Py.gtb sim t); apply hoare_ret; auto.
Qed.

Lemma run_build_simple_copurchase_matrix_full conn s :
  MLRecommendationService._build_simple_copurchase_matrix conn s
  = (if bool_decide (clock (world s) ∈ faults (world s))
     then inl OperationalError
     else inr (fallback_copurchase_graph (c_view conn)),
     called (Execute (c_store conn) SelectCoOccurrences) s).
Proof.
  unfold MLRecommendationService._build_simple_copurchase_matrix, mbind, M_bind.
  rewrite run_execute_read. destruct (bool_decide _); [reflexivity|].
  unfold fallback_copurchase_graph. rewrite <- simple_copurchase_fold. reflexivity.
Qed.


(* ===================================================================== *)
(** * The fallback queries *)
(* ===================================================================== *)

Lemma run_get_connection st s :
  DatabaseManager.get_connection st s
  = (if bool_decide (clock (world s) ∈ faults (world s))
     then inl OperationalError
     else inr (mkConnection st (committed st (world s))),
     called (Connect st) s).
Proof.
  unfold DatabaseManager.get_connection, mbind, M_bind.
  rewrite run_external_call. destruct (bool_decide _); [reflexivity|].
  destruct st; reflexivity.
Qed.

Lemma run_execute_checked {A} conn q (rows : Tables -> option A) s :
  DatabaseManager.execute_checked conn q rows s
  = (if bool_decide (clock (world s) ∈ faults (world s))
     then inl OperationalError
     else match rows (c_view conn) with
          | Some r => inr r
          | None => inl OperationalError
          end,
     called (Execute (c_store conn) q) s).
Proof.
  unfold DatabaseManager.execute_checked, mbind, M_bind.
  rewrite run_external_call. destruct (bool_decide _); [reflexivity|].
  destruct (rows (c_view conn)); reflexivity.
Qed.

Lemma keeps_make_recommendation {X} (f : State -> X) id p sc why :
  keeps f (MLRecommendationService.make_recommendation id p sc why).
Proof.
  unfold MLRecommendationService.make_recommendation.
  destruct (p_price p); [apply keeps_ret | apply keeps_raise].
Qed.

Lemma run_get_similar_products_zero s product_id matrix similar :
  models_trained (self s) = true ->
  similarity_matrix (self s) = Some matrix ->
  matrix !! product_id = Some similar ->
  MLRecommendationService.get_similar_products product_id 0 s = (inr [], s).
Proof.
  intros Ht Hm Hrow.
  unfold MLRecommendationService.get_similar_products, mbind, M_bind, get_state.
  rewrite Ht. cbn [negb]. unfold try_except. rewrite Hm, Hrow. reflexivity.
Qed.

Lemma fallback_similar_trace s product_id limit original :
  clock (world s) ∉ faults (world s) ->
  S (clock (world s)) ∉ faults (world s) ->
  SQL.select_product_by_id product_id (production (world s)) = Some original ->
  trace (world (snd (MLRecommendationService._get_fallback_similar_products
                       product_id limit s)))
  = [Execute Production (SelectSameCategory (p_category original) product_id limit);
     Execute Production (SelectProductById product_id);
     Connect Production] ++ trace (world s).
Proof.
  intros H0 H1 Horig.
  unfold MLRecommendationService._get_fallback_similar_products, try_except.
  unfold mbind at 1, M_bind at 1.
  rewrite run_get_connection, bool_decide_eq_false_2 by exact H0.
  unfold mbind at 1, M_bind at 1.
  rewrite run_execute_read, bool_decide_eq_false_2 by exact H1.
  cbn [c_view c_store committed]. rewrite Horig.
  unfold mbind at 1, M_bind at 1.
  rewrite run_execute_checked.
  match goal with
  | |- context [if ?b then inl OperationalError else ?x] =>
      destruct (if b then inl OperationalError else x) as [e|results]
  end; [reflexivity|].
  unfold DatabaseManager.close. unfold mbind at 1, M_bind at 1. cbn [mret M_ret].
  match goal with
  | |- context [for_each ?l ?body ?acc ?s1] =>
      pose proof (keeps_for_each (fun s => trace (world s)) l body acc) as Hk;
      specialize (Hk ltac:(intros a b; apply keeps_bind;
                           [apply keeps_make_recommendation | intros r; apply keeps_ret]) s1);
      destruct (for_each l body acc s1) as [[e|recs] s2]
  end; cbn [snd mret M_ret] in Hk |- *; rewrite Hk; reflexivity.
Qed.

Lemma fallback_copurchase_trace s product_id limit :
  clock (world s) ∉ faults (world s) ->
  trace (world (snd (MLRecommendationService._get_fallback_copurchase_recommendations
                       product_id limit s)))
  = [Execute Production (SelectBoughtWith product_id limit); Connect Production]
    ++ trace (world s).
Proof.
  intros H0.
  unfold MLRecommendationService._get_fallback_copurchase_recommendations, try_except.
  unfold mbind at 1, M_bind at 1.
  rewrite run_get_connection, bool_decide_eq_false_2 by exact H0.
  unfold mbind at 1, M_bind at 1.
  rewrite run_execute_checked.
  match goal with
  | |- context [if ?b then inl OperationalError else ?x] =>
      destruct (if b then inl OperationalError else x) as [e|results]
  end; [reflexivity|].
  unfold DatabaseManager.close. unfold mbind at 1, M_bind at 1. cbn [mret M_ret].
  match goal with
  | |- context [for_each ?l ?body ?acc ?s1] =>
      pose proof (keeps_for_each (fun s => trace (world s)) l body acc) as Hk;
      specialize (Hk ltac:(intros a [p c]; apply keeps_bind;
                           [apply keeps_make_recommendation | intros r; apply keeps_ret]) s1);
      destruct (for_each l body acc s1) as [[e|recs] s2]
  end; cbn [snd mret M_ret] in Hk |- *; rewrite Hk; reflexivity.
Qed.

Lemma run_get_similar_products_untrained s product_id limit :
  models_trained (self s) = false ->
  MLRecommendationService.get_similar_products product_id limit s
  = MLRecommendationService._get_fallback_similar_products product_id limit s.
Proof.
  intros Ht.
  unfold MLRecommendationService.get_similar_products, mbind, M_bind, get_state.
  rewrite Ht. reflexivity.
Qed.

Lemma run_get_copurchase_recommendations_untrained s product_id limit :
  models_trained (self s) = false ->
  MLRecommendationService.get_copurchase_recommendations product_id limit s
  = MLRecommendationService._get_fallback_copurchase_recommendations product_id limit s.
Proof.
  intros Ht.
  unfold MLRecommendationService.get_copurchase_recommendations, mbind, M_bind, get_state.
  rewrite Ht. reflexivity.
Qed.


(* ===================================================================== *)
(** * Building the service instance *)
(* ===================================================================== *)

Lemma no_store_access_refl s : no_store_access_since s s.
Proof. exists []. split; [reflexivity | constructor]. Qed.

Lemma no_store_access_called s s' ev :
  is_store_access ev = false ->
  no_store_access_since s s' -> no_store_access_since s (called ev s').
Proof.
  intros Hev (new & Ht & Hall). exists (ev :: new). cbn. rewrite Ht.
  split; [reflexivity | constructor; assumption].
Qed.

Lemma no_store_access_self s s' sv :
  no_store_access_since s s' -> no_store_access_since s (mkState sv (world s')).
Proof. intros H. exact H. Qed.

Lemma hoare_read_file {A} s name (content : ModelFiles -> option (pickle A)) :
  hoare (no_store_access_since s)
    (MLRecommendationService.read_file name content)
    (fun _ => no_store_access_since s) (fun _ => no_store_access_since s).
Proof.
  intros s0 H0. unfold MLRecommendationService.read_file, mbind, M_bind.
  rewrite run_external_call.
  pose proof (no_store_access_called s s0 (FileRead name) eq_refl H0) as H1.
  destruct (bool_decide _); [exact H1|]. cbn.
  destruct (content _) as [[|v]|]; exact H1.
Qed.

Lemma hoare_makedirs s :
  hoare (no_store_access_since s) (external_call MakeDirs OSError)
    (fun _ => no_store_access_since s) (fun _ => no_store_access_since s).
Proof.
  intros s0 H0. rewrite run_external_call.
  pose proof (no_store_access_called s s0 MakeDirs eq_refl H0) as H1.
  destruct (bool_decide _); exact H1.
Qed.

Lemma hoare_modify_self s f :
  hoare (no_store_access_since s) (modify_self f)
    (fun _ => no_store_access_since s) (fun _ => no_store_access_since s).
Proof. intros s0 H0. exact H0. Qed.

Lemma init_no_store_access s :
  no_store_access_since s (snd (MLRecommendationService.__init__ s)).
Proof.
  assert (H : hoare (no_store_access_since s) MLRecommendationService.__init__
                (fun _ => no_store_access_since s) (fun _ => no_store_access_since s)).
  { unfold MLRecommendationService.__init__, MLRecommendationService._load_models,
      MLRecommendationService.set_similarity_matrix,
      MLRecommendationService.set_copurchase_matrix,
      MLRecommendationService.set_product_features,
      MLRecommendationService.set_models_trained.
    eapply hoare_bind; [apply hoare_modify_self|]. intros ?.
    eapply hoare_bind; [apply hoare_makedirs|]. intros ?.
    apply hoare_try_except with (E' := fun _ => no_store_access_since s);
      [|intros e; apply hoare_modify_self].
    eapply hoare_bind with (R := fun _ => no_store_access_since s);
      [intros s0 H0; exact H0|].
    intros st. destruct (Py.all _); [|apply hoare_ret; auto].
    repeat (eapply hoare_bind;
            [first [apply hoare_read_file | apply hoare_modify_self]|intros ?]).
    apply hoare_modify_self. }
  specialize (H s (no_store_access_refl s)).
  destruct (MLRecommendationService.__init__ s) as [[e|[]] s']; exact H.
Qed.

(* ===================================================================== *)
(** * The claims *)
(* ===================================================================== *)

(** ** Training failures (C1) *)

(** C1, as stated, does not hold: a training run that fails while the
    similarity graph is being built has already replaced the in-memory
    co-purchase matrix of the instance.  Here the third external call
    (the product query of the similarity trainer) fails. *)
Lemma C1_counterexample :
  ~ (forall ml s r s',
       MLRecommendationService.train_models ml s = (inr r, s') ->
       train_status r = "error" ->
       copurchase_matrix (self s') = copurchase_matrix (self s)
       /\ similarity_matrix (self s') = similarity_matrix (self s)
       /\ product_features (self s') = product_features (self s)
       /\ files (world s') = files (world s)).
Proof.
  intros H.
  pose (s := Sample.state Sample.trained Sample.shop Sample.shop
               Sample.old_files [2%nat]).
  destruct (H None s (TrainError "OperationalError")
              (snd (MLRecommendationService.train_models None s)))
    as [Hcm _]; [vm_compute; reflexivity | reflexivity |].
  apply (f_equal (fun m => m ≫= fun g => edge g 1 2)) in Hcm.
  vm_compute in Hcm. discriminate Hcm.
Qed.

(** C1 (amended): when [train_models] returns an error outcome, the three
    persisted artifact files, the trained flag and the in-memory product
    feature table are exactly what they were before the attempt. *)
Theorem C1_failed_training_keeps_artifact
    (ml : option MLKernels) (s s' : State) (r : train_result) :
  MLRecommendationService.train_models ml s = (inr r, s') ->
  train_status r = "error" ->
  files (world s') = files (world s)
  /\ models_trained (self s') = models_trained (self s)
  /\ product_features (self s') = product_features (self s).
Proof.
  intros Hrun Herr.
  pose proof (train_models_spec ml (artifact s) s eq_refl) as H.
  rewrite Hrun in H. specialize (H Herr).
  unfold artifact in H. injection H as H1 H2 H3. auto.
Qed.

Lemma C1_failed_training_keeps_artifact_witness :
  let s := Sample.state Sample.trained Sample.shop Sample.shop
             Sample.old_files [2%nat] in
  let s' := snd (MLRecommendationService.train_models None s) in
  fst (MLRecommendationService.train_models None s)
    = inr (TrainError "OperationalError")
  /\ files (world s') = Sample.old_files
  /\ models_trained (self s') = true
  /\ product_features (self s') = Sample.old_features.
Proof.
  intros s s'. split; [vm_compute; reflexivity|].
  apply (C1_failed_training_keeps_artifact None s s' (TrainError "OperationalError")).
  - vm_compute. reflexivity.
  - reflexivity.
Defined.

(** ** Not found and internal errors (C2) *)

(** Whatever the request, the similarity endpoint answers 200, 400 or 500:
    the 404 it raises for an empty result is raised inside the [try] block
    whose handler turns every exception into a 500. *)
Lemma get_similar_products_status product_id limit s :
  let c := main.status_code (fst (main.get_similar_products product_id limit s)) in
  c = 200 \/ c = 400 \/ c = 500.
Proof.
  unfold main.get_similar_products. destruct (50 <? limit); [cbn; auto|].
  unfold try_except, mbind, M_bind.
  destruct (MLRecommendationService.get_similar_products product_id limit s)
    as [[e|[|r recs]] s1]; cbn; auto.
Qed.

Lemma get_copurchase_recommendations_status product_id limit s :
  let c := main.status_code
             (fst (main.get_copurchase_recommendations product_id limit s)) in
  c = 200 \/ c = 400 \/ c = 500.
Proof.
  unfold main.get_copurchase_recommendations. destruct (50 <? limit); [cbn; auto|].
  unfold try_except, mbind, M_bind.
  destruct (MLRecommendationService.get_copurchase_recommendations product_id limit s)
    as [[e|[|r recs]] s1]; cbn; auto.
Qed.

(** C2: product 77 is not in the catalog and no model is loaded; both
    endpoints answer 500, not 404. *)
Theorem C2_unknown_product_answers_500 :
  let s := Sample.state Sample.untrained Sample.shop Sample.shop
             Sample.no_files [] in
  fst (main.get_similar_products 77 10 s)
    = inl (HTTPException 500
             "Error getting similar products: 404: No similar products found for product 77")
  /\ fst (main.get_copurchase_recommendations 77 10 s)
    = inl (HTTPException 500
             "Error getting co-purchase recommendations: 404: No co-purchase recommendations found for product 77").
Proof. split; vm_compute; reflexivity. Qed.

(** ** Sync failures (C3) *)

(** C3: if [sync_production_data] returns an error outcome, the committed
    users, products, orders and order-item tables of the mirror are the ones
    it had before the attempt. *)
Theorem C3_failed_sync_keeps_mirror (s s' : State) (r : sync_result) :
  MLRecommendationService.sync_production_data s = (inr r, s') ->
  sync_status r = "error" ->
  analytics (world s') = analytics (world s).
Proof.
  intros Hrun Herr.
  pose proof (sync_production_data_spec (mirror s) s eq_refl) as H.
  rewrite Hrun in H. exact (H Herr).
Qed.

(** The read of the users table, issued after the four DELETEs, fails. *)
Lemma C3_failed_sync_keeps_mirror_witness :
  let s := Sample.state Sample.untrained Sample.shop Sample.old_mirror
             Sample.no_files [9%nat] in
  fst (MLRecommendationService.sync_production_data s)
    = inr (SyncError "OperationalError")
  /\ analytics (world (snd (MLRecommendationService.sync_production_data s)))
     = Sample.old_mirror.
Proof.
  intros s. split; [vm_compute; reflexivity|].
  apply (C3_failed_sync_keeps_mirror s _ (SyncError "OperationalError")).
  - vm_compute. reflexivity.
  - reflexivity.
Defined.

(** [sync_production_data] always returns an outcome. *)
Lemma sync_production_data_returns s :
  exists r, fst (MLRecommendationService.sync_production_data s) = inr r.
Proof.
  pose proof (sync_production_data_spec (mirror s) s eq_refl) as H.
  destruct (MLRecommendationService.sync_production_data s) as [[e|r] s'];
    [contradiction | eauto].
Qed.

(** ** Health (C4) *)

(** A probe never raises and its status string is never empty. *)
Lemma probe_truthy st s :
  exists status s',
    MLRecommendationService.probe st s = (inr status, s')
    /\ Py.truthy_str status = true /\ self s' = self s.
Proof.
  unfold MLRecommendationService.probe, try_except,
    DatabaseManager.get_connection, DatabaseManager.execute_read,
    DatabaseManager.close, mbind, M_bind.
  rewrite run_external_call.
  destruct (bool_decide (clock (world s) ∈ faults (world s))); cbn.
  - eexists _, _. split; [reflexivity|]. split; reflexivity.
  - rewrite run_external_call.
    destruct (bool_decide (_ ∈ _)); cbn;
      eexists _, _; (split; [reflexivity|]); split; reflexivity.
Qed.

(** The reported status depends on the trained flag alone. *)
Lemma get_health_status_healthy_iff_trained s :
  exists h, fst (MLRecommendationService.get_health_status s) = inr h
            /\ (health_status h = "healthy" <-> models_trained (self s) = true).
Proof.
  unfold MLRecommendationService.get_health_status, try_except, mbind, M_bind.
  cbn.
  destruct (probe_truthy Production s) as (st1 & s1 & -> & Ht1 & _).
  destruct (probe_truthy Analytics s1) as (st2 & s2 & -> & Ht2 & _).
  cbn. eexists. split; [reflexivity|]. cbn.
  rewrite Ht1, Ht2. cbn.
  destruct (models_trained (self s)); cbn; split; congruence.
Qed.

(** C4: with the models trained and the production store unreachable (the
    first external call fails) the report still says "healthy". *)
Theorem C4_unreachable_store_reported_healthy :
  let s := Sample.state Sample.trained Sample.shop Sample.shop
             Sample.old_files [0%nat] in
  exists files statistics,
    fst (MLRecommendationService.get_health_status s)
    = inr (HealthReport "healthy" true files
             ("error: OperationalError", "healthy") statistics).
Proof. eexists _, _. vm_compute. reflexivity. Qed.

(** ** Ranking of similar products (C5) *)

(** C5, as stated, does not hold: two neighbours with the same score come
    out in the order the row stores them (here 3 before 2), and a negative
    limit yields more than [limit] entries. *)
Lemma C5_counterexample :
  ~ (forall s product_id limit matrix similar recs s',
       models_trained (self s) = true ->
       similarity_matrix (self s) = Some matrix ->
       matrix !! product_id = Some similar ->
       MLRecommendationService.get_similar_products product_id limit s = (inr recs, s') ->
       StronglySorted claimed_order recs)
  /\ ~ (forall s product_id limit matrix similar recs s',
          models_trained (self s) = true ->
          similarity_matrix (self s) = Some matrix ->
          matrix !! product_id = Some similar ->
          MLRecommendationService.get_similar_products product_id limit s = (inr recs, s') ->
          Z.of_nat (length recs) <= limit).
Proof.
  split; intros H.
  - pose (s := Sample.state Sample.tied Sample.shop Sample.shop Sample.old_files []).
    pose proof (H s 1 10 Sample.tied_similarity [(3, 1 # 2); (2, 1 # 2)] _ _
                  eq_refl eq_refl eq_refl ltac:(vm_compute; reflexivity)) as Hs.
    apply StronglySorted_inv in Hs as [_ Hall].
    apply Forall_inv in Hall. destruct Hall as [Hlt|[_ Hlt]]; cbn in Hlt.
    + unfold Qlt in Hlt. cbn in Hlt. lia.
    + lia.
  - pose (s := Sample.state Sample.trained Sample.shop Sample.shop Sample.old_files []).
    pose proof (H s 1 (-1) Sample.old_similarity [(2, 9 # 10)] [] s
                  eq_refl eq_refl eq_refl ltac:(vm_compute; reflexivity)) as Hle.
    cbn in Hle. lia.
Qed.

(** C5 (amended): when the product has a row in the similarity graph (and
    the feature rows have a price), [get_similar_products] answers from that
    row; for a limit that is not negative it returns at most [limit]
    entries; it leaves the product itself out whenever the row has no self
    edge; the entries come by non-increasing score; and entries of equal
    score keep the order in which the row stores them. *)
Theorem C5_similar_products_ranked
    (s : State) (product_id limit : Z) (matrix : graph) (similar : list (Z * Q)) :
  models_trained (self s) = true ->
  similarity_matrix (self s) = Some matrix ->
  matrix !! product_id = Some similar ->
  priced (product_features (self s)) ->
  exists recs,
    MLRecommendationService.get_similar_products product_id limit s = (inr recs, s)
    /\ (0 <= limit -> Z.of_nat (length recs) <= limit)
    /\ (Py.dict_get product_id similar = None ->
        product_id ∉ map r_product_id recs)
    /\ StronglySorted (fun r1 r2 => (r_score r2 <= r_score r1)%Q) recs
    /\ (forall q,
          filter (fun e => (snd e == q)%Q) (map ranked recs)
          `sublist_of` filter (fun e => (snd e == q)%Q) similar).
Proof.
  intros Ht Hm Hrow Hpriced.
  eexists. split; [apply (run_get_similar_products s product_id limit matrix similar);
                   assumption|].
  set (f := product_features (self s)).
  set (top := Py.slice_to limit (Py.sorted_by_value_desc similar)).
  assert (Hsub : map ranked (omap (similar_entry f) top)
                 `sublist_of` Py.sorted_by_value_desc similar).
  { etransitivity; [apply omap_ranked_sublist | apply slice_to_sublist]. }
  split; [|split; [|split]].
  - intros Hl. pose proof (omap_length_le (similar_entry f) top).
    pose proof (slice_to_length limit (Py.sorted_by_value_desc similar) Hl).
    fold top in H0. lia.
  - intros Hself Hin. apply dict_get_None in Hself. apply Hself.
    assert (Hin' : product_id ∈ map fst (map ranked (omap (similar_entry f) top))).
    { rewrite map_map. exact Hin. }
    apply list_elem_of_fmap in Hin' as (e & -> & He).
    apply (sublist_subseteq _ _ Hsub) in He.
    unfold Py.sorted_by_value_desc in He. apply elem_of_sorted in He.
    apply list_elem_of_fmap_2, He.
  - apply (StronglySorted_map ranked (fun a b => (snd b <= snd a)%Q)).
    apply (sublist_StronglySorted _ _ _ Hsub), sorted_by_value_desc_sorted.
  - intros q. rewrite <- (sorted_by_value_desc_stable q similar).
    apply filter_sublist_mono, Hsub.
Qed.

Lemma C5_similar_products_ranked_witness :
  let s := Sample.state Sample.tied Sample.shop Sample.shop Sample.old_files [] in
  exists recs,
    MLRecommendationService.get_similar_products 1 1 s = (inr recs, s)
    /\ map ranked recs = [(3, 1 # 2)]
    /\ Z.of_nat (length recs) <= 1
    /\ 1 ∉ map r_product_id recs.
Proof.
  intros s.
  destruct (C5_similar_products_ranked s 1 1 Sample.tied_similarity
              [(3, 1 # 2); (2, 1 # 2)])
    as (recs & Hrun & Hlen & Hself & _).
  - reflexivity.
  - reflexivity.
  - reflexivity.
  - intros id p Hp.
    assert (Hall : map_Forall (fun _ p => is_Some (p_price p)) Sample.old_features).
    { refine (bool_decide_unpack _ _). vm_compute. exact I. }
    exact (Hall id p Hp).
  - exists recs. split; [exact Hrun|]. split.
    + assert (E : fst (MLRecommendationService.get_similar_products 1 1 s)
                  = inr recs) by (rewrite Hrun; reflexivity).
      vm_compute in E. injection E as <-. reflexivity.
    + split; [apply Hlen; lia | apply Hself; reflexivity].
Defined.

(** ** Choice of the co-purchase strategy (C6) *)

(** C6, as stated, does not hold: the mirror below has one customer, so the
    interaction table has a single row, and the trainer still runs the
    factorization. *)
Lemma C6_counterexample :
  ~ (forall k conn s,
       clock (world s) ∉ faults (world s) ->
       (interaction_table_rows (c_view conn) < 2
        \/ interaction_table_columns (c_view conn) < 2)%nat ->
       Factorize ∉ trace (world (snd
         (MLRecommendationService._build_copurchase_matrix (Some k) conn s)))).
Proof.
  intros H.
  apply (H Sample.kernels (mkConnection Analytics Sample.shop)
           (Sample.state Sample.untrained Sample.shop Sample.shop Sample.no_files [])).
  - intros Hin. inversion Hin.
  - left. vm_compute. lia.
  - vm_compute. right. left.
Qed.

(** C6 (amended): with the numeric libraries present and the interaction
    query answered, the trainer skips the factorization and builds the graph
    with the co-occurrence query exactly when the interaction table is empty;
    any table with at least one entry is factorized. *)
Theorem C6_factorization_skipped_when_empty
    (k : MLKernels) (conn : Connection) (s : State) :
  clock (world s) ∉ faults (world s) ->
  let run := MLRecommendationService._build_copurchase_matrix (Some k) conn s in
  trace (world (snd run))
  = match SQL.select_interactions (c_view conn) with
    | [] => [Execute (c_store conn) SelectCoOccurrences;
             Execute (c_store conn) SelectInteractions]
    | _ :: _ => [Execute (c_store conn) SelectDistinctProductIds; Factorize;
                 Execute (c_store conn) SelectInteractions]
    end ++ trace (world s)
  /\ (SQL.select_interactions (c_view conn) = [] ->
      forall g, fst run = inr g -> g = fallback_copurchase_graph (c_view conn)).
Proof.
  intros Hok run. subst run.
  destruct (MLRecommendationService._build_copurchase_matrix (Some k) conn s)
    as [r s'] eqn:Hfull. cbn [fst snd]. revert Hfull.
  destruct (run_build_user_item_matrix k conn s Hok) as (m & Hrun & Hm).
  unfold MLRecommendationService._build_copurchase_matrix, try_except_ImportError.
  unfold mbind at 1, M_bind at 1. rewrite Hrun.
  destruct m as [m|].
  - (* a table was built: it is factorized *)
    destruct (SQL.select_interactions (c_view conn)) as [|row rows];
      [destruct Hm as [_ Hm]; discriminate (Hm eq_refl)|].
    unfold MLRecommendationService._matrix_factorization, mbind, M_bind.
    cbn [record_event modify_world mret M_ret].
    rewrite run_execute_read.
    destruct (bool_decide (_ ∈ _));
      [intros [= <- <-]; split; [reflexivity|discriminate]|].
    destruct (1 <? length (factorize k m))%nat;
      [|intros [= <- <-]; split; [reflexivity|discriminate]].
    match goal with
    | |- context [MLRecommendationService.threshold_graph ?t ?sc ?ids ?sims ?s1] =>
        pose proof (threshold_graph_spec t sc ids sims s1 s1 eq_refl) as Hth;
        destruct (MLRecommendationService.threshold_graph t sc ids sims s1)
          as [[e|g] s2]
    end.
    + destruct Hth as [-> ->]. intros [= <- <-]. split; [reflexivity|discriminate].
    + subst s2. intros [= <- <-]. split; [reflexivity|discriminate].
  - (* no table: the co-occurrence query is used *)
    rewrite (proj1 Hm eq_refl).
    rewrite run_build_simple_copurchase_matrix_full.
    destruct (bool_decide (_ ∈ _)); intros [= <- <-].
    + split; [reflexivity|]. intros _ g [=].
    + split; [reflexivity|]. intros _ g [= <-]. reflexivity.
Qed.

Lemma C6_factorization_skipped_when_empty_witness :
  let conn := mkConnection Analytics Sample.shop in
  let s := Sample.state Sample.untrained Sample.shop Sample.shop Sample.no_files [] in
  interaction_table_rows Sample.shop = 1%nat
  /\ trace (world (snd (MLRecommendationService._build_copurchase_matrix
                          (Some Sample.kernels) conn s)))
     = [Execute Analytics SelectDistinctProductIds; Factorize;
        Execute Analytics SelectInteractions].
Proof.
  intros conn s. split; [vm_compute; reflexivity|].
  destruct (C6_factorization_skipped_when_empty Sample.kernels conn s) as [Ht _].
  - intros Hin. inversion Hin.
  - rewrite Ht. vm_compute. reflexivity.
Defined.

(** ** The limit (C7) *)

(** C7: a limit above 50 is answered with 400 "Limit cannot exceed 50" and
    the state, and with it the trace of data-store accesses, is exactly the
    one the request found.  The instance that FastAPI builds for the request
    before it calls the endpoint reads the model files only: it makes no
    data-store access either. *)
Theorem C7_limit_above_50_rejected (s : State) (product_id limit : Z) :
  50 < limit ->
  main.get_similar_products product_id limit s
    = (inl (HTTPException 400 "Limit cannot exceed 50"), s)
  /\ main.get_copurchase_recommendations product_id limit s
    = (inl (HTTPException 400 "Limit cannot exceed 50"), s)
  /\ no_store_access_since s (snd (main.get_ml_service s)).
Proof.
  intros H. unfold main.get_similar_products, main.get_copurchase_recommendations.
  destruct (Z.ltb_spec 50 limit); [|lia].
  split; [reflexivity|]. split; [reflexivity|]. apply init_no_store_access.
Qed.

Lemma C7_limit_above_50_rejected_witness :
  let s := Sample.state Sample.trained Sample.shop Sample.shop
             Sample.old_files [] in
  main.status_code (fst (main.get_similar_products 1 51 s)) = 400
  /\ trace (world (snd (main.get_similar_products 1 51 s))) = []
  /\ main.status_code (fst (main.get_copurchase_recommendations 1 51 s)) = 400
  /\ trace (world (snd (main.get_copurchase_recommendations 1 51 s))) = [].
Proof.
  intros s.
  destruct (C7_limit_above_50_rejected s 1 51) as (H1 & H2 & _); [lia|].
  rewrite H1, H2. repeat split; reflexivity.
Defined.

(** ** The fallback similarity graph (C8) *)




(** ** The fallback co-purchase graph (C9) *)

(** C9, as stated, does not hold for every state of the mirror: the weight
    is COUNT( * ) over the self join of the order lines, and nothing keeps an
    order from listing a product on two lines.  Below, products 1 and 2
    appear together in one order, which lists product 2 twice: the edge is
    kept, with weight 2. *)
Lemma C9_counterexample :
  ~ (forall conn s s' g a b w,
       MLRecommendationService._build_simple_copurchase_matrix conn s = (inr g, s') ->
       edge g a b = Some w ->
       w = inject_Z (Z.of_nat (orders_together (c_view conn) a b))
       /\ (2 <= orders_together (c_view conn) a b)%nat).
Proof.
  intros H.
  pose (conn := mkConnection Analytics Sample.repeated_line).
  pose (s := Sample.state Sample.untrained Sample.shop Sample.repeated_line
               Sample.no_files []).
  destruct (H conn s
              (snd (MLRecommendationService._build_simple_copurchase_matrix conn s))
              (returned ∅ (fst (MLRecommendationService._build_simple_copurchase_matrix
                                  conn s)))
              1 2 2%Q) as [_ Hge].
  - vm_compute. reflexivity.
  - vm_compute. reflexivity.
  - vm_compute in Hge. lia.
Qed.

(** C9 (amended): for every state of the mirror, the graph built by
    [_build_simple_copurchase_matrix] holds an edge (a, b) with weight w
    exactly when it holds (b, a) with weight w; the weight of an edge is the
    number of pairs of order lines, one of a and one of b, that belong to
    the same order, an edge being kept exactly for the pairs of distinct
    products with at least two such pairs of lines; and when no order lists
    a product on two lines, that number is the number of orders in which
    both products appear. *)
Theorem C9_fallback_copurchase_symmetric (conn : Connection) (s s' : State) (g : graph) :
  MLRecommendationService._build_simple_copurchase_matrix conn s = (inr g, s') ->
  (forall a b, edge g a b = edge g b a)
  /\ (forall a b w,
        edge g a b = Some w
        <-> a <> b
            /\ w = inject_Z (Z.of_nat (line_pairs (c_view conn) a b))
            /\ (2 <= line_pairs (c_view conn) a b)%nat)
  /\ (NoDup (order_lines (c_view conn)) ->
      forall a b, a <> b ->
        line_pairs (c_view conn) a b = orders_together (c_view conn) a b).
Proof.
  intros Hrun. apply run_build_simple_copurchase_matrix in Hrun. subst g.
  set (db := c_view conn).
  split.
  { intros a b. apply edge_fold_sym. intros x y. rewrite !edge_empty. reflexivity. }
  split; [|intros Hnd a b Hab; apply line_pairs_orders_together; assumption].
  assert (Hto : forall a b w,
    edge (foldl sym_set ∅ (map (fun r => (fst r, inject_Z (snd r)))
                               (SQL.select_cooccurrences db))) a b = Some w ->
    a <> b /\ w = inject_Z (Z.of_nat (line_pairs db a b))
    /\ (2 <= line_pairs db a b)%nat).
  { intros a b w H. apply edge_fold_Some in H as [(r & Hr & Ht & Hw)|H];
      [|rewrite edge_empty in H; discriminate].
    apply list_elem_of_fmap in Hr as ([[x y] f] & -> & Hr).
    cbn in Hw. subst w.
    apply elem_of_select_cooccurrences in Hr as [-> Hf].
    destruct (frequency_positive db x y) as [_ Hxy]; [lia|].
    rewrite (frequency_line_pairs db x y Hxy) in Hf |- *.
    destruct Ht as [Ht|Ht]; cbn in Ht; injection Ht as -> ->.
    - split; [lia|]. split; [reflexivity|lia].
    - rewrite (line_pairs_comm db a b). split; [lia|]. split; [reflexivity|lia]. }
  intros a b w. split; [apply Hto|].
  intros (Hab & -> & Hge).
  assert (Hrow : exists r,
    r ∈ map (fun r => (fst r, inject_Z (snd r))) (SQL.select_cooccurrences db)
    /\ touches r a b).
  { destruct (Z.lt_total a b) as [Hlt|[?|Hlt]]; [|contradiction|].
    - exists (a, b, inject_Z (SQL.frequency db (a, b))). split; [|left; reflexivity].
      apply list_elem_of_fmap. exists (a, b, SQL.frequency db (a, b)).
      split; [reflexivity|]. apply elem_of_select_cooccurrences.
      split; [reflexivity|]. rewrite (frequency_line_pairs db a b Hlt). lia.
    - exists (b, a, inject_Z (SQL.frequency db (b, a))). split; [|right; reflexivity].
      apply list_elem_of_fmap. exists (b, a, SQL.frequency db (b, a)).
      split; [reflexivity|]. apply elem_of_select_cooccurrences.
      split; [reflexivity|]. rewrite (frequency_line_pairs db b a Hlt).
      rewrite (line_pairs_comm db b a). lia. }
  destruct Hrow as (r & Hr & Ht).
  destruct (edge_fold_is_Some _ ∅ a b r Hr Ht) as [w' Hw'].
  rewrite Hw'. f_equal. apply Hto in Hw' as (_ & -> & _). reflexivity.
Qed.

(** The order that lists product 2 twice gives the pair (1, 2) two pairs of
    lines; in the shop, whose orders {1,2}, {1,2}, {1,3} list no product
    twice, the pairs of lines are the common orders. *)
Lemma C9_fallback_copurchase_symmetric_witness :
  let conn := mkConnection Analytics Sample.repeated_line in
  let s := Sample.state Sample.untrained Sample.shop Sample.repeated_line
             Sample.no_files [] in
  let g := foldl sym_set ∅ [(1, 2, 2%Q)] in
  let shop := mkConnection Analytics Sample.shop in
  fst (MLRecommendationService._build_simple_copurchase_matrix conn s) = inr g
  /\ edge g 1 2 = edge g 2 1
  /\ (edge g 1 2 = Some 2%Q
      <-> 1 <> 2 /\ 2%Q = inject_Z (Z.of_nat (line_pairs Sample.repeated_line 1 2))
          /\ (2 <= line_pairs Sample.repeated_line 1 2)%nat)
  /\ line_pairs Sample.shop 1 2 = orders_together Sample.shop 1 2.
Proof.
  intros conn s g shop.
  destruct (C9_fallback_copurchase_symmetric conn s
              (snd (MLRecommendationService._build_simple_copurchase_matrix conn s)) g)
    as (Hsym & Hw & _); [vm_compute; reflexivity|].
  split; [vm_compute; reflexivity|]. split; [apply Hsym|]. split; [apply Hw|].
  destruct (C9_fallback_copurchase_symmetric shop
              (Sample.state Sample.untrained Sample.shop Sample.shop Sample.no_files [])
              (snd (MLRecommendationService._build_simple_copurchase_matrix shop
                      (Sample.state Sample.untrained Sample.shop Sample.shop
                         Sample.no_files [])))
              g)
    as (_ & _ & Hlines); [vm_compute; reflexivity|].
  apply Hlines; [|discriminate].
  refine (bool_decide_unpack _ _). vm_compute. exact I.
Defined.

(** ** No lower bound on the limit (C10) *)

(** C10: for every limit up to 50, zero and negative values included,
    neither endpoint answers with the validation error.  On the trained
    path of either endpoint a limit of 0 yields the empty list, which the
    endpoint reports through its no-results branch, and a negative limit
    reaches the slice unchecked (the last [-limit] ranked entries are
    dropped).  On the fallback path the limit reaches the LIMIT parameter of
    the query as it came. *)
Theorem C10_no_lower_bound_on_limit (s : State) (product_id limit : Z) :
  limit <= 50 ->
  (main.status_code (fst (main.get_similar_products product_id limit s)) <> 400
   /\ main.status_code (fst (main.get_copurchase_recommendations product_id limit s))
      <> 400)
  /\ (forall matrix similar,
        models_trained (self s) = true ->
        similarity_matrix (self s) = Some matrix ->
        matrix !! product_id = Some similar ->
        (limit = 0 ->
         MLRecommendationService.get_similar_products product_id limit s = (inr [], s)
         /\ main.get_similar_products product_id limit s
            = (inl (HTTPException 500
                      ("Error getting similar products: 404: No similar products found for product "
                         +:+ pretty product_id)), s))
        /\ (limit < 0 ->
            priced (product_features (self s)) ->
            MLRecommendationService.get_similar_products product_id limit s
            = (inr (omap (similar_entry (product_features (self s)))
                         (take (length similar - Z.to_nat (- limit))
                               (Py.sorted_by_value_desc similar))), s)))
  /\ (forall matrix copurchased,
        models_trained (self s) = true ->
        copurchase_matrix (self s) = Some matrix ->
        matrix !! product_id = Some copurchased ->
        (limit = 0 ->
         MLRecommendationService.get_copurchase_recommendations product_id limit s
           = (inr [], s)
         /\ main.get_copurchase_recommendations product_id limit s
            = (inl (HTTPException 500
                      ("Error getting co-purchase recommendations: 404: No co-purchase recommendations found for product "
                         +:+ pretty product_id)), s))
        /\ (limit < 0 ->
            priced (product_features (self s)) ->
            (forall e, e ∈ copurchased -> (0 < snd e)%Q) ->
            MLRecommendationService.get_copurchase_recommendations product_id limit s
            = (inr (omap (copurchase_entry (product_features (self s)) copurchased)
                         (take (length copurchased - Z.to_nat (- limit))
                               (Py.sorted_by_value_desc copurchased))), s)))
  /\ (models_trained (self s) = false ->
      clock (world s) ∉ faults (world s) ->
      trace (world (snd (MLRecommendationService.get_copurchase_recommendations
                           product_id limit s)))
      = [Execute Production (SelectBoughtWith product_id limit); Connect Production]
        ++ trace (world s)
      /\ forall original,
          S (clock (world s)) ∉ faults (world s) ->
          SQL.select_product_by_id product_id (production (world s)) = Some original ->
          trace (world (snd (MLRecommendationService.get_similar_products
                               product_id limit s)))
          = [Execute Production
               (SelectSameCategory (p_category original) product_id limit);
             Execute Production (SelectProductById product_id);
             Connect Production] ++ trace (world s)).
Proof.
  intros Hlimit.
  assert (H50 : (50 <? limit) = false) by (apply Z.ltb_ge; exact Hlimit).
  split; [|split; [|split]].
  - unfold main.get_similar_products, main.get_copurchase_recommendations.
    rewrite H50. unfold try_except, mbind, M_bind. split.
    + destruct (MLRecommendationService.get_similar_products product_id limit s)
        as [[e|[|r recs]] s1]; cbn; discriminate.
    + destruct (MLRecommendationService.get_copurchase_recommendations product_id limit s)
        as [[e|[|r recs]] s1]; cbn; discriminate.
  - intros matrix similar Ht Hm Hrow. split.
    + intros ->.
      pose proof (run_get_similar_products_zero s product_id matrix similar Ht Hm Hrow)
        as Hrun.
      split; [exact Hrun|].
      unfold main.get_similar_products. cbn [Z.ltb Z.compare].
      unfold try_except, mbind, M_bind. rewrite Hrun. reflexivity.
    + intros Hneg Hpriced.
      rewrite (run_get_similar_products s product_id limit matrix similar Ht Hm Hrow Hpriced).
      unfold Py.slice_to. destruct (Z.leb_spec 0 limit); [lia|].
      unfold Py.sorted_by_value_desc.
      rewrite (Permutation_length (sorted_perm _ similar)). reflexivity.
  - intros matrix copurchased Ht Hm Hrow. split.
    + intros ->.
      pose proof (run_get_copurchase_recommendations_zero s product_id matrix
                    copurchased Ht Hm Hrow) as Hrun.
      split; [exact Hrun|].
      unfold main.get_copurchase_recommendations. cbn [Z.ltb Z.compare].
      unfold try_except, mbind, M_bind. rewrite Hrun. reflexivity.
    + intros Hneg Hpriced Hpos.
      rewrite (run_get_copurchase_recommendations s product_id limit matrix copurchased
                 Ht Hm Hrow Hpriced Hpos).
      unfold Py.slice_to. destruct (Z.leb_spec 0 limit); [lia|].
      unfold Py.sorted_by_value_desc.
      rewrite (Permutation_length (sorted_perm _ copurchased)). reflexivity.
  - intros Ht H0. split.
    + rewrite run_get_copurchase_recommendations_untrained by exact Ht.
      apply fallback_copurchase_trace, H0.
    + intros original H1 Horig.
      rewrite run_get_similar_products_untrained by exact Ht.
      apply fallback_similar_trace; assumption.
Qed.

Lemma C10_no_lower_bound_on_limit_witness :
  let trained := Sample.state Sample.busy Sample.shop Sample.shop
                   Sample.old_files [] in
  let untrained := Sample.state Sample.untrained Sample.shop Sample.shop
                     Sample.no_files [] in
  MLRecommendationService.get_similar_products 1 0 trained = (inr [], trained)
  /\ main.status_code (fst (main.get_similar_products 1 0 trained)) = 500
  /\ MLRecommendationService.get_copurchase_recommendations 1 0 trained
     = (inr [], trained)
  /\ main.status_code (fst (main.get_copurchase_recommendations 1 0 trained)) = 500
  /\ map r_product_id
       (returned [] (fst (MLRecommendationService.get_copurchase_recommendations
                            1 (-1) trained))) = [3]
  /\ trace (world (snd (MLRecommendationService.get_similar_products 1 (-1) untrained)))
     = [Execute Production (SelectSameCategory (Some "phone") 1 (-1));
        Execute Production (SelectProductById 1);
        Connect Production].
Proof.
  intros trained untrained.
  assert (Hpriced : priced Sample.old_features).
  { intros id p Hp.
    assert (Hall : map_Forall (fun _ p => is_Some (p_price p)) Sample.old_features).
    { refine (bool_decide_unpack _ _). vm_compute. exact I. }
    exact (Hall id p Hp). }
  destruct (C10_no_lower_bound_on_limit trained 1 0) as (_ & Hsim & Hcop & _); [lia|].
  destruct (Hsim Sample.old_similarity [(2, 9 # 10)] eq_refl eq_refl eq_refl)
    as [Hzero _].
  destruct (Hzero eq_refl) as [Hrun Hmain].
  split; [exact Hrun|]. split; [rewrite Hmain; reflexivity|].
  destruct (Hcop Sample.busy_copurchase [(2, 4%Q); (3, 10%Q)] eq_refl eq_refl eq_refl)
    as [Hzero' _].
  destruct (Hzero' eq_refl) as [Hrun' Hmain'].
  split; [exact Hrun'|]. split; [rewrite Hmain'; reflexivity|].
  split.
  { destruct (C10_no_lower_bound_on_limit trained 1 (-1)) as (_ & _ & Hneg & _); [lia|].
    destruct (Hneg Sample.busy_copurchase [(2, 4%Q); (3, 10%Q)] eq_refl eq_refl eq_refl)
      as [_ Hslice].
    rewrite Hslice; [vm_compute; reflexivity | lia | exact Hpriced |].
    intros e He. apply elem_of_cons in He as [->|He]; [reflexivity|].
    apply list_elem_of_singleton in He. subst e. reflexivity. }
  destruct (C10_no_lower_bound_on_limit untrained 1 (-1)) as (_ & _ & _ & Hfallback);
    [lia|].
  destruct Hfallback as [_ Hsimilar];
    [reflexivity | intros Hin; inversion Hin |].
  rewrite (Hsimilar (Sample.product 1 "phone" "X" 100));
    [reflexivity | intros Hin; inversion Hin | vm_compute; reflexivity].
Defined.

(* ===================================================================== *)
(** * Further properties: sync, persistence, serving, training *)
(* ===================================================================== *)

(* ===================================================================== *)
(** ** Runs of the monad, read backwards *)
(* ===================================================================== *)

Lemma bind_inr_inv {A B} (m : M A) (k : A -> M B) s b s' :
  (m ≫= k) s = (inr b, s') ->
  exists a s1, m s = (inr a, s1) /\ k a s1 = (inr b, s').
Proof.
  unfold mbind, M_bind. destruct (m s) as [[e|a] s1]; [discriminate|]. eauto.
Qed.

Lemma try_except_inr_inv {A} (m : M A) h s a s' :
  try_except m h s = (inr a, s') ->
  m s = (inr a, s') \/ exists e s1, m s = (inl e, s1) /\ h e s1 = (inr a, s').
Proof.
  unfold try_except. destruct (m s) as [[e|a'] s1]; [right; eauto | left; assumption].
Qed.

Lemma try_finally_noop {A} (m : M A) (f : M unit) s :
  (forall s, f s = (inr tt, s)) -> try_finally m f s = m s.
Proof.
  intros Hf. unfold try_finally. destruct (m s) as [r s1]. rewrite Hf. reflexivity.
Qed.

Lemma run_execute_write conn q change s :
  DatabaseManager.execute_write conn q change s
  = (if bool_decide (clock (world s) ∈ faults (world s))
     then inl OperationalError
     else match change (c_view conn) with
          | Some db => inr (mkConnection (c_store conn) db)
          | None => inl IntegrityError
          end,
     called (Execute (c_store conn) q) s).
Proof.
  unfold DatabaseManager.execute_write, mbind, M_bind.
  rewrite run_external_call. destruct (bool_decide _); [reflexivity|].
  destruct (change (c_view conn)); reflexivity.
Qed.

Lemma run_commit conn s :
  DatabaseManager.commit conn s
  = if bool_decide (clock (world s) ∈ faults (world s))
    then (inl OperationalError, called (Commit (c_store conn)) s)
    else (inr tt, mkState (self s)
                    (set_committed (c_store conn) (c_view conn)
                       (world (called (Commit (c_store conn)) s)))).
Proof.
  unfold DatabaseManager.commit, mbind, M_bind.
  rewrite run_external_call. destruct (bool_decide _); reflexivity.
Qed.

Lemma run_clear_tables c s c' s' :
  for_each [Users; Products; Orders; OrderItem]
    (fun c t => DatabaseManager.execute_write c (DeleteFrom t)
                  (fun db => Some (clear_table t db))) c s = (inr c', s') ->
  c' = mkConnection (c_store c) (mkTables [] [] [] [])
  /\ contents s' = contents s.
Proof.
  cbn [for_each]. intros H.
  repeat (apply bind_inr_inv in H as (? & ? & Hw & H);
          rewrite run_execute_write in Hw;
          destruct (bool_decide (_ ∈ _)); [discriminate Hw|];
          injection Hw as <- <-).
  injection H as <- <-. split; reflexivity.
Qed.

Lemma run_insert_users users c s c' s' :
  for_each users MLRecommendationService.insert_user c s = (inr c', s') ->
  c' = mkConnection (c_store c)
         (mkTables (t_users (c_view c) ++ map mirrored_user users)
                   (t_products (c_view c)) (t_orders (c_view c))
                   (t_orderitem (c_view c)))
  /\ contents s' = contents s.
Proof.
  revert c s. induction users as [|[[id name] email] users IH]; intros [st db] s.
  - intros [= <- <-]. cbn. rewrite app_nil_r. destruct db; split; reflexivity.
  - intros H. apply bind_inr_inv in H as (c1 & s1 & Hw & H).
    unfold MLRecommendationService.insert_user in Hw.
    rewrite run_execute_write in Hw.
    destruct (bool_decide (_ ∈ _)); [discriminate Hw|]. cbn in Hw.
    destruct (SQL.primary_key_free _ _ _); [|discriminate Hw].
    injection Hw as <- <-. apply IH in H as [-> Hs]. cbn.
    rewrite <- app_assoc. split; [reflexivity | exact Hs].
Qed.

Lemma run_insert_products products c s c' s' :
  for_each products MLRecommendationService.insert_product c s = (inr c', s') ->
  c' = mkConnection (c_store c)
         (mkTables (t_users (c_view c))
                   (t_products (c_view c) ++ map mirrored_product products)
                   (t_orders (c_view c)) (t_orderitem (c_view c)))
  /\ contents s' = contents s.
Proof.
  revert c s. induction products as [|p products IH]; intros [st db] s.
  - intros [= <- <-]. cbn. rewrite app_nil_r. destruct db; split; reflexivity.
  - intros H. apply bind_inr_inv in H as (c1 & s1 & Hw & H).
    unfold MLRecommendationService.insert_product in Hw.
    rewrite run_execute_write in Hw.
    destruct (bool_decide (_ ∈ _)); [discriminate Hw|]. cbn in Hw.
    destruct (SQL.primary_key_free _ _ _); [|discriminate Hw].
    injection Hw as <- <-. apply IH in H as [-> Hs]. cbn.
    rewrite <- app_assoc. split; [reflexivity | exact Hs].
Qed.

Lemma run_insert_orders orders c s c' s' :
  for_each orders MLRecommendationService.insert_order c s = (inr c', s') ->
  c' = mkConnection (c_store c)
         (mkTables (t_users (c_view c)) (t_products (c_view c))
                   (t_orders (c_view c) ++ map mirrored_order orders)
                   (t_orderitem (c_view c)))
  /\ contents s' = contents s.
Proof.
  revert c s. induction orders as [|o orders IH]; intros [st db] s.
  - intros [= <- <-]. cbn. rewrite app_nil_r. destruct db; split; reflexivity.
  - intros H. apply bind_inr_inv in H as (c1 & s1 & Hw & H).
    unfold MLRecommendationService.insert_order in Hw.
    rewrite run_execute_write in Hw.
    destruct (bool_decide (_ ∈ _)); [discriminate Hw|]. cbn in Hw.
    destruct (SQL.primary_key_free _ _ _); [|discriminate Hw].
    injection Hw as <- <-. apply IH in H as [-> Hs]. cbn.
    rewrite <- app_assoc. split; [reflexivity | exact Hs].
Qed.

Lemma run_insert_order_items items c s c' s' :
  for_each items MLRecommendationService.insert_order_item c s = (inr c', s') ->
  c' = mkConnection (c_store c)
         (mkTables (t_users (c_view c)) (t_products (c_view c))
                   (t_orders (c_view c))
                   (t_orderitem (c_view c) ++ map mirrored_order_item items))
  /\ contents s' = contents s.
Proof.
  revert c s. induction items as [|i items IH]; intros [st db] s.
  - intros [= <- <-]. cbn. rewrite app_nil_r. destruct db; split; reflexivity.
  - intros H. apply bind_inr_inv in H as (c1 & s1 & Hw & H).
    unfold MLRecommendationService.insert_order_item in Hw.
    rewrite run_execute_write in Hw.
    destruct (bool_decide (_ ∈ _)); [discriminate Hw|]. cbn in Hw.
    destruct (SQL.primary_key_free _ _ _); [|discriminate Hw].
    injection Hw as <- <-. apply IH in H as [-> Hs]. cbn.
    rewrite <- app_assoc. split; [reflexivity | exact Hs].
Qed.

(* ===================================================================== *)
(** ** A successful sync *)
(* ===================================================================== *)

Lemma contents_called ev s : contents (called ev s) = contents s.
Proof. reflexivity. Qed.

Lemma run_execute_script st s r s' :
  DatabaseManager.execute_script st s = (r, s') -> contents s' = contents s.
Proof.
  destruct s as [sv [p a fl ft c tr]].
  unfold DatabaseManager.execute_script, DatabaseManager.get_connection,
    DatabaseManager.commit, DatabaseManager.close, try_finally.
  unfold mbind, M_bind, external_call, get_state, modify_world, mret, M_ret. cbn.
  repeat (destruct (bool_decide _); cbn); intros [= <- <-]; cbn; destruct st; auto.
Qed.

Ltac read_step H x s :=
  apply bind_inr_inv in H as (x & s & Hr & H);
  rewrite run_execute_read in Hr;
  destruct (bool_decide (_ ∈ _)); [discriminate Hr|]; injection Hr as <- <-.

Lemma sync_copies_live_source s users products orders items s' :
  MLRecommendationService.sync_production_data s
    = (inr (SyncSuccess users products orders items), s') ->
  mirror s' = mirrored (production (world s))
  /\ production (world s') = production (world s)
  /\ self s' = self s
  /\ files (world s') = files (world s)
  /\ users = length (t_users (production (world s)))
  /\ products = length (t_products (production (world s)))
  /\ orders = length (t_orders (production (world s)))
  /\ items = length (t_orderitem (production (world s))).
Proof.
  unfold MLRecommendationService.sync_production_data. intros H.
  apply try_except_inr_inv in H as [H | (e & s1 & _ & H)]; [|discriminate H].
  apply bind_inr_inv in H as ([] & s1 & Hscript & H).
  apply run_execute_script in Hscript.
  apply bind_inr_inv in H as (prod_conn & s2 & Hc & H).
  rewrite run_get_connection in Hc.
  destruct (bool_decide (_ ∈ _)); [discriminate Hc|]. injection Hc as <- <-.
  apply bind_inr_inv in H as (analytics_conn & s3 & Hc & H).
  rewrite run_get_connection in Hc.
  destruct (bool_decide (_ ∈ _)); [discriminate Hc|]. injection Hc as <- <-.
  rewrite try_finally_noop in H by reflexivity.
  apply bind_inr_inv in H as (c1 & s4 & Hw & H).
  apply run_clear_tables in Hw as [-> Hs4].
  read_step H us s5.
  apply bind_inr_inv in H as (c2 & s6 & Hw & H).
  apply run_insert_users in Hw as [-> Hs6].
  read_step H ps s7.
  apply bind_inr_inv in H as (c3 & s8 & Hw & H).
  apply run_insert_products in Hw as [-> Hs8].
  read_step H os s9.
  apply bind_inr_inv in H as (c4 & s10 & Hw & H).
  apply run_insert_orders in Hw as [-> Hs10].
  read_step H its s11.
  apply bind_inr_inv in H as (c5 & s12 & Hw & H).
  apply run_insert_order_items in Hw as [-> Hs12].
  apply bind_inr_inv in H as ([] & s13 & Hcommit & H).
  rewrite run_commit in Hcommit.
  destruct (bool_decide (_ ∈ _)); [discriminate Hcommit|]. injection Hcommit as <-.
  injection H as <- <- <- <- <-.
  rewrite contents_called in Hs4, Hs6, Hs8, Hs10, Hs12.
  rewrite Hs4 in Hs6. rewrite Hs6 in Hs8. rewrite Hs8 in Hs10. rewrite Hs10 in Hs12.
  rewrite !contents_called, Hscript in Hs12.
  injection Hs12 as Hsv12 Hp12 Ha12 Hf12.
  assert (Hp1 : production (world s1) = production (world s))
    by (injection Hscript; auto).
  unfold mirror, mirrored. cbn. rewrite Hp1.
  unfold SQL.select_users. rewrite !length_map. auto 10.
Qed.

(** X1: when [sync_production_data] reports success, the committed mirror
    is the copy of the live source as the sync found it, with every amount
    (the price and the rating of a product, the total of an order and of an
    order line) rounded to the two decimals that the DECIMAL columns of the
    mirror keep: every user with the password "synced", the role "customer"
    and no sort option, every order without its payment session; the four
    counts it reports are the sizes of the four live tables; and the live
    source, the instance and the model files are what they were. *)
Theorem X1_sync_copies_live_source s users products orders items s' :
  MLRecommendationService.sync_production_data s
    = (inr (SyncSuccess users products orders items), s') ->
  mirror s' = mirrored (production (world s))
  /\ production (world s') = production (world s)
  /\ self s' = self s
  /\ files (world s') = files (world s)
  /\ users = length (t_users (production (world s)))
  /\ products = length (t_products (production (world s)))
  /\ orders = length (t_orders (production (world s)))
  /\ items = length (t_orderitem (production (world s))).
Proof. apply sync_copies_live_source. Qed.

(** A price of 9.999 arrives as 10.00, a total of 2.375 as 2.38. *)
Lemma X1_sync_copies_live_source_witness :
  let s := Sample.state Sample.untrained Sample.fractions Sample.old_mirror
             Sample.no_files [] in
  fst (MLRecommendationService.sync_production_data s) = inr (SyncSuccess 1 1 1 1)
  /\ mirror (snd (MLRecommendationService.sync_production_data s))
     = mirrored Sample.fractions
  /\ map p_price (t_products (mirrored Sample.fractions)) = [Some (1000 # 100)%Q]
  /\ map oi_total_amount (t_orderitem (mirrored Sample.fractions)) = [(238 # 100)%Q].
Proof.
  intros s. split; [vm_compute; reflexivity|].
  split; [|split; vm_compute; reflexivity].
  apply (X1_sync_copies_live_source s 1 1 1 1
           (snd (MLRecommendationService.sync_production_data s))).
  vm_compute. reflexivity.
Defined.

(* ===================================================================== *)
(** ** When the sync succeeds *)
(* ===================================================================== *)

Lemma hoare_pure {A} (phi : Prop) (P : State -> Prop) (m : M A) Q E :
  (phi -> hoare P m Q E) -> hoare (fun s => phi /\ P s) m Q E.
Proof. intros H s [Hphi Hs]. apply H; assumption. Qed.

Lemma primary_key_free_true {A} (id : A -> Z) k rows :
  k ∉ map id rows -> SQL.primary_key_free id k rows = true.
Proof.
  intros Hk. unfold SQL.primary_key_free. apply negb_true_iff.
  apply not_true_iff_false. intros Hex. apply Hk.
  apply existsb_exists in Hex as (r & Hr & Heq). apply Z.eqb_eq in Heq. subst k.
  apply list_elem_of_fmap_2. apply list_elem_of_In, Hr.
Qed.

Section Reachable.
Variable live : Tables.

Lemma reachable_called ev s : reachable live s -> reachable live (called ev s).
Proof. intros [Hf Hp]. split; assumption. Qed.

Lemma no_fault s : reachable live s ->
  bool_decide (clock (world s) ∈ faults (world s)) = false.
Proof.
  intros [Hf _]. rewrite Hf. apply bool_decide_eq_false_2, not_elem_of_nil.
Qed.

Lemma ok_get_connection st :
  hoare (reachable live) (DatabaseManager.get_connection st)
    (fun c s => (c_store c = st /\ (st = Production -> c_view c = live))
                /\ reachable live s)
    (fun _ _ => False).
Proof.
  intros s Hs. rewrite run_get_connection, (no_fault s Hs).
  split; [|apply reachable_called, Hs].
  split; [reflexivity|]. intros ->. apply Hs.
Qed.

Lemma ok_execute_read {A} conn q (rows : Tables -> A) :
  hoare (reachable live) (DatabaseManager.execute_read conn q rows)
    (fun r s => r = rows (c_view conn) /\ reachable live s)
    (fun _ _ => False).
Proof.
  intros s Hs. rewrite run_execute_read, (no_fault s Hs).
  split; [reflexivity | apply reachable_called, Hs].
Qed.

Lemma ok_execute_write conn q change db :
  change (c_view conn) = Some db ->
  hoare (reachable live) (DatabaseManager.execute_write conn q change)
    (fun c s => c = mkConnection (c_store conn) db /\ reachable live s)
    (fun _ _ => False).
Proof.
  intros Hc s Hs. rewrite run_execute_write, (no_fault s Hs), Hc.
  split; [reflexivity | apply reachable_called, Hs].
Qed.

Lemma ok_commit_analytics conn :
  c_store conn = Analytics ->
  hoare (reachable live) (DatabaseManager.commit conn)
    (fun _ s => reachable live s) (fun _ _ => False).
Proof.
  intros Hst s Hs. rewrite run_commit, (no_fault s Hs), Hst. exact Hs.
Qed.

Lemma ok_execute_script_analytics :
  hoare (reachable live) (DatabaseManager.execute_script Analytics)
    (fun _ s => reachable live s) (fun _ _ => False).
Proof.
  unfold DatabaseManager.execute_script.
  eapply hoare_bind; [apply ok_get_connection|]. intros c.
  apply hoare_pure. intros [Hst _].
  apply hoare_try_finally; [|reflexivity].
  eapply hoare_bind; [|intros ?; apply ok_commit_analytics, Hst].
  intros s Hs. rewrite run_external_call, (no_fault s Hs).
  apply reachable_called, Hs.
Qed.

Lemma ok_clear_tables c :
  hoare (reachable live)
    (for_each [Users; Products; Orders; OrderItem]
       (fun c t => DatabaseManager.execute_write c (DeleteFrom t)
                     (fun db => Some (clear_table t db))) c)
    (fun c' s => c' = mkConnection (c_store c) (mkTables [] [] [] [])
                 /\ reachable live s)
    (fun _ _ => False).
Proof.
  cbn [for_each].
  do 4 (eapply hoare_bind; [apply ok_execute_write; reflexivity|];
        intros ?; apply hoare_pure; intros ->).
  apply hoare_ret. intros s Hs. split; [reflexivity | exact Hs].
Qed.

Lemma ok_insert_users users c :
  NoDup (map u_id (t_users (c_view c)) ++ map (fun u => fst (fst u)) users) ->
  hoare (reachable live) (for_each users MLRecommendationService.insert_user c)
    (fun _ s => reachable live s) (fun _ _ => False).
Proof.
  revert c. induction users as [|[[id name] email] users IH]; intros [st db] Hnd.
  - apply hoare_ret. auto.
  - change (for_each (?x :: ?l) ?body ?acc)
      with (body acc x ≫= fun acc' => for_each l body acc').
    cbn in Hnd. unfold MLRecommendationService.insert_user.
    eapply hoare_bind.
    + apply ok_execute_write. cbn. rewrite primary_key_free_true; [reflexivity|].
      apply NoDup_app in Hnd as (_ & Hnd & _). intros Hin.
      apply (Hnd _ Hin). left.
    + intros ?. apply hoare_pure. intros ->. apply IH. cbn.
      rewrite map_app, <- app_assoc. exact Hnd.
Qed.

Lemma ok_insert_products products c :
  NoDup (map p_id (t_products (c_view c)) ++ map p_id products) ->
  hoare (reachable live) (for_each products MLRecommendationService.insert_product c)
    (fun _ s => reachable live s) (fun _ _ => False).
Proof.
  revert c. induction products as [|p products IH]; intros [st db] Hnd.
  - apply hoare_ret. auto.
  - change (for_each (?x :: ?l) ?body ?acc)
      with (body acc x ≫= fun acc' => for_each l body acc').
    cbn in Hnd. unfold MLRecommendationService.insert_product.
    eapply hoare_bind.
    + apply ok_execute_write. cbn. rewrite primary_key_free_true; [reflexivity|].
      apply NoDup_app in Hnd as (_ & Hnd & _). intros Hin.
      apply (Hnd _ Hin). left.
    + intros ?. apply hoare_pure. intros ->. apply IH. cbn.
      rewrite map_app, <- app_assoc. exact Hnd.
Qed.

Lemma ok_insert_orders orders c :
  NoDup (map o_id (t_orders (c_view c)) ++ map o_id orders) ->
  hoare (reachable live) (for_each orders MLRecommendationService.insert_order c)
    (fun _ s => reachable live s) (fun _ _ => False).
Proof.
  revert c. induction orders as [|o orders IH]; intros [st db] Hnd.
  - apply hoare_ret. auto.
  - change (for_each (?x :: ?l) ?body ?acc)
      with (body acc x ≫= fun acc' => for_each l body acc').
    cbn in Hnd. unfold MLRecommendationService.insert_order.
    eapply hoare_bind.
    + apply ok_execute_write. cbn. rewrite primary_key_free_true; [reflexivity|].
      apply NoDup_app in Hnd as (_ & Hnd & _). intros Hin.
      apply (Hnd _ Hin). left.
    + intros ?. apply hoare_pure. intros ->. apply IH. cbn.
      rewrite map_app, <- app_assoc. exact Hnd.
Qed.

Lemma ok_insert_order_items items c :
  NoDup (map oi_id (t_orderitem (c_view c)) ++ map oi_id items) ->
  hoare (reachable live) (for_each items MLRecommendationService.insert_order_item c)
    (fun _ s => reachable live s) (fun _ _ => False).
Proof.
  revert c. induction items as [|i items IH]; intros [st db] Hnd.
  - apply hoare_ret. auto.
  - change (for_each (?x :: ?l) ?body ?acc)
      with (body acc x ≫= fun acc' => for_each l body acc').
    cbn in Hnd. unfold MLRecommendationService.insert_order_item.
    eapply hoare_bind.
    + apply ok_execute_write. cbn. rewrite primary_key_free_true; [reflexivity|].
      apply NoDup_app in Hnd as (_ & Hnd & _). intros Hin.
      apply (Hnd _ Hin). left.
    + intros ?. apply hoare_pure. intros ->. apply IH. cbn.
      rewrite map_app, <- app_assoc. exact Hnd.
Qed.

End Reachable.

Lemma hoare_value {A} (m : M A) (V : A -> Prop) P Q E :
  (forall s a s', m s = (inr a, s') -> V a) ->
  hoare P m Q E ->
  hoare P m (fun a s => V a /\ Q a s) E.
Proof.
  intros HV Hm s Hs. specialize (Hm s Hs). specialize (HV s).
  destruct (m s) as [[e|a] s']; [exact Hm|]. split; [eapply HV; reflexivity | exact Hm].
Qed.

Lemma sync_production_data_succeeds live :
  primary_keys_unique live ->
  hoare (reachable live) MLRecommendationService.sync_production_data
    (fun r _ => r = SyncSuccess (length (t_users live)) (length (t_products live))
                     (length (t_orders live)) (length (t_orderitem live)))
    (fun _ _ => False).
Proof.
  intros (Hu & Hp & Ho & Hi).
  unfold MLRecommendationService.sync_production_data.
  eapply hoare_try_except with (E' := fun _ _ => False); [|intros e s []].
  eapply hoare_bind; [apply ok_execute_script_analytics|]. intros ?.
  eapply hoare_bind; [apply ok_get_connection|]. intros prod_conn.
  apply hoare_pure. intros [_ Hlive]. specialize (Hlive eq_refl).
  eapply hoare_bind; [apply ok_get_connection|]. intros analytics_conn.
  apply hoare_pure. intros [Hst _].
  apply hoare_try_finally; [|reflexivity].
  eapply hoare_bind; [apply ok_clear_tables|]. intros c.
  apply hoare_pure. intros ->. rewrite Hst.
  eapply hoare_bind; [apply ok_execute_read|]. intros users.
  apply hoare_pure. intros ->. rewrite Hlive.
  eapply hoare_bind.
  { apply hoare_value; [intros ? ? ? Hrun; exact (proj1 (run_insert_users _ _ _ _ _ Hrun))|].
    apply ok_insert_users. cbn. unfold SQL.select_users.
    rewrite map_map. cbn. exact Hu. }
  intros c. apply hoare_pure. intros ->. cbn [c_store c_view t_users t_products t_orders t_orderitem].
  eapply hoare_bind; [apply ok_execute_read|]. intros products.
  apply hoare_pure. intros ->. rewrite Hlive.
  eapply hoare_bind.
  { apply hoare_value; [intros ? ? ? Hrun; exact (proj1 (run_insert_products _ _ _ _ _ Hrun))|].
    apply ok_insert_products. cbn. exact Hp. }
  intros c. apply hoare_pure. intros ->. cbn [c_store c_view t_users t_products t_orders t_orderitem].
  eapply hoare_bind; [apply ok_execute_read|]. intros orders.
  apply hoare_pure. intros ->. rewrite Hlive.
  eapply hoare_bind.
  { apply hoare_value; [intros ? ? ? Hrun; exact (proj1 (run_insert_orders _ _ _ _ _ Hrun))|].
    apply ok_insert_orders. cbn. exact Ho. }
  intros c. apply hoare_pure. intros ->. cbn [c_store c_view t_users t_products t_orders t_orderitem].
  eapply hoare_bind; [apply ok_execute_read|]. intros items.
  apply hoare_pure. intros ->. rewrite Hlive.
  eapply hoare_bind.
  { apply hoare_value; [intros ? ? ? Hrun; exact (proj1 (run_insert_order_items _ _ _ _ _ Hrun))|].
    apply ok_insert_order_items. cbn. exact Hi. }
  intros c. apply hoare_pure. intros ->.
  eapply hoare_bind; [apply ok_commit_analytics; reflexivity|]. intros ?.
  apply hoare_ret. intros s _. unfold SQL.select_users. rewrite length_map. reflexivity.
Qed.

(** X2: when no external call fails and the primary keys of the four live
    tables are unique, [sync_production_data] reports success with the
    sizes of the four live tables, whatever the mirror held before. *)
Theorem X2_sync_succeeds s :
  faults (world s) = [] ->
  primary_keys_unique (production (world s)) ->
  fst (MLRecommendationService.sync_production_data s)
  = inr (SyncSuccess (length (t_users (production (world s))))
                     (length (t_products (production (world s))))
                     (length (t_orders (production (world s))))
                     (length (t_orderitem (production (world s))))).
Proof.
  intros Hf Hk.
  pose proof (sync_production_data_succeeds _ Hk s (conj Hf eq_refl)) as H.
  destruct (MLRecommendationService.sync_production_data s) as [[e|r] s'];
    [contradiction | cbn; congruence].
Qed.

Lemma X2_sync_succeeds_witness :
  let s := Sample.state Sample.untrained Sample.shop Sample.old_mirror
             Sample.no_files [] in
  fst (MLRecommendationService.sync_production_data s) = inr (SyncSuccess 1 3 3 6).
Proof.
  intros s. apply (X2_sync_succeeds s); [reflexivity|].
  unfold primary_keys_unique.
  repeat split; refine (bool_decide_unpack _ _); vm_compute; exact I.
Defined.

(* ===================================================================== *)
(** ** The model files *)
(* ===================================================================== *)

Lemma run_write_file {A} name (put : pickle A -> ModelFiles -> ModelFiles) obj s :
  MLRecommendationService.write_file name put obj s
  = if bool_decide (clock (world s) ∈ faults (world s))
    then (inl OSError, called (FileOpen name) s)
    else if bool_decide (S (clock (world s)) ∈ faults (world s))
    then (inl OSError,
          mkState (self s)
            (mkWorld (production (world s)) (analytics (world s))
               (put Truncated (files (world s))) (faults (world s))
               (2 + clock (world s))
               ([FileWrite name; FileOpen name] ++ trace (world s))))
    else (inr tt,
          mkState (self s)
            (mkWorld (production (world s)) (analytics (world s))
               (put (Pickled obj) (put Truncated (files (world s))))
               (faults (world s)) (2 + clock (world s))
               ([FileWrite name; FileOpen name] ++ trace (world s)))).
Proof.
  unfold MLRecommendationService.write_file, mbind, M_bind.
  rewrite run_external_call. destruct (bool_decide _); [reflexivity|].
  cbn [modify_world]. rewrite run_external_call. cbn.
  destruct (bool_decide _); reflexivity.
Qed.

Lemma run_read_file {A} name (content : ModelFiles -> option (pickle A)) s :
  MLRecommendationService.read_file name content s
  = (if bool_decide (clock (world s) ∈ faults (world s))
     then inl OSError
     else match content (files (world s)) with
          | Some (Pickled v) => inr v
          | Some Truncated => inl EOFError
          | None => inl OSError
          end,
     called (FileRead name) s).
Proof.
  unfold MLRecommendationService.read_file, mbind, M_bind.
  rewrite run_external_call. destruct (bool_decide _); [reflexivity|].
  unfold get_state. cbn. destruct (content _) as [[|v]|]; reflexivity.
Qed.

Lemma run_save_models s :
  next_calls_succeed 6 s ->
  MLRecommendationService._save_models s
  = (inr tt,
     mkState (self s)
       (mkWorld (production (world s)) (analytics (world s)) (saved (self s))
          (faults (world s)) (6 + clock (world s))
          ([FileWrite "product_features.pkl"; FileOpen "product_features.pkl";
            FileWrite "copurchase_matrix.pkl"; FileOpen "copurchase_matrix.pkl";
            FileWrite "similarity_matrix.pkl"; FileOpen "similarity_matrix.pkl"]
             ++ trace (world s)))).
Proof.
  intros Hok.
  pose proof (Hok 0%nat ltac:(lia)) as H0.
  pose proof (Hok 1%nat ltac:(lia)) as H1.
  pose proof (Hok 2%nat ltac:(lia)) as H2.
  pose proof (Hok 3%nat ltac:(lia)) as H3.
  pose proof (Hok 4%nat ltac:(lia)) as H4.
  pose proof (Hok 5%nat ltac:(lia)) as H5. cbn in H0, H1, H2, H3, H4, H5.
  unfold MLRecommendationService._save_models, try_except, mbind, M_bind, get_state.
  rewrite run_write_file, bool_decide_eq_false_2 by exact H0.
  rewrite bool_decide_eq_false_2 by exact H1.
  rewrite run_write_file. cbn. rewrite bool_decide_eq_false_2 by exact H2.
  rewrite bool_decide_eq_false_2 by exact H3.
  rewrite run_write_file. cbn. rewrite bool_decide_eq_false_2 by exact H4.
  rewrite bool_decide_eq_false_2 by exact H5.
  reflexivity.
Qed.

Lemma run_init_all_files s sm cm pf :
  files (world s) = mkFiles (Some (Pickled sm)) (Some (Pickled cm)) (Some (Pickled pf)) ->
  next_calls_succeed 4 s ->
  MLRecommendationService.__init__ s
  = (inr tt,
     mkState (mkService sm cm pf true)
       (mkWorld (production (world s)) (analytics (world s)) (files (world s))
          (faults (world s)) (4 + clock (world s))
          ([FileRead "product_features.pkl"; FileRead "copurchase_matrix.pkl";
            FileRead "similarity_matrix.pkl"; MakeDirs] ++ trace (world s)))).
Proof.
  intros Hfiles Hok.
  pose proof (Hok 0%nat ltac:(lia)) as H0.
  pose proof (Hok 1%nat ltac:(lia)) as H1.
  pose proof (Hok 2%nat ltac:(lia)) as H2.
  pose proof (Hok 3%nat ltac:(lia)) as H3.
  destruct s as [sv [p a fl ft c tr]]. cbn in Hfiles, H0, H1, H2, H3. subst fl.
  unfold MLRecommendationService.__init__, MLRecommendationService._load_models,
    try_except, mbind, M_bind, get_state, modify_self,
    MLRecommendationService.set_similarity_matrix,
    MLRecommendationService.set_copurchase_matrix,
    MLRecommendationService.set_product_features,
    MLRecommendationService.set_models_trained, modify_self.
  rewrite run_external_call. cbn. rewrite bool_decide_eq_false_2 by exact H0.
  rewrite run_read_file. cbn. rewrite bool_decide_eq_false_2 by exact H1.
  rewrite run_read_file. cbn. rewrite bool_decide_eq_false_2 by exact H2.
  rewrite run_read_file. cbn. rewrite bool_decide_eq_false_2 by exact H3.
  reflexivity.
Qed.

(** X3: what [_save_models] writes is what [_load_models] reads back: when
    the writes (the opening and the dump of each of the three files), the
    check of the model directory and the three reads succeed, an instance
    built after the save is built without an error, holds the similarity
    graph, the co-purchase graph and the feature table of the instance that
    saved, and counts as trained. *)
Theorem X3_saved_models_load_back s :
  next_calls_succeed 10 s ->
  fst (MLRecommendationService.__init__
         (snd (MLRecommendationService._save_models s))) = inr tt
  /\ self (snd (MLRecommendationService.__init__
                  (snd (MLRecommendationService._save_models s))))
     = mkService (similarity_matrix (self s)) (copurchase_matrix (self s))
                 (product_features (self s)) true.
Proof.
  intros Hok. rewrite run_save_models by (intros i Hi; apply Hok; lia).
  cbn [snd]. erewrite run_init_all_files; [split; reflexivity | reflexivity |].
  intros i Hi. cbn. replace (i + S (S (S (S (S (S (clock (world s))))))))%nat
    with ((6 + i) + clock (world s))%nat by lia.
  apply Hok. lia.
Qed.

Lemma X3_saved_models_load_back_witness :
  let s := Sample.state (mkService (Some Sample.old_similarity) None Sample.old_features false)
             Sample.shop Sample.old_mirror Sample.no_files [10%nat] in
  fst (MLRecommendationService.__init__
         (snd (MLRecommendationService._save_models s))) = inr tt
  /\ self (snd (MLRecommendationService.__init__
                  (snd (MLRecommendationService._save_models s))))
     = mkService (Some Sample.old_similarity) None Sample.old_features true.
Proof.
  intros s. apply (X3_saved_models_load_back s).
  intros i Hi. cbn. rewrite list_elem_of_singleton. lia.
Defined.

Ltac run_init :=
  unfold MLRecommendationService.__init__, MLRecommendationService._load_models,
    try_except, mbind, M_bind, get_state, modify_self,
    MLRecommendationService.set_similarity_matrix,
    MLRecommendationService.set_copurchase_matrix,
    MLRecommendationService.set_product_features,
    MLRecommendationService.set_models_trained, modify_self;
  rewrite run_external_call; cbn;
  destruct (bool_decide (_ ∈ _)); cbn;
  repeat (rewrite run_read_file; cbn;
          destruct (bool_decide (_ ∈ _)); cbn).

(** X27: building an instance fails exactly when [os.makedirs], which runs
    outside any [try], fails, and then with its [OSError]; what the model
    files hold (nothing, a truncated file, a pickle) and whether their reads
    fail never makes it fail; and it changes neither the model files nor
    the stores. *)
Theorem X27_construction_fails_only_on_makedirs s :
  fst (MLRecommendationService.__init__ s)
  = (if bool_decide (clock (world s) ∈ faults (world s))
     then inl OSError else inr tt)
  /\ files (world (snd (MLRecommendationService.__init__ s))) = files (world s)
  /\ production (world (snd (MLRecommendationService.__init__ s)))
     = production (world s)
  /\ analytics (world (snd (MLRecommendationService.__init__ s)))
     = analytics (world s).
Proof.
  destruct s as [sv [p a [[[|f1]|] [[|f2]|] [[|f3]|]] ft c tr]]; run_init; auto.
Qed.

(** X4: an instance that comes out of [__init__] trained has found all
    three model files and holds exactly their contents. *)
Theorem X4_trained_instance_holds_the_files s :
  models_trained (self (snd (MLRecommendationService.__init__ s))) = true ->
  exists sm cm pf,
    files (world s)
    = mkFiles (Some (Pickled sm)) (Some (Pickled cm)) (Some (Pickled pf))
    /\ self (snd (MLRecommendationService.__init__ s)) = mkService sm cm pf true.
Proof.
  destruct s as [sv [p a [[[|f1]|] [[|f2]|] [[|f3]|]] ft c tr]]; run_init;
    try discriminate; eauto.
Qed.

Lemma X4_trained_instance_holds_the_files_witness :
  let s := Sample.state Sample.untrained Sample.shop Sample.old_mirror
             Sample.old_files [] in
  exists sm cm pf,
    files (world s)
    = mkFiles (Some (Pickled sm)) (Some (Pickled cm)) (Some (Pickled pf))
    /\ self (snd (MLRecommendationService.__init__ s)) = mkService sm cm pf true.
Proof.
  intros s. apply (X4_trained_instance_holds_the_files s). vm_compute. reflexivity.
Defined.

(** X5: when any of the three model files is missing, [__init__] reads
    none of them: after the check of the model directory, its one external
    call, the instance is empty and untrained, and nothing else of the state
    has moved; the construction fails only if that check does. *)
Theorem X5_missing_file_loads_nothing s :
  ~ (is_Some (similarity_matrix_pkl (files (world s)))
     /\ is_Some (copurchase_matrix_pkl (files (world s)))
     /\ is_Some (product_features_pkl (files (world s)))) ->
  MLRecommendationService.__init__ s
  = (if bool_decide (clock (world s) ∈ faults (world s))
     then inl OSError else inr tt,
     called MakeDirs (mkState (mkService None None ∅ false) (world s))).
Proof.
  intros Hmissing.
  destruct s as [sv [p a [[f1|] [f2|] [f3|]] ft c tr]]; cbn in Hmissing;
    try (unfold MLRecommendationService.__init__, mbind, M_bind, modify_self;
         rewrite run_external_call; cbn;
         destruct (bool_decide (_ ∈ _)); reflexivity).
  exfalso. apply Hmissing. eauto.
Qed.

Lemma X5_missing_file_loads_nothing_witness :
  let s := Sample.state Sample.trained Sample.shop Sample.old_mirror
             (mkFiles (Some (Pickled (Some Sample.old_similarity))) None
                      (Some (Pickled Sample.old_features)))
             [] in
  MLRecommendationService.__init__ s
  = (inr tt, called MakeDirs (mkState (mkService None None ∅ false) (world s))).
Proof.
  intros s. apply (X5_missing_file_loads_nothing s).
  intros (_ & [x Hx] & _). discriminate Hx.
Defined.

(* ===================================================================== *)
(** ** Serving never fails *)
(* ===================================================================== *)

Lemma timeless_contents : timeless contents.
Proof. intros sv w n tr. reflexivity. Qed.

Ltac serving_keeps :=
  repeat first [ apply keeps_execute_read; apply timeless_contents
               | apply keeps_execute_checked; apply timeless_contents
               | apply keeps_get_connection; apply timeless_contents
               | apply keeps_close; apply timeless_contents
               | apply keeps_make_recommendation
               | keeps_step ].

Lemma keeps_fallback_similar_products product_id limit :
  keeps contents
    (MLRecommendationService._get_fallback_similar_products product_id limit).
Proof.
  unfold MLRecommendationService._get_fallback_similar_products. serving_keeps.
Qed.

Lemma keeps_fallback_copurchase_recommendations product_id limit :
  keeps contents
    (MLRecommendationService._get_fallback_copurchase_recommendations product_id limit).
Proof.
  unfold MLRecommendationService._get_fallback_copurchase_recommendations.
  serving_keeps.
Qed.

Lemma keeps_get_similar_products product_id limit :
  keeps contents (MLRecommendationService.get_similar_products product_id limit).
Proof.
  unfold MLRecommendationService.get_similar_products.
  repeat first [ apply keeps_fallback_similar_products
               | apply keeps_make_recommendation
               | keeps_step ].
Qed.

Lemma keeps_get_copurchase_recommendations product_id limit :
  keeps contents
    (MLRecommendationService.get_copurchase_recommendations product_id limit).
Proof.
  unfold MLRecommendationService.get_copurchase_recommendations.
  repeat first [ apply keeps_fallback_copurchase_recommendations
               | apply keeps_make_recommendation
               | keeps_step ].
Qed.

(** A computation that ends without an exception, whatever the state. *)
Lemma returns_try_except {A} (m : M A) h :
  (forall e s, exists a, fst (h e s) = inr a) ->
  forall s, exists a, fst (try_except m h s) = inr a.
Proof.
  intros Hh s. unfold try_except. destruct (m s) as [[e|a] s']; [apply Hh | eauto].
Qed.

Lemma fallback_similar_products_returns product_id limit s :
  exists recs,
    fst (MLRecommendationService._get_fallback_similar_products product_id limit s)
    = inr recs.
Proof. apply returns_try_except. intros e s0. eexists. reflexivity. Qed.

Lemma fallback_copurchase_recommendations_returns product_id limit s :
  exists recs,
    fst (MLRecommendationService._get_fallback_copurchase_recommendations
           product_id limit s)
    = inr recs.
Proof. apply returns_try_except. intros e s0. eexists. reflexivity. Qed.

(** X7: [get_similar_products] and [get_copurchase_recommendations] always
    return a list, whatever the product, the limit, the instance and the
    failures of the data store; and they leave the instance, both stores
    and the model files as they found them. *)
Theorem X7_serving_never_fails product_id limit s :
  (exists recs,
     fst (MLRecommendationService.get_similar_products product_id limit s) = inr recs)
  /\ (exists recs,
        fst (MLRecommendationService.get_copurchase_recommendations product_id limit s)
        = inr recs)
  /\ contents (snd (MLRecommendationService.get_similar_products product_id limit s))
     = contents s
  /\ contents (snd (MLRecommendationService.get_copurchase_recommendations
                      product_id limit s))
     = contents s.
Proof.
  split; [|split; [|split]].
  - unfold MLRecommendationService.get_similar_products, mbind, M_bind, get_state.
    destruct (negb _); [apply fallback_similar_products_returns|].
    apply returns_try_except. intros e s0. apply fallback_similar_products_returns.
  - unfold MLRecommendationService.get_copurchase_recommendations,
      mbind, M_bind, get_state.
    destruct (negb _); [apply fallback_copurchase_recommendations_returns|].
    apply returns_try_except. intros e s0.
    apply fallback_copurchase_recommendations_returns.
  - apply keeps_get_similar_products.
  - apply keeps_get_copurchase_recommendations.
Qed.

(* ===================================================================== *)
(** ** The category fallback *)
(* ===================================================================== *)

Lemma run_make_recommendation p score why s r s' :
  MLRecommendationService.make_recommendation (p_id p) p score why s = (inr r, s') ->
  shows score why p r.
Proof.
  unfold MLRecommendationService.make_recommendation, shows.
  destruct (p_price p) as [price|]; [|discriminate].
  intros [= <- _]. split; reflexivity.
Qed.

Lemma for_each_Forall2 {A B} (R : A -> B -> Prop) (l : list A)
    (body : list B -> A -> M (list B)) acc s recs s' :
  (forall acc x s r s', body acc x s = (inr r, s') ->
     exists y, r = acc ++ [y] /\ R x y) ->
  for_each l body acc s = (inr recs, s') ->
  exists new, recs = acc ++ new /\ Forall2 R l new.
Proof.
  intros Hbody. revert acc s. induction l as [|x l IH]; intros acc s.
  - intros [= <- _]. exists []. rewrite app_nil_r. split; [reflexivity | constructor].
  - intros H. apply bind_inr_inv in H as (acc1 & s1 & Hx & H).
    apply Hbody in Hx as (y & -> & Hy).
    apply IH in H as (new & -> & Hnew).
    exists (y :: new). rewrite <- app_assoc. split; [reflexivity|].
    constructor; assumption.
Qed.

Lemma limit_Some {A} n (rows out : list A) :
  SQL.limit n rows = Some out ->
  out ⊆ rows /\ (length out <= Z.to_nat n)%nat /\ out `sublist_of` rows.
Proof.
  unfold SQL.limit. destruct (n <? 0); [discriminate|]. intros [= <-].
  split; [|split].
  - intros x Hx. apply elem_of_take in Hx as (i & Hi & _).
    eapply list_elem_of_lookup_2, Hi.
  - rewrite length_take. lia.
  - apply sublist_take.
Qed.

Lemma eq_param_true a b : SQL.eq_param a b = true -> is_Some a /\ is_Some b.
Proof. destruct a as [x|], b as [y|]; cbn; try discriminate. eauto. Qed.

(** The answer of the category fallback and the rows it was built from. *)
Lemma run_fallback_similar_products product_id limit s recs s' :
  MLRecommendationService._get_fallback_similar_products product_id limit s
    = (inr recs, s') ->
  recs = []
  \/ (forall i, (i < 3)%nat -> (i + clock (world s))%nat ∉ faults (world s))
     /\ exists original results,
       SQL.select_product_by_id product_id (production (world s)) = Some original
       /\ SQL.select_same_category (p_category original) product_id limit
            (production (world s)) = Some results
       /\ Forall2 (shows (6 # 10) (SameCategoryAs (p_name original))) results recs.
Proof.
  unfold MLRecommendationService._get_fallback_similar_products. intros H.
  apply try_except_inr_inv in H as [H | (e & s1 & _ & H)];
    [|injection H as <- _; left; reflexivity].
  apply bind_inr_inv in H as (conn & s1 & Hc & H).
  rewrite run_get_connection in Hc.
  case_bool_decide as H0; [discriminate Hc|]. injection Hc as <- <-.
  apply bind_inr_inv in H as (original & s2 & Hr & H).
  rewrite run_execute_read in Hr.
  case_bool_decide as H1; [discriminate Hr|]. injection Hr as <- <-.
  cbn [c_view committed] in H.
  destruct (SQL.select_product_by_id _ _) as [original|] eqn:Ho;
    [|injection H as <- _; left; reflexivity].
  apply bind_inr_inv in H as (results & s3 & Hr & H).
  rewrite run_execute_checked in Hr.
  case_bool_decide as H2; [discriminate Hr|]. cbn [c_view] in Hr.
  destruct (SQL.select_same_category _ _ _ _) as [rows|] eqn:Hrows; [|discriminate Hr].
  injection Hr as <- <-.
  apply bind_inr_inv in H as ([] & s4 & _ & H).
  apply (for_each_Forall2 (shows (6 # 10) (SameCategoryAs (p_name original)))) in H
    as (new & -> & Hnew).
  - right. split; [|exists original, rows; auto].
    cbn in H1, H2. intros [|[|[|i]]] Hi; cbn; solve [assumption | lia].
  - intros acc x s0 r s0' Hb.
    apply bind_inr_inv in Hb as (y & s5 & Hy & Hb). injection Hb as <- _.
    exists y. split; [reflexivity|]. eapply run_make_recommendation, Hy.
Qed.

(** X8: every recommendation of [_get_fallback_similar_products] shows a
    product of the live catalog that is in stock, is not the requested
    product and has, as the collation of the column compares them, the
    category of the requested product (neither is NULL), with the score 0.6
    and the name of the requested product as the reason; there are at most
    [limit] of them.  The answer is empty when the requested product is
    unknown and when anything fails: the connection or one of the two
    queries, a negative limit that the server rejects, or a row without a
    price that the response model rejects. *)
Theorem X8_category_fallback_answer product_id limit s recs s' :
  MLRecommendationService._get_fallback_similar_products product_id limit s
    = (inr recs, s') ->
  (length recs <= Z.to_nat limit)%nat
  /\ (forall r, r ∈ recs ->
       exists original p,
         SQL.select_product_by_id product_id (production (world s)) = Some original
         /\ p ∈ t_products (production (world s))
         /\ shows (6 # 10) (SameCategoryAs (p_name original)) p r
         /\ r_product_id r <> product_id
         /\ SQL.eq_param (r_category r) (p_category original) = true
         /\ is_Some (r_category r)
         /\ SQL.in_stock p = true)
  /\ (SQL.select_product_by_id product_id (production (world s)) = None -> recs = [])
  /\ ((exists i, (i < 3)%nat /\ (i + clock (world s))%nat ∈ faults (world s)) ->
      recs = [])
  /\ (limit < 0 -> recs = [])
  /\ (forall original results p,
        SQL.select_product_by_id product_id (production (world s)) = Some original ->
        SQL.select_same_category (p_category original) product_id limit
          (production (world s)) = Some results ->
        p ∈ results -> p_price p = None -> recs = []).
Proof.
  intros H. apply run_fallback_similar_products in H
    as [-> | (Hok & original & results & Ho & Hres & Hrecs)].
  { split; [cbn; lia|]. split; [intros r Hr; inversion Hr|]. auto 6. }
  pose proof Hres as Hquery.
  unfold SQL.select_same_category in Hres.
  apply limit_Some in Hres as (Hsub & Hlen & _).
  split; [rewrite <- (Forall2_length _ _ _ Hrecs); exact Hlen|].
  split; [|split; [|split; [|split]]].
  - intros r Hr.
    destruct (proj1 (list_elem_of_lookup _ _) Hr) as [i Hi].
    destruct (Forall2_lookup_r _ _ _ _ _ Hrecs Hi) as (p & Hp & Hshow).
    apply list_elem_of_lookup_2, Hsub, elem_of_sorted, list_elem_of_filter in Hp
      as [(Hcat & Hid & Hstock) Hp].
    apply Is_true_true_1 in Hcat.
    exists original, p. destruct Hshow as [Hprice ->]. cbn.
    repeat split; auto.
    + apply (eq_param_true _ _ Hcat).
    + apply Is_true_true_1, Hstock.
  - intros Hnone. congruence.
  - intros (i & Hi & Hfault). destruct (Hok i Hi Hfault).
  - intros Hneg. unfold SQL.select_same_category, SQL.limit in Hquery.
    destruct (Z.ltb_spec limit 0); [discriminate Hquery | lia].
  - intros original' results' p Ho' Hres' Hp Hprice.
    rewrite Ho in Ho'. injection Ho' as <-.
    rewrite Hquery in Hres'. injection Hres' as <-.
    destruct (proj1 (list_elem_of_lookup _ _) Hp) as [i Hi].
    destruct (Forall2_lookup_l _ _ _ _ _ Hrecs Hi) as (r & _ & [Hshow _]).
    congruence.
Qed.

(** Product 4 is a "Phone" where product 1 is a "phone": the collation
    takes them for the same category.  With the lookup of the requested
    product failing, the answer is empty. *)
Lemma X8_category_fallback_answer_witness :
  let s := Sample.state Sample.untrained Sample.mixed_case Sample.shop
             Sample.no_files [] in
  let run := MLRecommendationService._get_fallback_similar_products 1 10 s in
  let failing := Sample.state Sample.untrained Sample.mixed_case Sample.shop
                   Sample.no_files [1%nat] in
  let failed := MLRecommendationService._get_fallback_similar_products 1 10 failing in
  map r_product_id (returned [] (fst run)) = [4; 2]
  /\ map r_category (returned [] (fst run)) = [Some "Phone"; Some "phone"]
  /\ (length (returned [] (fst run)) <= Z.to_nat 10)%nat
  /\ fst failed = inr [].
Proof.
  intros s run failing failed. split; [vm_compute; reflexivity|].
  split; [vm_compute; reflexivity|].
  split.
  - apply (X8_category_fallback_answer 1 10 s (returned [] (fst run)) (snd run)).
    vm_compute. reflexivity.
  - destruct (X8_category_fallback_answer 1 10 failing (returned [] (fst failed))
                (snd failed)) as (_ & _ & _ & Hfail & _); [vm_compute; reflexivity|].
    rewrite <- Hfail.
    + vm_compute. reflexivity.
    + exists 1%nat. split; [lia | left].
Defined.

(* ===================================================================== *)
(** ** The co-occurrence fallback *)
(* ===================================================================== *)

Lemma sorted_StronglySorted {A} (before : A -> A -> bool) (R : relation A) l :
  (forall x y, before y x = true -> R y x) ->
  (forall x y, before y x = false -> R x y) ->
  (forall x y z, R x y -> R y z -> R x z) ->
  StronglySorted R (Py.sorted before l).
Proof.
  intros Ht Hf Htrans. unfold Py.sorted.
  induction l as [|x l IH]; cbn; [constructor|].
  generalize dependent (foldr (Py.insert_stable before) [] l).
  intros s Hs. induction Hs as [|y s Hs IHs Hall]; cbn.
  - constructor; constructor.
  - destruct (before y x) eqn:E.
    + constructor; [exact IHs|].
      apply insert_stable_Forall; [apply Ht, E | exact Hall].
    + constructor; [constructor; assumption|].
      constructor; [apply Hf, E|].
      rewrite Forall_forall in Hall |- *. intros z Hz.
      apply Htrans with y; [apply Hf, E | apply Hall, Hz].
Qed.

Lemma Forall2_StronglySorted {A B} (R : A -> B -> Prop) (SA : relation A)
    (SB : relation B) l k :
  (forall a a' b b', R a b -> R a' b' -> SA a a' -> SB b b') ->
  Forall2 R l k -> StronglySorted SA l -> StronglySorted SB k.
Proof.
  intros Hrel H. induction H as [|a b l k Hab Hlk IH]; intros Hs; [constructor|].
  apply StronglySorted_inv in Hs as [Hs Hall]. constructor; [auto|].
  apply Forall_forall. intros b' Hb'.
  destruct (proj1 (list_elem_of_lookup _ _) Hb') as [i Hi].
  destruct (Forall2_lookup_r _ _ _ _ _ Hlk Hi) as (a' & Ha' & Hr).
  apply (Hrel a a' b b' Hab Hr).
  apply (proj1 (Forall_forall _ _) Hall). eapply list_elem_of_lookup_2, Ha'.
Qed.

(** The answer of the co-occurrence fallback and the rows it was built from. *)
Lemma run_fallback_copurchase_recommendations product_id limit s recs s' :
  MLRecommendationService._get_fallback_copurchase_recommendations product_id limit s
    = (inr recs, s') ->
  recs = []
  \/ exists results,
       SQL.select_bought_with product_id limit (production (world s)) = Some results
       /\ Forall2 (fun x r => shows (7 # 10) (OftenBought (snd x)) (fst x) r)
            results recs.
Proof.
  unfold MLRecommendationService._get_fallback_copurchase_recommendations. intros H.
  apply try_except_inr_inv in H as [H | (e & s1 & _ & H)];
    [|injection H as <- _; left; reflexivity].
  apply bind_inr_inv in H as (conn & s1 & Hc & H).
  rewrite run_get_connection in Hc.
  destruct (bool_decide (_ ∈ _)); [discriminate Hc|]. injection Hc as <- <-.
  apply bind_inr_inv in H as (results & s3 & Hr & H).
  rewrite run_execute_checked in Hr.
  destruct (bool_decide (_ ∈ _)); [discriminate Hr|]. cbn [c_view committed] in Hr.
  destruct (SQL.select_bought_with _ _ _) as [rows|] eqn:Hrows; [|discriminate Hr].
  injection Hr as <- <-.
  apply bind_inr_inv in H as ([] & s4 & _ & H).
  apply (for_each_Forall2
           (fun x r => shows (7 # 10) (OftenBought (snd x)) (fst x) r)) in H
    as (new & -> & Hnew).
  - right. exists rows. auto.
  - intros acc [p n] s0 r s0' Hb.
    apply bind_inr_inv in Hb as (y & s5 & Hy & Hb). injection Hb as <- _.
    exists y. split; [reflexivity|]. eapply run_make_recommendation, Hy.
Qed.

(** X9: every recommendation of [_get_fallback_copurchase_recommendations]
    shows a product of the live catalog that is in stock and is not the
    requested product, with the score 0.7 and, as the reason, the number of
    order-line pairs that put it in one order with the requested product,
    which is positive; the recommendations come by non-increasing count and
    there are at most [limit] of them. *)
Theorem X9_cooccurrence_fallback_answer product_id limit s recs s' :
  MLRecommendationService._get_fallback_copurchase_recommendations product_id limit s
    = (inr recs, s') ->
  (length recs <= Z.to_nat limit)%nat
  /\ StronglySorted (fun r1 r2 => reported_count r2 <= reported_count r1) recs
  /\ forall r, r ∈ recs ->
       exists p,
         p ∈ t_products (production (world s))
         /\ shows (7 # 10)
              (OftenBought (SQL.purchase_count product_id (production (world s)) p))
              p r
         /\ r_product_id r <> product_id
         /\ 0 < reported_count r
         /\ SQL.in_stock p = true.
Proof.
  intros H. apply run_fallback_copurchase_recommendations in H
    as [-> | (results & Hres & Hrecs)].
  { split; [cbn; lia|]. split; [constructor|]. intros r Hr. inversion Hr. }
  unfold SQL.select_bought_with in Hres.
  apply limit_Some in Hres as (Hsub & Hlen & Hsl).
  split; [rewrite <- (Forall2_length _ _ _ Hrecs); exact Hlen|]. split.
  - eapply Forall2_StronglySorted with (SA := fun a b => snd b <= snd a);
      [|exact Hrecs|].
    + intros a a' b b' [_ ->] [_ ->] Hle. exact Hle.
    + eapply sublist_StronglySorted; [exact Hsl|].
      apply sorted_StronglySorted.
      * intros x y E. apply Z.ltb_lt in E. lia.
      * intros x y E. apply Z.ltb_ge in E. exact E.
      * intros x y z ? ?. lia.
  - intros r Hr.
    destruct (proj1 (list_elem_of_lookup _ _) Hr) as [i Hi].
    destruct (Forall2_lookup_r _ _ _ _ _ Hrecs Hi) as ([p n] & Hp & Hshow).
    apply list_elem_of_lookup_2, Hsub, elem_of_sorted, list_elem_of_filter in Hp
      as [Hpos Hp].
    apply list_elem_of_fmap in Hp as (p' & [= <- ->] & Hp').
    apply list_elem_of_filter in Hp' as [[Hid Hstock] Hp'].
    exists p. cbn [fst snd] in *. destruct Hshow as [Hprice ->]. cbn.
    repeat split; auto.
    apply Is_true_true_1, Hstock.
Qed.

Lemma X9_cooccurrence_fallback_answer_witness :
  let s := Sample.state Sample.untrained Sample.shop Sample.shop Sample.no_files [] in
  let run := MLRecommendationService._get_fallback_copurchase_recommendations 1 10 s in
  map (fun r => (r_product_id r, reported_count r)) (returned [] (fst run))
  = [(2, 2); (3, 1)]
  /\ StronglySorted (fun r1 r2 => reported_count r2 <= reported_count r1)
       (returned [] (fst run)).
Proof.
  intros s run. split; [vm_compute; reflexivity|].
  apply (X9_cooccurrence_fallback_answer 1 10 s (returned [] (fst run)) (snd run)).
  vm_compute. reflexivity.
Defined.

(* ===================================================================== *)
(** ** Serving from the co-purchase graph *)
(* ===================================================================== *)

Lemma omap_StronglySorted {A B} (f : A -> option B) (R : relation A)
    (R' : relation B) l :
  (forall a b x y, R a b -> f a = Some x -> f b = Some y -> R' x y) ->
  StronglySorted R l -> StronglySorted R' (omap f l).
Proof.
  intros Hf. induction 1 as [|a l Hs IH Hall]; cbn; [constructor|].
  destruct (f a) as [x|] eqn:Ea; [|exact IH]. constructor; [exact IH|].
  apply Forall_forall. intros y Hy.
  apply list_elem_of_omap in Hy as (b & Hb & Eb).
  apply (Hf a b x y); auto. apply (proj1 (Forall_forall _ _) Hall), Hb.
Qed.

(** X10: when the product has a row in the co-purchase graph, the weights
    of that row are positive and the feature rows have a price,
    [get_copurchase_recommendations] answers from that row without touching
    the state: each recommendation reports the weight of its edge, its score
    is that weight divided by the largest weight of the row and so lies in
    (0, 1], the recommendations come by non-increasing score, and for a
    limit that is not negative there are at most [limit] of them. *)
Theorem X10_copurchase_recommendations_ranked
    (s : State) (product_id limit : Z) (matrix : graph) (copurchased : list (Z * Q)) :
  models_trained (self s) = true ->
  copurchase_matrix (self s) = Some matrix ->
  matrix !! product_id = Some copurchased ->
  priced (product_features (self s)) ->
  (forall e, e ∈ copurchased -> (0 < snd e)%Q) ->
  exists recs,
    MLRecommendationService.get_copurchase_recommendations product_id limit s
      = (inr recs, s)
    /\ (0 <= limit -> Z.of_nat (length recs) <= limit)
    /\ StronglySorted (fun r1 r2 => (r_score r2 <= r_score r1)%Q) recs
    /\ forall r, r ∈ recs ->
         exists frequency,
           (r_product_id r, frequency) ∈ copurchased
           /\ r_reason r = FrequentlyBought frequency
           /\ r_score r = (frequency / max_weight copurchased)%Q
           /\ (0 < r_score r)%Q /\ (r_score r <= 1)%Q.
Proof.
  intros Ht Hm Hrow Hpriced Hpos.
  eexists. split;
    [apply (run_get_copurchase_recommendations s product_id limit matrix copurchased);
     assumption|].
  set (f := product_features (self s)).
  set (top := Py.slice_to limit (Py.sorted_by_value_desc copurchased)).
  pose proof (max_weight_pos _ Hpos) as Hmax.
  assert (Htop : forall e, e ∈ top -> e ∈ copurchased).
  { intros e He. apply (sublist_subseteq _ _ (slice_to_sublist limit _)) in He.
    unfold Py.sorted_by_value_desc in He. apply elem_of_sorted in He. exact He. }
  split; [|split].
  - intros Hl. pose proof (omap_length_le (copurchase_entry f copurchased) top).
    pose proof (slice_to_length limit (Py.sorted_by_value_desc copurchased) Hl).
    fold top in H0. lia.
  - apply (omap_StronglySorted _ (fun a b => (snd b <= snd a)%Q)).
    + intros a b x y Hab Hx Hy. unfold copurchase_entry in Hx, Hy.
      destruct (f !! fst a) as [pa|]; [|discriminate].
      destruct (f !! fst b) as [pb|]; [|discriminate]. cbn in Hx, Hy.
      destruct (p_price pa); [|discriminate]. destruct (p_price pb); [|discriminate].
      injection Hx as <-. injection Hy as <-. cbn.
      apply Qmult_le_compat_r; [exact Hab|].
      apply Qlt_le_weak, Qinv_lt_0_compat, Hmax.
    + eapply sublist_StronglySorted; [apply slice_to_sublist|].
      apply sorted_by_value_desc_sorted.
  - intros r Hr. apply list_elem_of_omap in Hr as ([id w] & He & Hr).
    unfold copurchase_entry in Hr. cbn in Hr.
    destruct (f !! id) as [p|]; [|discriminate]. cbn in Hr.
    destruct (p_price p); [|discriminate]. injection Hr as <-. cbn.
    exists w. apply Htop in He. repeat split; auto.
    + apply Qlt_shift_div_l; [exact Hmax|]. rewrite Qmult_0_l. apply (Hpos _ He).
    + apply Qle_shift_div_r; [exact Hmax|]. rewrite Qmult_1_l.
      apply (max_weight_ge _ _ He).
Qed.

(** Product 1 was bought 4 times with product 2 and 10 times with
    product 3: with the limit 2 the answer lists product 3 with the score 1
    before product 2 with the score 0.4; with the limit 1 it is product 3
    alone. *)
Lemma X10_copurchase_recommendations_ranked_witness :
  let s := Sample.state Sample.busy Sample.shop Sample.shop Sample.old_files [] in
  exists recs top,
    MLRecommendationService.get_copurchase_recommendations 1 2 s = (inr recs, s)
    /\ map r_product_id recs = [3; 2]
    /\ Forall2 (fun r q => (r_score r == q)%Q) recs [1%Q; (4 # 10)%Q]
    /\ map r_reason recs = [FrequentlyBought 10; FrequentlyBought 4]
    /\ StronglySorted (fun r1 r2 => (r_score r2 <= r_score r1)%Q) recs
    /\ MLRecommendationService.get_copurchase_recommendations 1 1 s = (inr top, s)
    /\ map r_product_id top = [3]
    /\ Z.of_nat (length top) <= 1.
Proof.
  intros s.
  assert (Hpriced : priced (product_features (self s))).
  { intros id p Hp.
    assert (Hall : map_Forall (fun _ p => is_Some (p_price p)) Sample.old_features).
    { refine (bool_decide_unpack _ _). vm_compute. exact I. }
    exact (Hall id p Hp). }
  assert (Hpos : forall e, e ∈ [(2, 4%Q); (3, 10%Q)] -> (0 < snd e)%Q).
  { intros e He. apply elem_of_cons in He as [->|He]; [reflexivity|].
    apply list_elem_of_singleton in He. subst e. reflexivity. }
  destruct (X10_copurchase_recommendations_ranked s 1 2 Sample.busy_copurchase
              [(2, 4%Q); (3, 10%Q)] eq_refl eq_refl eq_refl Hpriced Hpos)
    as (recs & Hrun & _ & Hsorted & _).
  destruct (X10_copurchase_recommendations_ranked s 1 1 Sample.busy_copurchase
              [(2, 4%Q); (3, 10%Q)] eq_refl eq_refl eq_refl Hpriced Hpos)
    as (top & Hrun1 & Hlen1 & _).
  exists recs, top.
  assert (E : fst (MLRecommendationService.get_copurchase_recommendations 1 2 s)
              = inr recs) by (rewrite Hrun; reflexivity).
  assert (E1 : fst (MLRecommendationService.get_copurchase_recommendations 1 1 s)
               = inr top) by (rewrite Hrun1; reflexivity).
  vm_compute in E. injection E as E. vm_compute in E1. injection E1 as E1.
  split; [exact Hrun|]. split; [rewrite <- E; reflexivity|].
  split; [rewrite <- E; repeat constructor|].
  split; [rewrite <- E; reflexivity|]. split; [exact Hsorted|].
  split; [exact Hrun1|]. split; [rewrite <- E1; reflexivity|].
  apply Hlen1. lia.
Defined.

(* ===================================================================== *)
(** ** Symmetry and range of the rule-based score *)
(* ===================================================================== *)

(** X11: the outcome of [_calculate_product_similarity] does not depend on
    the order of the two products: both orders return a score, and the two
    scores are equal, or both raise the same exception. *)
Theorem X11_similarity_score_symmetric a b :
  match MLRecommendationService._calculate_product_similarity a b,
        MLRecommendationService._calculate_product_similarity b a with
  | inr v, inr v' => (v == v')%Q
  | inl e, inl e' => e = e'
  | _, _ => False
  end.
Proof.
  pose proof (calculate_product_similarity_outcome a b) as Hab.
  pose proof (calculate_product_similarity_outcome b a) as Hba.
  rewrite (price_term_reached_comm b a) in Hba.
  destruct (price_term_reached a b).
  - rewrite Hab, Hba. reflexivity.
  - destruct Hab as (v & -> & Hv), Hba as (v' & -> & Hv').
    rewrite Hv, Hv', category_brand_score_comm. reflexivity.
Qed.

Lemma calculate_product_similarity_range a b v :
  MLRecommendationService._calculate_product_similarity a b = inr v ->
  (0 <= v)%Q
  /\ (v <= 1)%Q
  /\ (p_category a = p_category b -> p_brand a = p_brand b -> (7 # 10 <= v)%Q)
  /\ (p_category a <> p_category b -> p_brand a <> p_brand b -> (v <= 2 # 10)%Q).
Proof.
  intros Hv. apply calculate_product_similarity_inr in Hv as [_ Hv].
  rewrite Hv. unfold category_brand_score.
  repeat split;
    try (intros Hc Hb);
    repeat case_bool_decide; try contradiction; unfold Qle; cbn; lia.
Qed.

(** X12: every score that [_calculate_product_similarity] returns lies in
    [0, 1]; two products of the same category and the same brand score at
    least 0.7, and two products that differ in both score at most 0.2, so
    below the 0.3 an edge of the fallback similarity graph needs. *)
Theorem X12_similarity_score_range a b v :
  MLRecommendationService._calculate_product_similarity a b = inr v ->
  (0 <= v)%Q
  /\ (v <= 1)%Q
  /\ (p_category a = p_category b -> p_brand a = p_brand b -> (7 # 10 <= v)%Q)
  /\ (p_category a <> p_category b -> p_brand a <> p_brand b -> (v <= 2 # 10)%Q).
Proof. apply calculate_product_similarity_range. Qed.

Lemma X12_similarity_score_range_witness :
  let p1 := Sample.product 1 "phone" "X" 100 in
  let p2 := Sample.product 2 "phone" "X" 0 in
  let p3 := Sample.product 3 "case" "Y" 0 in
  exists v v',
    MLRecommendationService._calculate_product_similarity p1 p3 = inr v
    /\ (0 <= v)%Q /\ (v <= 2 # 10)%Q
    /\ MLRecommendationService._calculate_product_similarity p1 p2 = inr v'
    /\ (7 # 10 <= v')%Q /\ (v' <= 1)%Q.
Proof.
  intros p1 p2 p3.
  destruct (X12_similarity_score_range p1 p3 0%Q eq_refl) as (Hlo & _ & _ & Hhi).
  destruct (X12_similarity_score_range p1 p2 (Qmin (0 + (4 # 10) + (3 # 10)) 1) eq_refl)
    as (_ & Hone & Hsame & _).
  eexists _, _. split; [reflexivity|]. split; [exact Hlo|].
  split; [apply Hhi; discriminate|]. split; [reflexivity|].
  split; [apply Hsame; reflexivity | exact Hone].
Defined.

(* ===================================================================== *)
(** ** Edges of the fallback similarity graph *)
(* ===================================================================== *)

Lemma scored_pairs_distinct products r :
  NoDup (map p_id products) -> r ∈ scored_pairs products ->
  fst (fst r) <> snd (fst r).
Proof.
  induction products as [|prod1 later IH]; cbn; [intros _ H; inversion H|].
  intros Hnd. apply NoDup_cons in Hnd as [Hnotin Hnd].
  rewrite elem_of_app, list_elem_of_omap. intros [(q & Hq & Hr)|H]; [|auto].
  apply scored_entry_Some in Hr as (v & _ & -> & _). cbn. intros Heq. apply Hnotin.
  rewrite Heq. apply list_elem_of_In, in_map, list_elem_of_In, Hq.
Qed.

Lemma simple_similarity_edge products a b w :
  edge (foldl sym_set ∅ (scored_pairs products)) a b = Some w ->
  exists p q, p ∈ products /\ q ∈ products
    /\ ((a = p_id p /\ b = p_id q) \/ (a = p_id q /\ b = p_id p))
    /\ MLRecommendationService._calculate_product_similarity p q = inr w
    /\ (3 # 10 < w)%Q
    /\ (p_id p, p_id q, w) ∈ scored_pairs products.
Proof.
  intros H. apply edge_fold_Some in H as [(r & Hr & Ht & Hw)|H];
    [|rewrite edge_empty in H; discriminate].
  destruct (elem_of_scored_pairs _ _ Hr) as (p & q & Hp & Hq & He).
  apply scored_entry_Some in He as (v & Hv & -> & Hlt). cbn in Hw. subst w.
  exists p, q. repeat split; auto.
  unfold touches in Ht. cbn in Ht.
  destruct Ht as [[= <- <-]|[= <- <-]]; auto.
Qed.

Lemma calculate_product_similarity_flip p q w :
  MLRecommendationService._calculate_product_similarity p q = inr w ->
  exists v, MLRecommendationService._calculate_product_similarity q p = inr v
            /\ (w == v)%Q.
Proof.
  intros Hw. apply calculate_product_similarity_inr in Hw as [Hr Hw].
  pose proof (calculate_product_similarity_outcome q p) as Ho.
  rewrite price_term_reached_comm, Hr in Ho. destruct Ho as (v & Hv & Hq).
  exists v. split; [exact Hv|]. rewrite Hw, Hq. rewrite category_brand_score_comm.
  reflexivity.
Qed.

(** X14: the graph built by [_build_simple_similarity_matrix] is symmetric,
    and every edge it holds joins two products of the mirror with the
    rule-based score that [_calculate_product_similarity] returns for them,
    which exceeds 0.3 and is at most 1. *)
Theorem X14_fallback_similarity_graph conn s g s' :
  MLRecommendationService._build_simple_similarity_matrix conn s = (inr g, s') ->
  (forall a b, edge g a b = edge g b a)
  /\ forall a b w, edge g a b = Some w ->
       (3 # 10 < w)%Q /\ (w <= 1)%Q
       /\ exists p q v, p ∈ t_products (c_view conn) /\ q ∈ t_products (c_view conn)
            /\ p_id p = a /\ p_id q = b
            /\ MLRecommendationService._calculate_product_similarity p q = inr v
            /\ (w == v)%Q.
Proof.
  intros Hrun. apply run_build_simple_similarity_matrix in Hrun as [_ ->]. split.
  { intros a b. apply edge_fold_sym. intros x y. rewrite !edge_empty. reflexivity. }
  intros a b w H.
  apply simple_similarity_edge in H as (p & q & Hp & Hq & Hab & Hw & Hlt & _).
  split; [exact Hlt|]. split.
  { apply (calculate_product_similarity_range p q w Hw). }
  destruct Hab as [[-> ->]|[-> ->]].
  - exists p, q, w. repeat split; auto; reflexivity.
  - destruct (calculate_product_similarity_flip p q w Hw) as (v & Hv & Hq').
    exists q, p, v. repeat split; auto.
Qed.

(** X15: when the product ids of the mirror are unique, an edge of the
    fallback similarity graph never joins a product with itself, and the
    two products it joins share their category or their brand. *)
Theorem X15_fallback_similarity_links conn s g s' a b w :
  MLRecommendationService._build_simple_similarity_matrix conn s = (inr g, s') ->
  NoDup (map p_id (t_products (c_view conn))) ->
  edge g a b = Some w ->
  a <> b
  /\ exists p q, p ∈ t_products (c_view conn) /\ q ∈ t_products (c_view conn)
       /\ p_id p = a /\ p_id q = b
       /\ (p_category p = p_category q \/ p_brand p = p_brand q).
Proof.
  intros Hrun Hnd H.
  apply run_build_simple_similarity_matrix in Hrun as [_ ->].
  apply simple_similarity_edge in H as (p & q & Hp & Hq & Hab & Hw & Hlt & Hin).
  pose proof (scored_pairs_distinct _ _ Hnd Hin) as Hne. cbn in Hne.
  assert (Hshare : p_category p = p_category q \/ p_brand p = p_brand q).
  { destruct (decide (p_category p = p_category q)) as [|Hc]; [auto|].
    destruct (decide (p_brand p = p_brand q)) as [|Hb]; [auto|]. exfalso.
    destruct (calculate_product_similarity_range p q w Hw) as (_ & _ & _ & Hle).
    specialize (Hle Hc Hb). lra. }
  destruct Hab as [[-> ->]|[-> ->]].
  - split; [exact Hne|]. exists p, q. auto.
  - split; [congruence|]. exists q, p. repeat split; auto.
    destruct Hshare; auto.
Qed.

Lemma X14_fallback_similarity_graph_witness :
  let conn := mkConnection Analytics Sample.clearance in
  let s := Sample.state Sample.untrained Sample.shop Sample.clearance
             Sample.no_files [] in
  let g := foldl sym_set ∅ (scored_pairs (t_products Sample.clearance)) in
  fst (MLRecommendationService._build_simple_similarity_matrix conn s) = inr g
  /\ edge g 1 2 = edge g 2 1
  /\ is_Some (edge g 1 2).
Proof.
  intros conn s g.
  destruct (X14_fallback_similarity_graph conn s g
              (snd (MLRecommendationService._build_simple_similarity_matrix conn s)))
    as [Hsym _].
  - vm_compute. reflexivity.
  - split; [vm_compute; reflexivity|]. split; [apply Hsym | vm_compute; eauto].
Defined.

Lemma X15_fallback_similarity_links_witness :
  let conn := mkConnection Analytics Sample.clearance in
  let s := Sample.state Sample.untrained Sample.shop Sample.clearance
             Sample.no_files [] in
  let g := foldl sym_set ∅ (scored_pairs (t_products Sample.clearance)) in
  is_Some (edge g 1 2)
  /\ exists p q, p ∈ t_products Sample.clearance /\ q ∈ t_products Sample.clearance
       /\ p_id p = 1 /\ p_id q = 2
       /\ (p_category p = p_category q \/ p_brand p = p_brand q).
Proof.
  intros conn s g. split; [vm_compute; eauto|].
  apply (X15_fallback_similarity_links conn s g
           (snd (MLRecommendationService._build_simple_similarity_matrix conn s))
           1 2 (default 0%Q (edge g 1 2))).
  - vm_compute. reflexivity.
  - refine (bool_decide_unpack _ _). vm_compute. exact I.
  - vm_compute. reflexivity.
Defined.

(* ===================================================================== *)
(** ** Edges of the learned graphs *)
(* ===================================================================== *)

Section Threshold.
Variables (t sc : Q) (sims : list (list Q)).

Lemma threshold_inner i a js g s g' s' :
  NoDup (map snd js) ->
  (forall y, y ∈ map snd js -> edge g a y = None) ->
  for_each js
    (fun g '(j, prod_id2) =>
       if Nat.eqb i j then mret g
       else
         sim ← MLRecommendationService.index2 sims i j;
         if Py.gtb sim t
         then mret (graph_set a prod_id2 (sim * sc)%Q g)
         else mret g) g s = (inr g', s') ->
  forall x y w, edge g' x y = Some w
                <-> edge g x y = Some w
                    \/ (x = a /\ exists k v, (k, y) ∈ js /\ i <> k /\ entry sims i k = Some v
                                             /\ (t < v)%Q /\ w = (v * sc)%Q).
Proof.
  revert g s. induction js as [|[j b] js IH]; intros g s Hnd Hfresh.
  - intros [= <- _] x y w. split; [auto|].
    intros [H|(_ & j & v & Hin & _)]; [exact H | inversion Hin].
  - cbn in Hnd. apply NoDup_cons in Hnd as [Hb Hnd].
    intros H. apply bind_inr_inv in H as (g1 & s1 & Hstep & H).
    assert (Hg1 : forall x y w,
              edge g1 x y = Some w
              <-> edge g x y = Some w
                  \/ (x = a /\ exists k v, (k, y) ∈ [(j, b)] /\ i <> k
                        /\ entry sims i k = Some v /\ (t < v)%Q /\ w = (v * sc)%Q)).
    { intros x y w.
      assert (Hsingle : forall y w,
                (exists k v, (k, y) ∈ [(j, b)] /\ i <> k
                   /\ entry sims i k = Some v /\ (t < v)%Q /\ w = (v * sc)%Q)
                <-> y = b /\ i <> j /\ exists v, entry sims i j = Some v
                                       /\ (t < v)%Q /\ w = (v * sc)%Q).
      { intros y0 w0. split.
        - intros (j0 & v & Hin & Hne & He & Hlt & Hw).
          apply list_elem_of_singleton in Hin. injection Hin as -> ->. eauto 10.
        - intros (-> & Hne & v & He & Hlt & Hw). exists j, v.
          rewrite list_elem_of_singleton. auto. }
      rewrite Hsingle. clear Hsingle.
      destruct (Nat.eqb_spec i j) as [->|Hij].
      { injection Hstep as <- _. split; [auto|]. intros [H0|(_ & _ & Hne & _)]; [auto|].
        contradiction. }
      apply bind_inr_inv in Hstep as (v & s2 & Hv & Hstep).
      unfold MLRecommendationService.index2 in Hv. fold (entry sims i j) in Hv.
      destruct (entry sims i j) as [v0|] eqn:He; [|discriminate Hv].
      injection Hv as -> <-.
      destruct (Py.gtb v t) eqn:Hgt; injection Hstep as <- _.
      - apply gtb_lt in Hgt. rewrite edge_graph_set. case_decide as Hd.
        + destruct Hd as [-> ->]. split.
          * intros [= <-]. right. eauto 10.
          * intros [H0|(_ & _ & _ & v' & [= <-] & _ & ->)]; [|reflexivity].
            rewrite Hfresh in H0; [discriminate|]. left.
        + split; [auto|]. intros [H0|(-> & -> & _)]; [exact H0 | tauto].
      - split; [auto|]. intros [H0|(_ & _ & _ & v' & [= <-] & Hlt & _)]; [exact H0|].
        apply gtb_lt in Hlt. congruence. }
    intros x y w. rewrite (IH g1 s1 Hnd); [|
      intros y0 Hy0; destruct (edge g1 a y0) as [w0|] eqn:E; [|reflexivity];
      apply Hg1 in E as [E|(_ & j0 & v & Hin & _)];
      [ rewrite Hfresh in E; [discriminate | right; exact Hy0]
      | apply list_elem_of_singleton in Hin; injection Hin as -> ->; contradiction ]
      | exact H].
    rewrite Hg1. split.
    + intros [[H0|(-> & j0 & v & Hin & Hrest)]|(-> & j0 & v & Hin & Hrest)]; [auto| |].
      * right. split; [reflexivity|]. exists j0, v.
        apply list_elem_of_singleton in Hin. rewrite Hin. split; [left | exact Hrest].
      * right. split; [reflexivity|]. exists j0, v. split; [right; exact Hin | exact Hrest].
    + intros [H0|(-> & j0 & v & Hin & Hrest)]; [auto|].
      apply elem_of_cons in Hin as [Hin|Hin].
      * left. right. split; [reflexivity|]. exists j0, v.
        rewrite list_elem_of_singleton. auto.
      * right. split; [reflexivity|]. exists j0, v. auto.
Qed.

Lemma threshold_outer all rows g s g' s' :
  NoDup (map snd all) ->
  NoDup (map snd rows) ->
  (forall a y, a ∈ map snd rows -> edge g a y = None) ->
  for_each rows
    (fun g '(i, prod_id1) =>
       for_each all
         (fun g '(j, prod_id2) =>
            if Nat.eqb i j then mret g
            else
              sim ← MLRecommendationService.index2 sims i j;
              if Py.gtb sim t
              then mret (graph_set prod_id1 prod_id2 (sim * sc)%Q g)
              else mret g)
         g) g s
    = (inr g', s') ->
  forall x y w, edge g' x y = Some w
                <-> edge g x y = Some w
                    \/ exists i k v, (i, x) ∈ rows /\ (k, y) ∈ all /\ i <> k
                         /\ entry sims i k = Some v /\ (t < v)%Q /\ w = (v * sc)%Q.
Proof.
  intros Hall. revert g s. induction rows as [|[i a] rows IH]; intros g s Hnd Hfresh.
  - intros [= <- _] x y w. split; [auto|].
    intros [H|(i & k & v & Hin & _)]; [exact H | inversion Hin].
  - cbn in Hnd. apply NoDup_cons in Hnd as [Ha Hnd].
    intros H. apply bind_inr_inv in H as (g1 & s1 & Hstep & H).
    pose proof (threshold_inner i a all g s g1 s1 Hall
                  (fun y _ => Hfresh a y ltac:(left)) Hstep) as Hg1.
    intros x y w. rewrite (IH g1 s1 Hnd); [| |exact H].
    + rewrite Hg1. split.
      * intros [[H0|(-> & k & v & Hw)]|(i0 & k & v & Hin & Hw)]; [auto| |].
        -- right. exists i, k, v. split; [left | exact Hw].
        -- right. exists i0, k, v. split; [right; exact Hin | exact Hw].
      * intros [H0|(i0 & k & v & Hin & Hw)]; [auto|].
        apply elem_of_cons in Hin as [[= -> ->]|Hin].
        -- left. right. split; [reflexivity|]. exists k, v. exact Hw.
        -- right. exists i0, k, v. auto.
    + intros a0 y0 Ha0. destruct (edge g1 a0 y0) as [w0|] eqn:E; [|reflexivity].
      apply Hg1 in E as [E|(-> & _)].
      * rewrite Hfresh in E; [discriminate | right; exact Ha0].
      * contradiction.
Qed.

End Threshold.

Lemma fmap_snd_imap_pair {A} (l : list A) : map snd (imap pair l) = l.
Proof.
  assert (H : forall f : nat -> A -> nat * A,
            (forall i x, snd (f i x) = x) -> map snd (imap f l) = l).
  { induction l as [|x l IH]; intros f Hf; [reflexivity|].
    cbn. rewrite Hf. f_equal. apply IH. intros i y. apply Hf. }
  apply H. reflexivity.
Qed.

Lemma elem_of_imap_pair {A} (l : list A) i x : (i, x) ∈ imap pair l <-> l !! i = Some x.
Proof.
  rewrite elem_of_lookup_imap. split.
  - intros (j & y & [= -> ->] & H). exact H.
  - intros H. eauto.
Qed.

(** The graph written by the thresholding loops over unique ids. *)
Lemma threshold_graph_edges t sc ids sims s g s' :
  NoDup ids ->
  MLRecommendationService.threshold_graph t sc ids sims s = (inr g, s') ->
  forall a b w, edge g a b = Some w <-> kept_edge t sc ids sims a b w.
Proof.
  intros Hnd Hrun a b w.
  unfold MLRecommendationService.threshold_graph in Hrun.
  rewrite (threshold_outer t sc sims (imap pair ids) (imap pair ids) ∅ s g s');
    rewrite ?fmap_snd_imap_pair; auto.
  - rewrite edge_empty. unfold kept_edge. split.
    + intros [H|(i & j & v & Hi & Hj & Hrest)]; [discriminate|].
      apply elem_of_imap_pair in Hi. apply elem_of_imap_pair in Hj.
      exists i, j, v. auto.
    + intros (i & j & v & Hi & Hj & Hrest). right.
      exists i, j, v. split; [apply elem_of_imap_pair, Hi|].
      split; [apply elem_of_imap_pair, Hj | exact Hrest].
Qed.

(** X16: the double loop that turns a learned similarity table into a
    graph (in [_build_copurchase_matrix] and in [_build_similarity_matrix]),
    run over unique product ids, keeps an edge from the product at position
    i to the product at position j exactly when i and j differ and the table
    entry (i, j) exceeds the threshold, with the scaled entry as weight; so
    no product is linked to itself, and the graph is symmetric whenever the
    table is. *)
Theorem X16_learned_graph_edges t sc ids sims s g s' :
  NoDup ids ->
  MLRecommendationService.threshold_graph t sc ids sims s = (inr g, s') ->
  (forall a b w, edge g a b = Some w <-> kept_edge t sc ids sims a b w)
  /\ (forall a, edge g a a = None)
  /\ ((forall i j, entry sims i j = entry sims j i) ->
      forall a b, edge g a b = edge g b a).
Proof.
  intros Hnd Hrun.
  pose proof (threshold_graph_edges t sc ids sims s g s' Hnd Hrun) as Hedges.
  split; [exact Hedges|]. split.
  - intros a. destruct (edge g a a) as [w|] eqn:E; [|reflexivity].
    apply Hedges in E as (i & j & v & Hi & Hj & Hne & _).
    exfalso. apply Hne. eapply NoDup_lookup; eauto.
  - intros Hsym a b.
    assert (Hswap : forall a b w, kept_edge t sc ids sims a b w ->
                                  kept_edge t sc ids sims b a w).
    { intros x y w (i & j & v & Hi & Hj & Hne & He & Hrest).
      exists j, i, v. rewrite <- Hsym. auto. }
    destruct (edge g a b) as [w|] eqn:E.
    + symmetry. apply Hedges, Hswap, Hedges, E.
    + destruct (edge g b a) as [w|] eqn:E'; [|reflexivity].
      apply Hedges, Hswap, Hedges in E'. congruence.
Qed.

Lemma X16_learned_graph_edges_witness :
  let sims := [[1%Q; 1 # 2; 1 # 10]; [1 # 2; 1%Q; 1 # 10]; [1 # 10; 1 # 10; 1%Q]] in
  let s := Sample.state Sample.untrained Sample.shop Sample.shop Sample.no_files [] in
  let run := MLRecommendationService.threshold_graph (3 # 10) 1 [1; 2; 3] sims s in
  edge (returned ∅ (fst run)) 1 2 = edge (returned ∅ (fst run)) 2 1
  /\ edge (returned ∅ (fst run)) 3 3 = None.
Proof.
  intros sims s run.
  destruct (X16_learned_graph_edges (3 # 10) 1 [1; 2; 3] sims s
              (returned ∅ (fst run)) (snd run))
    as (_ & Hself & Hsym).
  - refine (bool_decide_unpack _ _). vm_compute. exact I.
  - vm_compute. reflexivity.
  - split; [|apply Hself]. apply Hsym.
    intros i j. destruct i as [|[|[|i]]], j as [|[|[|j]]]; reflexivity.
Defined.

(* ===================================================================== *)
(** ** The feature table *)
(* ===================================================================== *)

Lemma feature_table_snoc products p :
  feature_table (products ++ [p]) = <[p_id p := p]> (feature_table products).
Proof. unfold feature_table. rewrite foldl_snoc. reflexivity. Qed.

Lemma feature_table_lookup products id p :
  feature_table products !! id = Some p -> p ∈ products /\ p_id p = id.
Proof.
  induction products as [|q products IH] using rev_ind.
  - unfold feature_table. cbn. rewrite lookup_empty. discriminate.
  - rewrite feature_table_snoc. destruct (decide (p_id q = id)) as [<-|Hne].
    + rewrite lookup_insert_eq. intros [= <-]. split; [|reflexivity].
      apply elem_of_app. right. left.
    + rewrite lookup_insert_ne by exact Hne. intros H.
      destruct (IH H) as [Hin Hid]. split; [|exact Hid].
      apply elem_of_app. left. exact Hin.
Qed.

Lemma feature_table_covers products p :
  p ∈ products -> is_Some (feature_table products !! p_id p).
Proof.
  induction products as [|q products IH] using rev_ind; [intros H; inversion H|].
  rewrite feature_table_snoc. intros Hin.
  destruct (decide (p_id q = p_id p)) as [Heq|Hne].
  - rewrite Heq, lookup_insert_eq. eauto.
  - rewrite lookup_insert_ne by exact Hne. apply IH.
    apply elem_of_app in Hin as [Hin|Hin]; [exact Hin|].
    apply list_elem_of_singleton in Hin. subst. contradiction.
Qed.

Lemma feature_table_unique products :
  NoDup (map p_id products) ->
  (forall p, p ∈ products -> feature_table products !! p_id p = Some p)
  /\ size (feature_table products) = length products.
Proof.
  induction products as [|q products IH] using rev_ind.
  - intros _. split; [intros p H; inversion H | reflexivity].
  - rewrite map_app. cbn. intros Hnd.
    apply NoDup_app in Hnd as (Hnd & Hq & _). destruct (IH Hnd) as [Hl Hs].
    assert (Hnew : feature_table products !! p_id q = None).
    { destruct (feature_table products !! p_id q) as [p|] eqn:E; [|reflexivity].
      apply feature_table_lookup in E as [Hin Hid]. exfalso.
      apply (Hq (p_id q)); [|left]. rewrite <- Hid.
      apply list_elem_of_In, in_map, list_elem_of_In, Hin. }
    rewrite feature_table_snoc. split.
    + intros p Hin. apply elem_of_app in Hin as [Hin|Hin].
      * rewrite lookup_insert_ne; [apply Hl, Hin|].
        intros Heq. rewrite Heq, (Hl p Hin) in Hnew. discriminate.
      * apply list_elem_of_singleton in Hin. subst. apply lookup_insert_eq.
    + rewrite map_size_insert_None by exact Hnew. rewrite length_app, Hs. cbn. lia.
Qed.

Lemma run_load_product_features conn s f s' :
  MLRecommendationService._load_product_features conn s = (inr f, s') ->
  f = feature_table (t_products (c_view conn)).
Proof.
  unfold MLRecommendationService._load_product_features. intros H.
  apply bind_inr_inv in H as (products & s1 & Hr & H).
  rewrite run_execute_read in Hr.
  destruct (bool_decide (_ ∈ _)); [discriminate Hr|]. injection Hr as <- <-.
  injection H as <- _. reflexivity.
Qed.

(** X17: the table built by [_load_product_features] maps an id only to a
    product row of the mirror that has this id, and has an entry for the id
    of every product row; when the ids are unique it maps the id of every
    row to that row and has as many entries as the mirror has products. *)
Theorem X17_feature_table conn s f s' :
  MLRecommendationService._load_product_features conn s = (inr f, s') ->
  (forall id p, f !! id = Some p -> p ∈ t_products (c_view conn) /\ p_id p = id)
  /\ (forall p, p ∈ t_products (c_view conn) -> is_Some (f !! p_id p))
  /\ (NoDup (map p_id (t_products (c_view conn))) ->
      (forall p, p ∈ t_products (c_view conn) -> f !! p_id p = Some p)
      /\ size f = length (t_products (c_view conn))).
Proof.
  intros H. apply run_load_product_features in H. subst f.
  split; [apply feature_table_lookup|]. split; [apply feature_table_covers|].
  apply feature_table_unique.
Qed.

Lemma X17_feature_table_witness :
  let conn := mkConnection Analytics Sample.shop in
  let s := Sample.state Sample.untrained Sample.shop Sample.shop Sample.no_files [] in
  let f := feature_table (t_products Sample.shop) in
  f !! 3 = Some (Sample.product 3 "case" "Y" 10) /\ size f = 3%nat.
Proof.
  intros conn s f.
  destruct (X17_feature_table conn s f
              (snd (MLRecommendationService._load_product_features conn s)))
    as (_ & _ & Hunique).
  - vm_compute. reflexivity.
  - destruct Hunique as [Hl Hs].
    + refine (bool_decide_unpack _ _). vm_compute. exact I.
    + split; [|exact Hs].
      apply (Hl (Sample.product 3 "case" "Y" 10)).
      right. right. left.
Defined.

(* ===================================================================== *)
(** ** What training and sync leave alone *)
(* ===================================================================== *)

Lemma timeless_stores : timeless stores.
Proof. intros sv w n tr. reflexivity. Qed.

Lemma timeless_instance_and_files : timeless instance_and_files.
Proof. intros sv w n tr. reflexivity. Qed.

Lemma keeps_modify_self {X} (f : State -> X) g :
  (forall s, f (mkState (g (self s)) (world s)) = f s) -> keeps f (modify_self g).
Proof. intros H s. apply H. Qed.

Lemma keeps_modify_world {X} (f : State -> X) g :
  (forall s, f (mkState (self s) (g (world s))) = f s) -> keeps f (modify_world g).
Proof. intros H s. apply H. Qed.

Lemma keeps_stores_save_models : keeps stores MLRecommendationService._save_models.
Proof.
  pose proof timeless_stores.
  unfold MLRecommendationService._save_models, MLRecommendationService.write_file.
  repeat first [ apply keeps_modify_world; reflexivity | keeps_step ].
Qed.

Lemma keeps_stores_train_models ml :
  keeps stores (MLRecommendationService.train_models ml).
Proof.
  pose proof timeless_stores as Ht.
  unfold MLRecommendationService.train_models,
    MLRecommendationService.set_similarity_matrix,
    MLRecommendationService.set_copurchase_matrix,
    MLRecommendationService.set_product_features,
    MLRecommendationService.set_models_trained.
  repeat first [ apply keeps_modify_self; reflexivity
               | apply keeps_stores_save_models
               | apply keeps_get_connection; exact Ht
               | apply keeps_close; exact Ht
               | apply keeps_build_copurchase_matrix; exact Ht
               | apply keeps_build_similarity_matrix; exact Ht
               | apply keeps_load_product_features; exact Ht
               | keeps_step ].
Qed.

Lemma keeps_instance_and_files_commit conn :
  keeps instance_and_files (DatabaseManager.commit conn).
Proof.
  pose proof timeless_instance_and_files.
  unfold DatabaseManager.commit.
  repeat first [ apply keeps_modify_world; intros s; destruct (c_store conn); reflexivity
               | keeps_step ].
Qed.

Lemma keeps_instance_and_files_sync :
  keeps instance_and_files MLRecommendationService.sync_production_data.
Proof.
  pose proof timeless_instance_and_files as Ht.
  unfold MLRecommendationService.sync_production_data,
    DatabaseManager.execute_script,
    MLRecommendationService.insert_user, MLRecommendationService.insert_product,
    MLRecommendationService.insert_order, MLRecommendationService.insert_order_item.
  repeat first [ apply keeps_instance_and_files_commit
               | apply keeps_execute_read; exact Ht
               | apply keeps_execute_write; exact Ht
               | apply keeps_get_connection; exact Ht
               | apply keeps_close; exact Ht
               | keeps_step ].
Qed.

Lemma train_models_trained ml s r s' :
  MLRecommendationService.train_models ml s = (inr r, s') ->
  train_status r = "success" -> models_trained (self s') = true.
Proof.
  unfold MLRecommendationService.train_models. intros H Hok.
  apply try_except_inr_inv in H as [H | (e & s1 & _ & H)];
    [|injection H as <- _; discriminate Hok].
  do 9 (apply bind_inr_inv in H as (? & ? & _ & H)).
  apply bind_inr_inv in H as ([] & s1 & Hset & H).
  apply bind_inr_inv in H as (st & s2 & Hget & H).
  injection Hget as <- <-. injection H as _ <-.
  injection Hset as <-. reflexivity.
Qed.

(* ===================================================================== *)
(** ** The training and sync endpoints *)
(* ===================================================================== *)

(** What one run of [train_models] guarantees, whatever it returns. *)
Lemma train_models_outcome ml s :
  exists r s',
    MLRecommendationService.train_models ml s = (inr r, s')
    /\ stores s' = stores s
    /\ (train_status r = "error" -> artifact s' = artifact s)
    /\ (train_status r = "success" -> models_trained (self s') = true).
Proof.
  pose proof (train_models_spec ml (artifact s) s eq_refl) as Hspec.
  pose proof (keeps_stores_train_models ml s) as Hst.
  destruct (MLRecommendationService.train_models ml s) as [[e|r] s'] eqn:E;
    [contradiction|].
  exists r, s'. repeat split; auto.
  apply (train_models_trained ml s r s' E).
Qed.

Lemma hoare_kept_value {X A} (f : State -> X) (m : M A) (V : A -> Prop) x :
  keeps f m ->
  (forall s a s', m s = (inr a, s') -> V a) ->
  hoare (fun s => f s = x) m (fun a s => V a /\ f s = x) (fun _ s => f s = x).
Proof.
  intros Hk HV s Hs. specialize (Hk s). specialize (HV s).
  destruct (m s) as [[e|a] s']; cbn in Hk; [congruence|].
  split; [eapply HV; reflexivity | congruence].
Qed.

Lemma timeless_live_source : timeless live_source.
Proof. intros sv w n tr. reflexivity. Qed.

Ltac live_read :=
  eapply hoare_bind;
  [ apply (hoare_keeps live_source), keeps_execute_read, timeless_live_source
  | intros ? ].

Ltac live_write run :=
  eapply hoare_bind;
  [ apply (hoare_kept_value live_source);
    [ unfold MLRecommendationService.insert_user,
        MLRecommendationService.insert_product,
        MLRecommendationService.insert_order,
        MLRecommendationService.insert_order_item;
      pose proof timeless_live_source;
      repeat first [ apply keeps_execute_write; assumption | keeps_step ]
    | intros ? ? ? Hrun; exact (proj1 (run _ _ _ _ _ Hrun)) ]
  | intros ?; apply hoare_pure; intros -> ].

(** The sync never writes to the live source. *)
Lemma sync_production_data_keeps_live_source :
  keeps live_source MLRecommendationService.sync_production_data.
Proof.
  intros s0.
  cut (hoare (fun s => live_source s = live_source s0)
         MLRecommendationService.sync_production_data
         (fun _ s => live_source s = live_source s0)
         (fun _ s => live_source s = live_source s0)).
  { intros H. specialize (H s0 eq_refl).
    destruct (MLRecommendationService.sync_production_data s0) as [[e|r] s'];
      exact H. }
  unfold MLRecommendationService.sync_production_data.
  eapply hoare_try_except
    with (E' := fun _ s => live_source s = live_source s0);
    [|intros e; apply hoare_ret; auto].
  eapply hoare_bind with (R := fun _ s => live_source s = live_source s0).
  { intros s Hs. pose proof (run_execute_script Analytics s) as Hk.
    destruct (DatabaseManager.execute_script Analytics s) as [[e|a] s'];
      specialize (Hk _ _ eq_refl); apply (f_equal (fun c => c.1.1.2)) in Hk;
      unfold live_source in *; cbn in Hk; congruence. }
  intros ?.
  eapply hoare_bind;
    [apply (hoare_keeps live_source), keeps_get_connection, timeless_live_source|].
  intros prod_conn.
  eapply hoare_bind.
  { apply (hoare_kept_value live_source _ (fun c => c_store c = Analytics));
      [apply keeps_get_connection, timeless_live_source|].
    intros s c s' Hc. rewrite run_get_connection in Hc.
    destruct (bool_decide (_ ∈ _)); [discriminate Hc|]. injection Hc as <- _.
    reflexivity. }
  intros analytics_conn. apply hoare_pure. intros Hst.
  apply hoare_try_finally; [|reflexivity].
  eapply hoare_bind.
  { apply (hoare_kept_value live_source).
    - pose proof timeless_live_source.
      repeat first [ apply keeps_execute_write; assumption | keeps_step ].
    - intros ? ? ? Hrun. exact (proj1 (run_clear_tables _ _ _ _ Hrun)). }
  intros ?. apply hoare_pure. intros ->. rewrite Hst.
  live_read. live_write run_insert_users.
  live_read. live_write run_insert_products.
  live_read. live_write run_insert_orders.
  live_read. live_write run_insert_order_items.
  eapply hoare_bind with (R := fun _ s => live_source s = live_source s0);
    [|intros ?; apply hoare_ret; auto].
  apply hoare_commit; intros s Hs; exact Hs.
Qed.

(** What one run of [sync_production_data] guarantees, whatever it returns. *)
Lemma sync_production_data_outcome s :
  exists r s',
    MLRecommendationService.sync_production_data s = (inr r, s')
    /\ instance_and_files s' = instance_and_files s
    /\ production (world s') = production (world s)
    /\ (sync_status r = "error" -> mirror s' = mirror s)
    /\ (sync_status r = "success" -> mirror s' = mirrored (production (world s))).
Proof.
  pose proof (sync_production_data_spec (mirror s) s eq_refl) as Hspec.
  pose proof (keeps_instance_and_files_sync s) as Hk.
  destruct (MLRecommendationService.sync_production_data s) as [[e|r] s'] eqn:E;
    [contradiction|].
  exists r, s'. split; [reflexivity|]. split; [exact Hk|].
  destruct r as [nu np no ni|err].
  - destruct (sync_copies_live_source s nu np no ni s' E) as (Hm & Hp & _).
    repeat split; auto; discriminate.
  - pose proof (sync_production_data_keeps_live_source s) as Hp. rewrite E in Hp.
    repeat split; auto; discriminate.
Qed.

(** X18: POST /train answers 200 or 500.  After a 200 the instance counts
    as trained; after a 500 the model files, the trained flag and the
    feature table are what they were.  Either way neither store changed. *)
Theorem X18_train_endpoint ml s :
  match main.train_models ml s with
  | (inr r, s') => train_status r = "success" /\ models_trained (self s') = true
                   /\ stores s' = stores s
  | (inl e, s') => (exists detail, e = HTTPException 500 detail)
                   /\ artifact s' = artifact s /\ stores s' = stores s
  end.
Proof.
  destruct (train_models_outcome ml s) as (r & s' & Hrun & Hst & Herr & Hok).
  unfold main.train_models, try_except, mbind, M_bind. rewrite Hrun.
  destruct r as [a b c|err]; cbn.
  - split; [reflexivity|]. split; [apply Hok; reflexivity | exact Hst].
  - split; [eauto|]. split; [apply Herr; reflexivity | exact Hst].
Qed.

(** X19: POST /sync-data answers 200 or 500.  After a 200 the mirror is the
    copy of the live source, with every amount rounded to the two decimals
    of the DECIMAL columns of the mirror; after a 500 the mirror is what it
    was.  Either way the live source, the instance and the model files did
    not change. *)
Theorem X19_sync_endpoint s :
  match main.sync_production_data s with
  | (inr r, s') => sync_status r = "success"
                   /\ mirror s' = mirrored (production (world s))
                   /\ production (world s') = production (world s)
                   /\ instance_and_files s' = instance_and_files s
  | (inl e, s') => (exists detail, e = HTTPException 500 detail)
                   /\ stores s' = stores s
                   /\ instance_and_files s' = instance_and_files s
  end.
Proof.
  destruct (sync_production_data_outcome s) as (r & s' & Hrun & Hk & Hp & Herr & Hok).
  unfold main.sync_production_data, try_except, mbind, M_bind. rewrite Hrun.
  destruct r as [nu np no ni|err]; cbn.
  - split; [reflexivity|]. split; [apply Hok; reflexivity|]. auto.
  - split; [eauto|]. split; [|exact Hk].
    unfold stores. rewrite Hp. f_equal. apply Herr. reflexivity.
Qed.

(** X20: POST /full-retrain answers 200 or 500 and never writes to the
    live source.  After a 200 both steps succeeded: the mirror is the copy
    of the live source, with every amount rounded to the two decimals of its
    DECIMAL columns, and the instance counts as trained.  After a 500 the
    model files, the trained flag and the feature table are what they were,
    and the mirror is either untouched or that copy of the live source.
    When the sync fails, training is not attempted: the request ends in the
    state in which the sync ended, with the error of the sync in its
    answer. *)
Theorem X20_full_retrain_endpoint ml s :
  match main.full_retrain ml s with
  | (inr (sync_result, train_result), s') =>
      sync_status sync_result = "success" /\ train_status train_result = "success"
      /\ mirror s' = mirrored (production (world s))
      /\ production (world s') = production (world s)
      /\ models_trained (self s') = true
  | (inl e, s') =>
      (exists detail, e = HTTPException 500 detail)
      /\ artifact s' = artifact s
      /\ production (world s') = production (world s)
      /\ (mirror s' = mirror s \/ mirror s' = mirrored (production (world s)))
  end
  /\ forall error s1,
       MLRecommendationService.sync_production_data s = (inr (SyncError error), s1) ->
       main.full_retrain ml s
       = (inl (HTTPException 500
                 ("Full retrain failed: "
                    +:+ str (HTTPException 500 ("Data sync failed: " +:+ error)))),
          s1)
       /\ mirror s1 = mirror s.
Proof.
  split.
  2:{ intros error s1 Hrun.
      unfold main.full_retrain, try_except, mbind, M_bind. rewrite Hrun.
      split; [reflexivity|].
      pose proof (sync_production_data_spec (mirror s) s eq_refl) as H.
      rewrite Hrun in H. apply H. reflexivity. }
  destruct (sync_production_data_outcome s) as (r & s1 & Hrun & Hk & Hp & Herr & Hok).
  unfold main.full_retrain, try_except, mbind, M_bind. rewrite Hrun.
  assert (Ha : artifact s1 = artifact s).
  { unfold artifact. injection Hk as -> ->. reflexivity. }
  destruct r as [nu np no ni|err]; cbn.
  2:{ split; [eauto|]. split; [exact Ha|]. split; [exact Hp|].
      left. apply Herr. reflexivity. }
  destruct (train_models_outcome ml s1) as (tr & s2 & Hrun2 & Hst & Herr2 & Hok2).
  rewrite Hrun2. injection Hst as Hp2 Hm2.
  assert (Hm : mirror s2 = mirrored (production (world s))).
  { unfold mirror in *. rewrite Hm2. apply Hok. reflexivity. }
  destruct tr as [a b c|err]; cbn.
  - split; [reflexivity|]. split; [reflexivity|]. split; [exact Hm|].
    split; [congruence|]. apply Hok2. reflexivity.
  - split; [eauto|]. split; [rewrite Herr2 by reflexivity; exact Ha|].
    split; [congruence|]. right. exact Hm.
Qed.

(* ===================================================================== *)
(** ** The health report *)
(* ===================================================================== *)

(** One probe: "healthy" exactly when the connection and the query both
    succeed. *)
Lemma run_probe st s :
  exists status s',
    MLRecommendationService.probe st s = (inr status, s')
    /\ contents s' = contents s
    /\ (status = "healthy" \/ status = "error: OperationalError")
    /\ (status = "healthy" <-> next_calls_succeed 2 s).
Proof.
  assert (Hnext : next_calls_succeed 2 s
            <-> (clock (world s) ∉ faults (world s))
                /\ (S (clock (world s)) ∉ faults (world s))).
  { split.
    - intros H. split; [apply (H 0%nat) | apply (H 1%nat)]; lia.
    - intros [H0 H1] i Hi. destruct i as [|[|i]]; [exact H0 | exact H1 | lia]. }
  setoid_rewrite Hnext. clear Hnext.
  unfold MLRecommendationService.probe, try_except,
    DatabaseManager.get_connection, DatabaseManager.execute_read,
    DatabaseManager.close, mbind, M_bind.
  rewrite run_external_call.
  case_bool_decide as H0; cbn.
  - eexists _, _. split; [reflexivity|]. split; [reflexivity|]. split; [auto|].
    split; [discriminate | tauto].
  - rewrite run_external_call. cbn.
    case_bool_decide as H1; cbn;
      eexists _, _; (split; [reflexivity|]); (split; [reflexivity|]);
      (split; [auto|]); split; try discriminate; tauto.
Qed.

(** X13: GET /health always answers 200 with a report, and leaves the
    instance, both stores and the model files alone.  The report carries the
    trained flag of the instance and the existence of each model file; the
    status of the production store is "healthy" exactly when the connection
    and the probe query both succeed, and "error: ..." otherwise; model
    statistics are present exactly when the instance is trained. *)
Theorem X13_health_report s :
  exists status production_status analytics_status statistics s',
    main.health_check s
    = (inr (HealthReport status (models_trained (self s))
              (bool_decide (is_Some (similarity_matrix_pkl (files (world s)))),
               bool_decide (is_Some (copurchase_matrix_pkl (files (world s)))),
               bool_decide (is_Some (product_features_pkl (files (world s)))))
              (production_status, analytics_status) statistics), s')
    /\ contents s' = contents s
    /\ (production_status = "healthy" <-> next_calls_succeed 2 s)
    /\ (analytics_status = "healthy" \/ analytics_status = "error: OperationalError")
    /\ (is_Some statistics <-> models_trained (self s) = true).
Proof.
  unfold main.health_check, MLRecommendationService.get_health_status,
    try_except, mbind, M_bind.
  cbn.
  destruct (run_probe Production s) as (st1 & s1 & -> & Hc1 & _ & Hp).
  destruct (run_probe Analytics s1) as (st2 & s2 & -> & Hc2 & Ha & _).
  cbn. eexists _, _, _, _, _. split; [reflexivity|].
  split; [congruence|]. split; [exact Hp|]. split; [exact Ha|].
  destruct (models_trained (self s)); split; intros H;
    try reflexivity; try discriminate; eauto.
  destruct H as [x Hx]. discriminate Hx.
Qed.

(* ===================================================================== *)
(** ** Training without the numeric libraries *)
(* ===================================================================== *)







(* ===================================================================== *)
(** ** Weights of the trained graphs *)
(* ===================================================================== *)

Lemma try_except_ImportError_inr_inv {A} (m h : M A) s a s' :
  try_except_ImportError m h s = (inr a, s') ->
  m s = (inr a, s') \/ exists s1, h s1 = (inr a, s').
Proof.
  unfold try_except_ImportError.
  destruct (m s) as [[e|a'] s1]; [|left; assumption].
  destruct e; try discriminate. right. eauto.
Qed.

Lemma NoDup_select_distinct_product_ids db :
  NoDup (SQL.select_distinct_product_ids db).
Proof.
  unfold SQL.select_distinct_product_ids.
  rewrite merge_sort_Permutation. apply NoDup_remove_dups.
Qed.

(** Edges of the co-occurrence fallback: two different products, counted
    at least twice. *)
Lemma simple_copurchase_edge db a b w :
  edge (fallback_copurchase_graph db) a b = Some w -> a <> b /\ (2 <= w)%Q.
Proof.
  unfold fallback_copurchase_graph. intros H.
  apply edge_fold_Some in H as [(r & Hr & Ht & Hw)|H];
    [|rewrite edge_empty in H; discriminate].
  apply list_elem_of_fmap in Hr as ([[x y] f] & -> & Hr).
  apply elem_of_select_cooccurrences in Hr as [-> Hf]. cbn in Hw, Ht. subst w.
  destruct (frequency_positive db x y) as [_ Hlt]; [lia|].
  split.
  - unfold touches in Ht. cbn in Ht. destruct Ht as [[= <- <-]|[= <- <-]]; lia.
  - change 2%Q with (inject_Z 2). rewrite <- Zle_Qle. exact Hf.
Qed.

Lemma threshold_graph_edge t sc ids sims s g s' a b w :
  NoDup ids ->
  MLRecommendationService.threshold_graph t sc ids sims s = (inr g, s') ->
  edge g a b = Some w ->
  a <> b /\ exists v, (t < v)%Q /\ w = (v * sc)%Q.
Proof.
  intros Hnd Hrun H.
  apply (threshold_graph_edges t sc ids sims s g s' Hnd Hrun) in H
    as (i & j & v & Hi & Hj & Hne & _ & Hlt & Hw).
  split; [|eauto]. intros <-. apply Hne. eapply NoDup_lookup; eauto.
Qed.

(** X23: whichever strategy [_build_copurchase_matrix] takes (the learned
    embeddings, the co-occurrence fallback after a failed import or an
    empty interaction table), an edge of the graph it returns never joins a
    product with itself and weighs at least 2. *)
Theorem X23_copurchase_graph_weights ml conn s g s' a b w :
  MLRecommendationService._build_copurchase_matrix ml conn s = (inr g, s') ->
  edge g a b = Some w ->
  a <> b /\ (2 <= w)%Q.
Proof.
  unfold MLRecommendationService._build_copurchase_matrix. intros Hrun Hedge.
  assert (Hsimple : forall s0 s1,
            MLRecommendationService._build_simple_copurchase_matrix conn s0
            = (inr g, s1) -> a <> b /\ (2 <= w)%Q).
  { intros s0 s1 H. rewrite run_build_simple_copurchase_matrix_full in H.
    destruct (bool_decide (_ ∈ _)); [discriminate H|]. injection H as <- _.
    apply (simple_copurchase_edge _ _ _ _ Hedge). }
  apply try_except_ImportError_inr_inv in Hrun as [Hrun|[s1 Hrun]];
    [|apply (Hsimple _ _ Hrun)].
  destruct ml as [k|]; [|discriminate Hrun].
  apply bind_inr_inv in Hrun as ([m|] & s1 & _ & Hrun); [|apply (Hsimple _ _ Hrun)].
  apply bind_inr_inv in Hrun as (item_embeddings & s2 & _ & Hrun).
  apply bind_inr_inv in Hrun as (product_ids & s3 & Hids & Hrun).
  rewrite run_execute_read in Hids.
  destruct (bool_decide (_ ∈ _)); [discriminate Hids|]. injection Hids as <- <-.
  destruct (1 <? length item_embeddings)%nat.
  - destruct (threshold_graph_edge _ _ _ _ _ _ _ a b w
                (NoDup_select_distinct_product_ids _) Hrun Hedge)
      as (Hne & v & Hlt & ->).
    split; [exact Hne|]. lra.
  - injection Hrun as <- _. rewrite edge_empty in Hedge. discriminate.
Qed.

(** X24: whichever strategy [_build_similarity_matrix] takes, when the
    product ids of the mirror are unique an edge of the graph it returns
    never joins a product with itself and weighs more than 0.3. *)
Theorem X24_similarity_graph_weights ml conn s g s' a b w :
  MLRecommendationService._build_similarity_matrix ml conn s = (inr g, s') ->
  NoDup (map p_id (t_products (c_view conn))) ->
  edge g a b = Some w ->
  a <> b /\ (3 # 10 < w)%Q.
Proof.
  unfold MLRecommendationService._build_similarity_matrix. intros Hrun Hnd Hedge.
  assert (Hsimple : forall s0 s1,
            MLRecommendationService._build_simple_similarity_matrix conn s0
            = (inr g, s1) -> a <> b /\ (3 # 10 < w)%Q).
  { intros s0 s1 H. apply run_build_simple_similarity_matrix in H as [_ ->].
    apply simple_similarity_edge in Hedge as (p & q & Hp & Hq & Hab & _ & Hlt & Hin).
    split; [|exact Hlt].
    pose proof (scored_pairs_distinct _ _ Hnd Hin) as Hne. cbn in Hne.
    destruct Hab as [[-> ->]|[-> ->]]; congruence. }
  apply try_except_ImportError_inr_inv in Hrun as [Hrun|[s1 Hrun]];
    [|apply (Hsimple _ _ Hrun)].
  destruct ml as [k|]; [|discriminate Hrun].
  apply bind_inr_inv in Hrun as (products & s1 & Hr & Hrun).
  rewrite run_execute_read in Hr.
  destruct (bool_decide (_ ∈ _)); [discriminate Hr|]. injection Hr as <- <-.
  destruct (length (t_products (c_view conn)) <? 2)%nat.
  { injection Hrun as <- _. rewrite edge_empty in Hedge. discriminate. }
  destruct (scale_and_reduce k _) as [X_reduced|]; [|discriminate Hrun].
  destruct (threshold_graph_edge _ _ _ _ _ _ _ a b w Hnd Hrun Hedge)
    as (Hne & v & Hlt & ->).
  split; [exact Hne|]. lra.
Qed.

Lemma X23_copurchase_graph_weights_witness :
  let conn := mkConnection Analytics Sample.shop in
  let s := Sample.state Sample.untrained Sample.shop Sample.shop Sample.no_files [] in
  let run := MLRecommendationService._build_copurchase_matrix
               (Some Sample.kernels) conn s in
  edge (returned ∅ (fst run)) 1 3 = Some 10%Q
  /\ 1 <> 3 /\ (2 <= 10)%Q.
Proof.
  intros conn s run. split; [vm_compute; reflexivity|].
  apply (X23_copurchase_graph_weights (Some Sample.kernels) conn s
           (returned ∅ (fst run)) (snd run) 1 3 10%Q).
  - vm_compute. reflexivity.
  - vm_compute. reflexivity.
Defined.

Lemma X24_similarity_graph_weights_witness :
  let conn := mkConnection Analytics Sample.shop in
  let s := Sample.state Sample.untrained Sample.shop Sample.shop Sample.no_files [] in
  let run := MLRecommendationService._build_similarity_matrix
               (Some Sample.kernels) conn s in
  edge (returned ∅ (fst run)) 1 3 = Some 1%Q
  /\ 1 <> 3 /\ (3 # 10 < 1)%Q.
Proof.
  intros conn s run. split; [vm_compute; reflexivity|].
  apply (X24_similarity_graph_weights (Some Sample.kernels) conn s
           (returned ∅ (fst run)) (snd run) 1 3 1%Q).
  - vm_compute. reflexivity.
  - refine (bool_decide_unpack _ _). vm_compute. exact I.
  - vm_compute. reflexivity.
Defined.

(* ===================================================================== *)
(** ** The user-item matrix *)
(* ===================================================================== *)

Lemma filter_keyed {K V} `{EqDecision K} (F : K -> V) (keys : list K) (k : K) :
  NoDup keys ->
  filter (fun r => fst r = k) (map (fun g => (g, F g)) keys)
  = if decide (k ∈ keys) then [(k, F k)] else [].
Proof.
  induction keys as [|g keys IH]; intros Hnd.
  - cbn. rewrite decide_False; [reflexivity | apply not_elem_of_nil].
  - apply NoDup_cons in Hnd as [Hg Hnd]. cbn [map]. rewrite filter_cons. cbn [fst].
    rewrite (IH Hnd). destruct (decide (g = k)) as [->|Hne].
    + rewrite decide_False by exact Hg. rewrite decide_True by left. reflexivity.
    + destruct (decide (k ∈ keys)) as [Hin|Hnin].
      * rewrite decide_True by (right; exact Hin). reflexivity.
      * rewrite decide_False; [reflexivity|].
        rewrite not_elem_of_cons. split; [congruence | exact Hnin].
Qed.

Lemma interaction_strength db u i :
  default 0 (last (map snd (filter (fun r => fst r = (u, i))
                                   (SQL.select_interactions db))))
  = quantity_bought db u i.
Proof.
  unfold SQL.select_interactions, quantity_bought.
  rewrite (filter_keyed _ _ (u, i)) by apply NoDup_remove_dups.
  case_decide as Hin; [reflexivity|]. cbn.
  rewrite elem_of_remove_dups in Hin.
  destruct (filter _ (SQL.orders_join_items db)) as [|r l] eqn:E; [reflexivity|].
  exfalso. apply Hin.
  assert (Hr : r ∈ filter (fun r => (o_customer_id (fst r), oi_product_id (snd r)) = (u, i))
                      (SQL.orders_join_items db)) by (rewrite E; left).
  apply list_elem_of_filter in Hr as [Hg Hr]. rewrite <- Hg.
  apply list_elem_of_In, (in_map (fun r => (o_customer_id (fst r), oi_product_id (snd r)))),
    list_elem_of_In, Hr.
Qed.

Lemma run_build_user_item_matrix_Some ml conn s m s' :
  MLRecommendationService._build_user_item_matrix ml conn s = (inr (Some m), s') ->
  SQL.select_interactions (c_view conn) <> []
  /\ m = map (fun u => map (quantity_bought (c_view conn) u)
                           (interaction_products (c_view conn)))
             (interaction_customers (c_view conn)).
Proof.
  unfold MLRecommendationService._build_user_item_matrix. intros H.
  apply try_except_inr_inv in H as [H | (e & s1 & _ & H)]; [|discriminate H].
  apply bind_inr_inv in H as ([] & s1 & _ & H).
  apply bind_inr_inv in H as (interactions & s2 & Hr & H).
  rewrite run_execute_read in Hr.
  destruct (bool_decide (_ ∈ _)); [discriminate Hr|]. injection Hr as <- <-.
  destruct (SQL.select_interactions (c_view conn)) as [|r0 l0] eqn:E;
    [discriminate H|].
  split; [discriminate|]. injection H as <- _.
  unfold interaction_customers, interaction_products. rewrite E.
  apply map_ext. intros u. apply map_ext. intros i.
  rewrite <- E. apply interaction_strength.
Qed.

Lemma nonempty_sorted_distinct (l : list Z) :
  l <> [] -> (0 < length (merge_sort Z.le (remove_dups l)))%nat.
Proof.
  intros Hl. rewrite merge_sort_Permutation.
  destruct l as [|x l]; [contradiction|].
  assert (Hx : x ∈ remove_dups (x :: l)) by (apply elem_of_remove_dups; left).
  destruct (remove_dups (x :: l)); [inversion Hx | cbn; lia].
Qed.

(** X22: when [_build_user_item_matrix] returns a matrix, it has one row
    per customer and one column per product of the interaction table, each
    listed once and in ascending order of id, with at least one of each;
    and the entry of a customer and a product is the total quantity of that
    product on the order lines of that customer (0 when there is none). *)
Theorem X22_user_item_matrix ml conn s m s' :
  MLRecommendationService._build_user_item_matrix ml conn s = (inr (Some m), s') ->
  let db := c_view conn in
  (0 < length (interaction_customers db))%nat
  /\ (0 < length (interaction_products db))%nat
  /\ NoDup (interaction_customers db) /\ Sorted Z.le (interaction_customers db)
  /\ NoDup (interaction_products db) /\ Sorted Z.le (interaction_products db)
  /\ length m = length (interaction_customers db)
  /\ Forall (fun row => length row = length (interaction_products db)) m
  /\ forall r c u i,
       interaction_customers db !! r = Some u ->
       interaction_products db !! c = Some i ->
       m !! r ≫= (fun row => row !! c) = Some (quantity_bought db u i).
Proof.
  intros H db. apply run_build_user_item_matrix_Some in H as [Hne ->]. fold db in Hne |- *.
  split; [|split; [|split; [|split; [|split; [|split; [|split; [|split]]]]]]].
  - apply nonempty_sorted_distinct.
    destruct (SQL.select_interactions db); [contradiction | discriminate].
  - apply nonempty_sorted_distinct.
    destruct (SQL.select_interactions db); [contradiction | discriminate].
  - unfold interaction_customers. rewrite merge_sort_Permutation.
    apply NoDup_remove_dups.
  - apply Sorted_merge_sort. apply _.
  - unfold interaction_products. rewrite merge_sort_Permutation.
    apply NoDup_remove_dups.
  - apply Sorted_merge_sort. apply _.
  - apply length_map.
  - apply Forall_forall. intros row Hrow.
    apply list_elem_of_In, in_map_iff in Hrow as (u & <- & _). apply length_map.
  - intros r c u i Hu Hi.
    change (map ?f ?l) with (f <$> l). rewrite list_lookup_fmap, Hu. cbn.
    rewrite list_lookup_fmap, Hi. reflexivity.
Qed.

Lemma X22_user_item_matrix_witness :
  let conn := mkConnection Analytics Sample.shop in
  let s := Sample.state Sample.untrained Sample.shop Sample.shop Sample.no_files [] in
  let run := MLRecommendationService._build_user_item_matrix
               (Some Sample.kernels) conn s in
  fst run = inr (Some [[3; 3; 1]])
  /\ length [[3; 3; 1]] = length (interaction_customers Sample.shop).
Proof.
  intros conn s run. split; [vm_compute; reflexivity|].
  destruct (X22_user_item_matrix (Some Sample.kernels) conn s [[3; 3; 1]] (snd run))
    as (_ & _ & _ & _ & _ & _ & Hrows & _).
  - vm_compute. reflexivity.
  - exact Hrows.
Defined.

(* ===================================================================== *)
(** ** Silent saves and the status codes of the recommendation endpoints *)
(* ===================================================================== *)

Ltac saved_upto n :=
  cbn; split; [reflexivity|]; split; [reflexivity|]; split; [reflexivity|];
  exists n; split; [lia|]; split;
  [ intros i Hi; repeat (destruct i as [|i]; [cbn; assumption|]); lia
  | split; [first [ intros _; cbn; assumption | intros Hlt; lia ]
           | destruct (files (world _)); reflexivity ] ].

(** X6: [_save_models] never raises and never touches the instance or the
    stores.  Each of the three files is opened for writing, which empties
    it, and then dumped into; the first of these six calls that fails ends
    the save without a report.  So afterwards the files that were dumped
    hold the structures of the instance, a file whose dump failed is left
    truncated, and the files that were not yet opened are what they
    were. *)
Theorem X6_save_models_is_silent s :
  let s' := snd (MLRecommendationService._save_models s) in
  fst (MLRecommendationService._save_models s) = inr tt
  /\ self s' = self s
  /\ stores s' = stores s
  /\ exists n, (n <= 6)%nat
       /\ next_calls_succeed n s
       /\ ((n < 6)%nat -> (n + clock (world s))%nat ∈ faults (world s))
       /\ files (world s') = partly_saved n (self s) (files (world s)).
Proof.
  unfold MLRecommendationService._save_models, try_except, mbind, M_bind, get_state.
  rewrite run_write_file.
  case_bool_decide as H0; [saved_upto 0%nat|].
  case_bool_decide as H1; [saved_upto 1%nat|].
  rewrite run_write_file. cbn [world clock faults].
  case_bool_decide as H2; [saved_upto 2%nat|].
  case_bool_decide as H3; [saved_upto 3%nat|].
  rewrite run_write_file. cbn [world clock faults].
  case_bool_decide as H4; [saved_upto 4%nat|].
  case_bool_decide as H5; [saved_upto 5%nat | saved_upto 6%nat].
Qed.

(** X25: neither recommendation endpoint ever answers 404; and it answers
    200 exactly when the limit is at most 50 and the service returned at
    least one recommendation, the body being the list the service
    returned. *)
Theorem X25_endpoints_never_answer_404 product_id limit s :
  let similar := main.get_similar_products product_id limit s in
  let copurchase := main.get_copurchase_recommendations product_id limit s in
  main.status_code (fst similar) <> 404
  /\ main.status_code (fst copurchase) <> 404
  /\ (main.status_code (fst similar) = 200
      <-> limit <= 50
          /\ exists r recs,
               fst (MLRecommendationService.get_similar_products product_id limit s)
               = inr (r :: recs)
               /\ fst similar = inr (r :: recs))
  /\ (main.status_code (fst copurchase) = 200
      <-> limit <= 50
          /\ exists r recs,
               fst (MLRecommendationService.get_copurchase_recommendations
                      product_id limit s)
               = inr (r :: recs)
               /\ fst copurchase = inr (r :: recs)).
Proof.
  unfold main.get_similar_products, main.get_copurchase_recommendations.
  destruct (Z.ltb_spec 50 limit) as [Hl|Hl].
  { cbn. repeat split; try discriminate; intros [? _]; lia. }
  unfold try_except, mbind, M_bind.
  destruct (MLRecommendationService.get_similar_products product_id limit s)
    as [[e|[|r recs]] s1];
  destruct (MLRecommendationService.get_copurchase_recommendations product_id limit s)
    as [[e'|[|r' recs']] s2]; cbn;
    repeat split; try discriminate; try lia; eauto;
    intros (_ & ? & ? & ? & _); discriminate.
Qed.

(* ===================================================================== *)
(** ** One source per answer *)
(* ===================================================================== *)

Lemma for_each_Forall {A B} (P : B -> Prop) (l : list A)
    (body : list B -> A -> M (list B)) acc s recs s' :
  (forall acc x s r s', body acc x s = (inr r, s') -> Forall P acc -> Forall P r) ->
  Forall P acc ->
  for_each l body acc s = (inr recs, s') ->
  Forall P recs.
Proof.
  intros Hbody. revert acc s. induction l as [|x l IH]; intros acc s Hacc.
  - intros [= <- _]. exact Hacc.
  - intros H. apply bind_inr_inv in H as (acc1 & s1 & Hx & H).
    apply (IH acc1 s1); [|exact H]. apply (Hbody _ _ _ _ _ Hx Hacc).
Qed.

Lemma fallback_similar_products_kind product_id limit s recs s' :
  MLRecommendationService._get_fallback_similar_products product_id limit s
    = (inr recs, s') ->
  Forall from_category_fallback recs.
Proof.
  intros H. apply run_fallback_similar_products in H
    as [-> | (_ & original & results & _ & _ & Hrecs)]; [constructor|].
  apply Forall_forall. intros r Hr.
  destruct (proj1 (list_elem_of_lookup _ _) Hr) as [i Hi].
  destruct (Forall2_lookup_r _ _ _ _ _ Hrecs Hi) as (p & _ & _ & ->).
  split; [reflexivity | eexists; reflexivity].
Qed.

Lemma fallback_copurchase_recommendations_kind product_id limit s recs s' :
  MLRecommendationService._get_fallback_copurchase_recommendations product_id limit s
    = (inr recs, s') ->
  Forall from_cooccurrence_fallback recs.
Proof.
  intros H. apply run_fallback_copurchase_recommendations in H
    as [-> | (results & _ & Hrecs)]; [constructor|].
  apply Forall_forall. intros r Hr.
  destruct (proj1 (list_elem_of_lookup _ _) Hr) as [i Hi].
  destruct (Forall2_lookup_r _ _ _ _ _ Hrecs Hi) as (p & _ & _ & ->).
  split; [reflexivity | eexists; reflexivity].
Qed.

(** X26: an answer is built from one source only.  Every recommendation of
    [get_similar_products] carries its similarity score as reason and the
    instance is trained, or every one is a category fallback with the score
    0.6; likewise every recommendation of [get_copurchase_recommendations]
    reports an edge weight of the co-purchase graph and the instance is
    trained, or every one is a co-occurrence fallback with the score 0.7.
    A run over the graph that raises half way leaves nothing in the
    answer. *)
Theorem X26_answers_are_not_mixed product_id limit s :
  (forall recs s',
     MLRecommendationService.get_similar_products product_id limit s = (inr recs, s') ->
     (models_trained (self s) = true /\ Forall from_similarity_graph recs)
     \/ Forall from_category_fallback recs)
  /\ (forall recs s',
        MLRecommendationService.get_copurchase_recommendations product_id limit s
          = (inr recs, s') ->
        (models_trained (self s) = true /\ Forall from_copurchase_graph recs)
        \/ Forall from_cooccurrence_fallback recs).
Proof.
  split; intros recs s' H.
  - unfold MLRecommendationService.get_similar_products in H.
    apply bind_inr_inv in H as (st & s1 & Hst & H). injection Hst as <- <-.
    destruct (models_trained (self s)) eqn:Ht; cbn [negb] in H;
      [|right; apply (fallback_similar_products_kind _ _ _ _ _ H)].
    apply try_except_inr_inv in H as [H | (e & s1 & _ & H)];
      [|right; apply (fallback_similar_products_kind _ _ _ _ _ H)].
    destruct (similarity_matrix (self s)) as [matrix|]; [|discriminate H].
    destruct (matrix !! product_id) as [similar|];
      [|right; apply (fallback_similar_products_kind _ _ _ _ _ H)].
    left. split; [reflexivity|].
    apply (for_each_Forall from_similarity_graph) in H; [exact H| |constructor].
    intros acc [similar_id score] s0 r s0' Hb Hacc.
    destruct (product_features (self s) !! similar_id) as [product|];
      [|injection Hb as <- _; exact Hacc].
    apply bind_inr_inv in Hb as (y & s2 & Hy & Hb). injection Hb as <- _.
    apply Forall_app. split; [exact Hacc|]. constructor; [|constructor].
    unfold MLRecommendationService.make_recommendation in Hy.
    destruct (p_price product); [|discriminate Hy]. injection Hy as <- _.
    reflexivity.
  - unfold MLRecommendationService.get_copurchase_recommendations in H.
    apply bind_inr_inv in H as (st & s1 & Hst & H). injection Hst as <- <-.
    destruct (models_trained (self s)) eqn:Ht; cbn [negb] in H;
      [|right; apply (fallback_copurchase_recommendations_kind _ _ _ _ _ H)].
    apply try_except_inr_inv in H as [H | (e & s1 & _ & H)];
      [|right; apply (fallback_copurchase_recommendations_kind _ _ _ _ _ H)].
    destruct (copurchase_matrix (self s)) as [matrix|]; [|discriminate H].
    destruct (matrix !! product_id) as [copurchased|];
      [|right; apply (fallback_copurchase_recommendations_kind _ _ _ _ _ H)].
    left. split; [reflexivity|].
    apply (for_each_Forall from_copurchase_graph) in H; [exact H| |constructor].
    intros acc [copurch_id frequency] s0 r s0' Hb Hacc.
    destruct (product_features (self s) !! copurch_id) as [product|];
      [|injection Hb as <- _; exact Hacc].
    destruct (Qeq_bool _ 0); [discriminate Hb|].
    apply bind_inr_inv in Hb as (y & s2 & Hy & Hb). injection Hb as <- _.
    apply Forall_app. split; [exact Hacc|]. constructor; [|constructor].
    unfold MLRecommendationService.make_recommendation in Hy.
    destruct (p_price product); [|discriminate Hy]. injection Hy as <- _.
    eexists. reflexivity.
Qed.
